(** * Kana: container lifecycle orchestration

    A shallow embedding of the Go sources of kana

      - [internal/docker]  : [ensureDockerIsAvailable] (engine availability guard)
      - [internal/site]    : [getWordPressMounts], [getWordPressContainer],
                             [getWordPressContainers], [startWordPress],
                             [stopWordPress], [WPCli]

    together with the properties the specification states about them.

    Go strings are [string]; [fmt.Sprintf] with [%s] verbs is string
    concatenation; a Go [error] is [option error] with [None] for [nil];
    a [map[string]string] is a [gmap string string]; calls that leave the
    process (container engine, file system, console, clock) are recorded
    in a trace and answered by oracles. *)

From Stdlib Require Import ZArith Ascii String List Lia.
From stdpp Require Import base list strings gmap.

Local Open Scope Z_scope.

(** ** Go values *)

(** The text of a non-nil Go [error]. *)
Definition error := string.

(** [fmt.Errorf] without verbs. *)
Definition Errorf (msg : string) : option error := Some msg.

(** Go code that talks to the outside threads a state [S]. *)
Definition StateM (S A : Type) : Type := S -> A * S.

#[global] Instance StateM_ret {S} : MRet (StateM S) := λ A a st, (a, st).
#[global] Instance StateM_bind {S} : MBind (StateM S) :=
  λ A B k m st, let '(a, st') := m st in k a st'.

(** [if err != nil { return r }] followed by the rest of the body. *)
Notation "'iferr' err 'give' r ; k" :=
  (match err with Some _ => mret r | None => k end)
  (at level 20, err at level 9, r at level 9, k at level 200, only parsing) : stdpp_scope.

(** ** Package [strings] *)

Module strings.

(** [strings.Contains(s, substr)]. *)
Fixpoint Contains (s substr : string) : bool :=
  String.prefix substr s ||
  match s with
  | EmptyString => false
  | String _ rest => Contains rest substr
  end.

(** [strings.Join(elems, sep)]. *)
Fixpoint Join (elems : list string) (sep : string) : string :=
  match elems with
  | [] => ""
  | [e] => e
  | e :: rest => e +:+ sep +:+ Join rest sep
  end.

(** [strings.Split(s, "/")]: the slash-separated fields of [s]; never
    empty. *)
Fixpoint SplitSlash (s : string) : list string :=
  match s with
  | EmptyString => [""]
  | String c rest =>
      if Ascii.eqb c "/" then "" :: SplitSlash rest
      else match SplitSlash rest with
           | [] => [String c ""]
           | field :: fields => String c field :: fields
           end
  end.

(** [strings.HasSuffix(s, suffix)]. *)
Definition HasSuffix (s suffix : string) : bool :=
  let n := String.length s in
  let k := String.length suffix in
  (k <=? n)%nat && String.eqb (String.substring (n - k) k s) suffix.

End strings.

(** ** Package [path/filepath] on slash-separated paths

    [Clean] is Go's lexical path normalisation, by path element:
    empty elements and [.] are dropped, an inner [..] removes the element
    before it, a [..] at the start of a rooted path is dropped and kept at
    the start of a relative one; the empty result is [.]. *)

Module filepath.

(** The elements kept so far, last one first. *)
Definition cleanStep (rooted : bool) (kept : list string) (elem : string) : list string :=
  if String.eqb elem "" then kept
  else if String.eqb elem "." then kept
  else if String.eqb elem ".." then
    match kept with
    | top :: below =>
        if String.eqb top ".." then (if rooted then kept else ".." :: kept)
        else below
    | [] => if rooted then [] else [".."]
    end
  else elem :: kept.

Definition isRooted (path : string) : bool :=
  match path with
  | String c _ => Ascii.eqb c "/"
  | EmptyString => false
  end.

Definition Clean (path : string) : string :=
  if String.eqb path "" then "."
  else
    let rooted := isRooted path in
    let kept := fold_left (cleanStep rooted) (strings.SplitSlash path) [] in
    let body := strings.Join (rev kept) "/" in
    if rooted then "/" +:+ body
    else if String.eqb body "" then "." else body.

(** [filepath.Join(elem...)]: leading empty elements are skipped, the
    rest is joined with slashes and cleaned. *)
Fixpoint Join (elem : list string) : string :=
  match elem with
  | [] => ""
  | e :: rest =>
      if String.eqb e "" then Join rest
      else Clean (strings.Join elem "/")
  end.

End filepath.

(** ** Package [mount] of the engine API *)

Module mount.

(** Go's [mount.Type]; [Type] is reserved here, so the record fields of
    that name are spelled [Type_]. *)
Inductive MountType := TypeBind | TypeVolume | TypeTmpfs | TypeNamedPipe.

Record Mount := {
  Type_ : MountType;
  Source : string;
  Target : string;
}.

End mount.

(** ** Package [docker]: container specifications *)

Module docker.

Record ContainerConfig := {
  Name : string;
  Image : string;
  NetworkName : string;
  HostName : string;
  Command : list string;
  Env : list string;
  Labels : gmap string string;
  Volumes : list mount.Mount;
}.

(** [c.Env = append(c.Env, v)]. *)
Definition appendEnv (c : ContainerConfig) (v : string) : ContainerConfig :=
  {| Name := Name c; Image := Image c; NetworkName := NetworkName c;
     HostName := HostName c; Command := Command c; Env := Env c ++ [v];
     Labels := Labels c; Volumes := Volumes c |}.

(** A mount of a running container, as [ContainerGetMounts] reports it. *)
Record MountPoint := {
  MountSource : string;
  Destination : string;
}.

(** *** The engine availability guard *)

Definition maxRetries : Z := 12.
Definition sleepDuration : Z := 5.

(** What the guard does to the outside, in order. *)
Inductive GuardEvent :=
| ContainerList
| Println (msg : string)
| ExecRun (name : string) (args : list string)
| Sleep (seconds : Z).

(** The outside as the guard meets it: the platform, the outcome of the
    [n]-th listing call (from 0) and of running a command. *)
Record Platform := {
  GOOS : string;
  listOutcome : nat -> option error;
  runOutcome : string -> list string -> option error;
}.

Record GuardState := {
  listCalls : nat;
  guardTrace : list GuardEvent;
}.

Definition guardStart : GuardState := {| listCalls := 0%nat; guardTrace := [] |}.

Section Guard.
Variable host : Platform.

Definition apiClient_ContainerList : StateM GuardState (option error) :=
  λ st, (listOutcome host (listCalls st),
         {| listCalls := S (listCalls st);
            guardTrace := guardTrace st ++ [ContainerList] |}).

Definition guardDo (e : GuardEvent) : StateM GuardState unit :=
  λ st, (tt, {| listCalls := listCalls st; guardTrace := guardTrace st ++ [e] |}).

Definition execCommand_Run (name : string) (args : list string)
  : StateM GuardState (option error) :=
  _ ← guardDo (ExecRun name args); mret (runOutcome host name args).

(** The [for retries <= maxRetries] loop; [retries] is a Go [int] that
    stays below 14. The result is what the function returns, or [None]
    when [fuel] iterations were not enough to get there. *)
Fixpoint retryLoop (fuel : nat) (retries : Z) (err : option error)
  : StateM GuardState (option (option error)) :=
  if retries <=? maxRetries then
    match fuel with
    | O => mret None
    | S fuel =>
        let retries := retries + 1 in
        if retries =? maxRetries then
          _ ← guardDo (Println "Restarting Docker is taking too long. We seem to have hit an error");
          mret (Some (Errorf "error: unable to start Docker for Mac"))
        else
          _ ← guardDo (Sleep sleepDuration);
          err ← apiClient_ContainerList;
          match err with
          | Some _ => mret (Some err)
          | None => retryLoop fuel retries err
          end
    end
  else mret (Some err).

Definition ensureDockerIsAvailable (fuel : nat)
  : StateM GuardState (option (option error)) :=
  err ← apiClient_ContainerList;
  match err with
  | Some _ =>
      if String.eqb (GOOS host) "darwin" then
        _ ← guardDo (Println "Docker doesn't appear to be running. Trying to start Docker.");
        err ← execCommand_Run "open" ["-a"; "Docker"];
        match err with
        | Some _ => mret (Some (Errorf "error: unable to start Docker for Mac"))
        | None => retryLoop fuel 0 err
        end
      else mret (Some err)
  | None => mret (Some err)
  end.

End Guard.

End docker.

(** ** Package [settings]: the site descriptor *)

Module settings.

Record Settings := {
  Name : string;
  Type_ : string;
  SiteDirectory : string;
  WorkingDirectory : string;
  SiteDomain : string;
  PHP : string;
  Environment : string;
  IsNamedSite : bool;
  AutomaticLogin : bool;
  WPDebug : bool;
  ScriptDebug : bool;
  UpdateInterval : Z;
}.

End settings.

(** ** Package [site] *)

Module site.

Import settings.

(** The receiver of the methods below. The two generations of the sources
    read the descriptor as [s.Settings.Name] and as
    [s.settings.Get("Name")]; both are the field here. *)
Record Site := { Settings : settings.Settings }.

(** [0750]. *)
Definition defaultDirPermissions : Z := 7 * 64 + 5 * 8 + 0.

(** Calls that leave the process, as the trace records them. *)
Inductive Event :=
| MkdirAll (path : string) (perm : Z)
| Stat (path : string)
| Remove (path : string)
| EnsureNetwork (name : string)
| GetDirectories
| StartContainer (c : docker.ContainerConfig) (randomPorts localUser : bool)
| VerifyDatabase
| ContainerStop (name : string)
| ContainerGetMounts (name : string)
| EnsureImage (image : string) (updateInterval : Z)
| ContainerRunAndClean (c : docker.ContainerConfig) (interactive : bool).

(** The outside: the calls made so far and the containers the engine
    holds. *)
Record World := {
  trace : list Event;
  containers : gset string;
}.

Definition M := StateM World.

Definition emit (e : Event) : M unit :=
  λ w, (tt, {| trace := trace w ++ [e]; containers := containers w |}).

(** The collaborators of the package that are not part of these sources:
    the file system, the docker client, the settings store and the
    sibling methods of [Site]. Each field is the outcome of the call of
    that name. *)
Record Host := {
  DefaultType : string;
  MkdirAll_outcome : string -> Z -> option error;
  Stat_outcome : string -> option error;
  GetSiteLink : Site -> string * option error;
  isUsingSQLite : Site -> bool * option error;
  OverrideType : settings.Settings -> string -> settings.Settings * option error;
  getDirectories_outcome : Site -> string * string * option error;
  getDatabaseContainer :
    Site -> string -> list docker.ContainerConfig -> list docker.ContainerConfig;
  startContainer_outcome : Site -> docker.ContainerConfig -> bool -> bool -> option error;
  verifyDatabase_outcome : Site -> option error;
  EnsureNetwork_outcome : string -> option error;
  EnsureImage_outcome : string -> Z -> option error;
  ContainerGetMounts_outcome : string -> list docker.MountPoint;
  ContainerRunAndClean_outcome : docker.ContainerConfig -> bool -> Z * string * option error;
  engineStop_outcome : string -> option error;
}.

Section Site.
Variable host : Host.

Definition os_MkdirAll (path : string) (perm : Z) : M (option error) :=
  _ ← emit (MkdirAll path perm); mret (MkdirAll_outcome host path perm).

Definition os_Stat (path : string) : M (option error) :=
  _ ← emit (Stat path); mret (Stat_outcome host path).

Definition os_Remove (path : string) : M unit := emit (Remove path).

Definition dockerClient_EnsureNetwork (name : string) : M (option error) :=
  _ ← emit (EnsureNetwork name); mret (EnsureNetwork_outcome host name).

Definition dockerClient_EnsureImage (image : string) (interval : Z) : M (option error) :=
  _ ← emit (EnsureImage image interval); mret (EnsureImage_outcome host image interval).

Definition dockerClient_ContainerGetMounts (name : string) : M (list docker.MountPoint) :=
  _ ← emit (ContainerGetMounts name); mret (ContainerGetMounts_outcome host name).

Definition dockerClient_ContainerRunAndClean (c : docker.ContainerConfig) (interactive : bool)
  : M (Z * string * option error) :=
  _ ← emit (ContainerRunAndClean c interactive);
  mret (ContainerRunAndClean_outcome host c interactive).

Definition getDirectories (s : Site) : M (string * string * option error) :=
  _ ← emit GetDirectories; mret (getDirectories_outcome host s).

Definition startContainer (s : Site) (c : docker.ContainerConfig) (randomPorts localUser : bool)
  : M (option error) :=
  _ ← emit (StartContainer c randomPorts localUser);
  mret (startContainer_outcome host s c randomPorts localUser).

Definition verifyDatabase (s : Site) : M (option error) :=
  _ ← emit VerifyDatabase; mret (verifyDatabase_outcome host s).

(** Modelled from the spec: [ContainerStop] of the docker client, whose
    source is missing. Section 4.3: stopping is idempotent, the absence
    of the target container is not an error, engine communication
    errors propagate as they are. The first result tells whether a
    container was stopped; stopped containers are destroyed. *)
Definition dockerClient_ContainerStop (name : string) : M (bool * option error) :=
  λ w,
    let w' := {| trace := trace w ++ [ContainerStop name]; containers := containers w |} in
    if decide (name ∈ containers w) then
      match engineStop_outcome host name with
      | Some e => ((false, Some e), w')
      | None =>
          ((true, None),
           {| trace := trace w'; containers := containers w ∖ {[name]} |})
      end
    else ((false, None), w').

Definition getWordPressDirectory (s : Site) : M (string * option error) :=
  let wordPressDirectory := filepath.Join [SiteDirectory (Settings s); "wordpress"] in
  let '(siteLink, err) := GetSiteLink host s in
  iferr err give ("", err);
  let wordPressDirectory :=
    if negb (IsNamedSite (Settings s)) || negb (String.eqb siteLink "") then
      if negb (String.eqb (Type_ (Settings s)) (DefaultType host)) then
        filepath.Join [WorkingDirectory (Settings s); "wordpress"]
      else WorkingDirectory (Settings s)
    else wordPressDirectory in
  err ← os_MkdirAll wordPressDirectory defaultDirPermissions;
  iferr err give ("", err);
  mret (wordPressDirectory, err).

Definition getWordPressMounts (s : Site) (appDir : string)
  : M (list mount.Mount * option error) :=
  let appVolumes := [
    {| mount.Type_ := mount.TypeBind;
       mount.Source := appDir;
       mount.Target := "/var/www/html" |};
    {| mount.Type_ := mount.TypeBind;
       mount.Source := SiteDirectory (Settings s);
       mount.Target := "/Site" |} ] in
  let wpContentDir := "/var/www/html/wp-content" in
  let ifTheme (appVolumes : list mount.Mount) : M (list mount.Mount * option error) :=
    if String.eqb (Type_ (Settings s)) "theme" then
      err ← os_MkdirAll
              (filepath.Join [appDir; "wp-content"; "themes"; Name (Settings s)])
              defaultDirPermissions;
      iferr err give (appVolumes, err);
      mret (appVolumes ++ [
        {| mount.Type_ := mount.TypeBind;
           mount.Source := WorkingDirectory (Settings s);
           mount.Target := filepath.Join [wpContentDir; "themes"; Name (Settings s)] |} ],
        None)
    else mret (appVolumes, None) in
  if String.eqb (Type_ (Settings s)) "plugin" then
    err ← os_MkdirAll
            (filepath.Join [appDir; "wp-content"; "plugins"; Name (Settings s)])
            defaultDirPermissions;
    iferr err give (appVolumes, err);
    ifTheme (appVolumes ++ [
      {| mount.Type_ := mount.TypeBind;
         mount.Source := WorkingDirectory (Settings s);
         mount.Target := filepath.Join [wpContentDir; "plugins"; Name (Settings s)] |} ])
  else ifTheme appVolumes.

Definition getWordPressContainer (s : Site) (appVolumes : list mount.Mount)
    (appContainers : list docker.ContainerConfig) : list docker.ContainerConfig :=
  let hostRule := "Host(`" +:+ SiteDomain (Settings s) +:+ "`)" in
  let envVars := ["IS_KANA_ENVIRONMENT=true"] in
  let '(isUsingSQLite, err) := isUsingSQLite host s in
  match err with
  | Some _ => appContainers
  | None =>
      let envVars :=
        if isUsingSQLite then envVars ++ ["KANA_SQLITE=true"]
        else envVars ++ [
          "WORDPRESS_DB_HOST=kana-" +:+ Name (Settings s) +:+ "-database";
          "WORDPRESS_DB_USER=wordpress";
          "WORDPRESS_DB_PASSWORD=wordpress";
          "WORDPRESS_DB_NAME=wordpress";
          "WORDPRESS_ADMIN_USER=admin" ] in
      let wordPressContainer := {|
        docker.Name := "kana-" +:+ Name (Settings s) +:+ "-wordpress";
        docker.Image := "wordpress:php" +:+ PHP (Settings s);
        docker.NetworkName := "kana";
        docker.HostName := "kana-" +:+ Name (Settings s) +:+ "-wordpress";
        docker.Command := [];
        docker.Env := envVars;
        docker.Labels := list_to_map [
          ("traefik.enable", "true");
          ("kana.type", "wordpress");
          ("traefik.http.routers.wordpress-" +:+ Name (Settings s) +:+ "-http.entrypoints", "web");
          ("traefik.http.routers.wordpress-" +:+ Name (Settings s) +:+ "-http.rule", hostRule);
          ("traefik.http.routers.wordpress-" +:+ Name (Settings s) +:+ ".entrypoints", "websecure");
          ("traefik.http.routers.wordpress-" +:+ Name (Settings s) +:+ ".rule", hostRule);
          ("traefik.http.routers.wordpress-" +:+ Name (Settings s) +:+ ".tls", "true");
          ("kana.site", Name (Settings s)) ];
        docker.Volumes := appVolumes |} in
      let wordPressContainer :=
        if AutomaticLogin (Settings s)
        then docker.appendEnv wordPressContainer "KANA_ADMIN_LOGIN=true"
        else wordPressContainer in
      let wordPressContainer :=
        if WPDebug (Settings s)
        then docker.appendEnv wordPressContainer "WORDPRESS_DEBUG=1"
        else wordPressContainer in
      let extraConfig :=
        "WORDPRESS_CONFIG_EXTRA=define( 'WP_ENVIRONMENT_TYPE', '"
          +:+ Environment (Settings s) +:+ "' );" in
      let extraConfig :=
        if ScriptDebug (Settings s)
        then extraConfig +:+ "define( 'SCRIPT_DEBUG', true );"
        else extraConfig in
      let wordPressContainer := docker.appendEnv wordPressContainer extraConfig in
      appContainers ++ [wordPressContainer]
  end.

(** The container names of the site. *)
Definition getWordPressContainers (s : Site) : list string := [
  "kana-" +:+ Name (Settings s) +:+ "-database";
  "kana-" +:+ Name (Settings s) +:+ "-wordpress";
  "kana-" +:+ Name (Settings s) +:+ "-phpmyadmin";
  "kana-" +:+ Name (Settings s) +:+ "-mailpit" ].

(** [for i := range appContainers] of [startWordPress]. *)
Fixpoint startEach (s : Site) (appContainers : list docker.ContainerConfig)
  : M (option error) :=
  match appContainers with
  | [] => mret None
  | c :: rest =>
      err ← startContainer s c true true;
      iferr err give err;
      startEach s rest
  end.

Definition startWordPress (s : Site) : M (option error) :=
  err ← dockerClient_EnsureNetwork "kana";
  iferr err give err;
  '(appDir, databaseDir, err) ← getDirectories s;
  iferr err give err;
  err ← os_Stat (filepath.Join [appDir; "wp-config.php"]);
  _ ← match err with
      | None => os_Remove (filepath.Join [appDir; "wp-config.php"])
      | Some _ => mret tt
      end;
  '(appVolumes, err) ← getWordPressMounts s appDir;
  iferr err give err;
  let appContainers := [] in
  let appContainers := getDatabaseContainer host s databaseDir appContainers in
  let appContainers := getWordPressContainer s appVolumes appContainers in
  err ← startEach s appContainers;
  iferr err give err;
  verifyDatabase s.

(** [for _, wordPressContainer := range wordPressContainers] of
    [stopWordPress]. *)
Fixpoint stopEach (wordPressContainers : list string) : M (option error) :=
  match wordPressContainers with
  | [] => mret None
  | wordPressContainer :: rest =>
      '(_, err) ← dockerClient_ContainerStop wordPressContainer;
      iferr err give err;
      stopEach rest
  end.

Definition stopWordPress (s : Site) : M (option error) :=
  let wordPressContainers := getWordPressContainers s in
  stopEach wordPressContainers.

(** [for _, mount := range mounts] of [WPCli]: the artifact type is
    taken from what the running application container has mounted. *)
Fixpoint overrideTypes (mounts : list docker.MountPoint) (st : settings.Settings)
  : settings.Settings * option error :=
  match mounts with
  | [] => (st, None)
  | m :: rest =>
      let '(st, err) :=
        if strings.Contains (docker.Destination m) "/var/www/html/wp-content/plugins/"
        then OverrideType host st "plugin" else (st, None) in
      match err with
      | Some _ => (st, err)
      | None =>
          let '(st, err) :=
            if strings.Contains (docker.Destination m) "/var/www/html/wp-content/themes/"
            then OverrideType host st "theme" else (st, None) in
          match err with
          | Some _ => (st, err)
          | None => overrideTypes rest st
          end
      end
  end.

(** Runs a wp-cli command, returning its output and any errors; the
    first component is the receiver after the call. *)
Definition WPCli (s : Site) (command : list string) (interactive : bool)
  : M (Site * (Z * string * option error)) :=
  mounts ← dockerClient_ContainerGetMounts ("kana-" +:+ Name (Settings s) +:+ "-wordpress");
  let '(st, err) := overrideTypes mounts (Settings s) in
  let s := {| Settings := st |} in
  iferr err give (s, (1, "", err));
  '(wordPressDirectory, err) ← getWordPressDirectory s;
  iferr err give (s, (1, "", err));
  '(appVolumes, err) ← getWordPressMounts s wordPressDirectory;
  iferr err give (s, (1, "", err));
  let fullCommand := ["wp"; "--path=/var/www/html"] in
  let fullCommand := fullCommand ++ command in
  let envVars := ["IS_KANA_ENVIRONMENT=true"] in
  let '(isUsingSQLite, err) := isUsingSQLite host s in
  iferr err give (s, (1, "", err));
  let envVars :=
    if isUsingSQLite then envVars ++ ["KANA_SQLITE=true"]
    else envVars ++ [
      "WORDPRESS_DB_HOST=kana-" +:+ Name (Settings s) +:+ "-database";
      "WORDPRESS_DB_USER=wordpress";
      "WORDPRESS_DB_PASSWORD=wordpress";
      "WORDPRESS_DB_NAME=wordpress";
      "WORDPRESS_ADMIN_USER=admin" ] in
  let container := {|
    docker.Name := "kana-" +:+ Name (Settings s) +:+ "-wordpress_cli";
    docker.Image := "wordpress:cli-php" +:+ PHP (Settings s);
    docker.NetworkName := "kana";
    docker.HostName := "kana-" +:+ Name (Settings s) +:+ "-wordpress_cli";
    docker.Command := fullCommand;
    docker.Env := envVars;
    docker.Labels := list_to_map [ ("kana.site", Name (Settings s)) ];
    docker.Volumes := appVolumes |} in
  let container :=
    if AutomaticLogin (Settings s)
    then docker.appendEnv container "KANA_ADMIN_LOGIN=true"
    else container in
  err ← dockerClient_EnsureImage (docker.Image container) (UpdateInterval (Settings s));
  iferr err give (s, (1, "", err));
  '(code, output, err) ← dockerClient_ContainerRunAndClean container interactive;
  iferr err give (s, (code, "", err));
  mret (s, (code, output, None)).

End Site.

End site.

(** ** Sample hosts and descriptors *)

Module samples.

Import docker.

Definition daemonDown : error := "Cannot connect to the Docker daemon".

(** macOS; the engine is down at the first check and answers every
    listing call after the launch. *)
Definition reachableAfterLaunch : Platform :=
  {| GOOS := "darwin";
     listOutcome := λ n, match n with O => Some daemonDown | S _ => None end;
     runOutcome := λ _ _, None |}.

(** macOS; the engine answers from the third retry on. *)
Definition reachableOnThirdRetry : Platform :=
  {| GOOS := "darwin";
     listOutcome := λ n, if (n <? 3)%nat then Some daemonDown else None;
     runOutcome := λ _ _, None |}.

(** macOS; the engine never answers. *)
Definition neverReachable : Platform :=
  {| GOOS := "darwin";
     listOutcome := λ _, Some daemonDown;
     runOutcome := λ _ _, None |}.

Import settings.

(** A host on which every call succeeds; the embedded-database check
    answers [sqlite] and commands print [output]. *)
Definition calmHost (sqlite : bool * option error) (run : Z * string * option error)
  : site.Host :=
  {| site.DefaultType := "site";
     site.MkdirAll_outcome := λ _ _, None;
     site.Stat_outcome := λ _, Some "no such file or directory";
     site.GetSiteLink := λ _, ("", None);
     site.isUsingSQLite := λ _, sqlite;
     site.OverrideType := λ st _, (st, None);
     site.getDirectories_outcome := λ _, ("/sites/acme/wordpress", "/sites/acme/database", None);
     site.getDatabaseContainer := λ s _ cs,
       cs ++ [ {| docker.Name := "kana-" +:+ Name (site.Settings s) +:+ "-database";
                  docker.Image := "mariadb";
                  docker.NetworkName := "kana";
                  docker.HostName := "kana-" +:+ Name (site.Settings s) +:+ "-database";
                  docker.Command := [];
                  docker.Env := [];
                  docker.Labels := ∅;
                  docker.Volumes := [] |} ];
     site.startContainer_outcome := λ _ _ _ _, None;
     site.verifyDatabase_outcome := λ _, None;
     site.EnsureNetwork_outcome := λ _, None;
     site.EnsureImage_outcome := λ _ _, None;
     site.ContainerGetMounts_outcome := λ _, [];
     site.ContainerRunAndClean_outcome := λ _ _, run;
     site.engineStop_outcome := λ _, None |}.

(** The descriptor of an artifact [name] of type [type], every flag off
    and every other text empty but the directories. *)
Definition descriptor (name type : string) : site.Site :=
  {| site.Settings :=
       {| Name := name; Type_ := type;
          SiteDirectory := "/sites/acme"; WorkingDirectory := "/home/dev/acme";
          SiteDomain := ""; PHP := ""; Environment := "";
          IsNamedSite := false; AutomaticLogin := false;
          WPDebug := false; ScriptDebug := false; UpdateInterval := 0 |} |}.

Definition freshWorld : site.World := {| site.trace := []; site.containers := ∅ |}.

(** A site with automatic login and debugging on, in the [local]
    environment. *)
Definition debuggedSite : site.Site :=
  {| site.Settings :=
       {| Name := "acme"; Type_ := "site";
          SiteDirectory := "/sites/acme"; WorkingDirectory := "/home/dev/acme";
          SiteDomain := "acme.sites.kana.sh"; PHP := "8.2"; Environment := "local";
          IsNamedSite := false; AutomaticLogin := true;
          WPDebug := true; ScriptDebug := false; UpdateInterval := 7 |} |}.

End samples.

(** ** Vocabulary of the properties *)

(** A path element that [filepath.Clean] keeps as it is. *)
Definition plainElement (e : string) : bool :=
  negb (String.eqb e "") && negb (String.eqb e ".") && negb (String.eqb e "..").

(** A name all of whose slash-separated elements are plain: [acme],
    [acme/blocks], but not the empty name, [.], [..], [acme/] or [a//b]. *)
Definition plainName (name : string) : bool :=
  forallb plainElement (strings.SplitSlash name).

(** A name none of whose slash-separated elements is [..]. *)
Definition noDotDot (name : string) : bool :=
  forallb (λ e, negb (String.eqb e "..")) (strings.SplitSlash name).

Fixpoint noSlash (s : string) : bool :=
  match s with
  | EmptyString => true
  | String c rest => negb (Ascii.eqb c "/") && noSlash rest
  end.

(** The two binds every site has. *)
Definition alwaysMounted (s : site.Site) (appDir : string) : list mount.Mount := [
  {| mount.Type_ := mount.TypeBind; mount.Source := appDir; mount.Target := "/var/www/html" |};
  {| mount.Type_ := mount.TypeBind;
     mount.Source := settings.SiteDirectory (site.Settings s);
     mount.Target := "/Site" |} ].

(** The bind of the working directory into [dir] of the content
    directory. *)
Definition artifactMount (s : site.Site) (dir : string) : mount.Mount :=
  {| mount.Type_ := mount.TypeBind;
     mount.Source := settings.WorkingDirectory (site.Settings s);
     mount.Target :=
       filepath.Join ["/var/www/html/wp-content"; dir; settings.Name (site.Settings s)] |}.

(** The environment of a container, by blocks. *)
Definition marker : string := "IS_KANA_ENVIRONMENT=true".

Definition databaseBlock (st : settings.Settings) (isUsingSQLite : bool) : list string :=
  if isUsingSQLite then ["KANA_SQLITE=true"]
  else [ "WORDPRESS_DB_HOST=kana-" +:+ settings.Name st +:+ "-database";
         "WORDPRESS_DB_USER=wordpress";
         "WORDPRESS_DB_PASSWORD=wordpress";
         "WORDPRESS_DB_NAME=wordpress";
         "WORDPRESS_ADMIN_USER=admin" ].

Definition loginBlock (st : settings.Settings) : list string :=
  if settings.AutomaticLogin st then ["KANA_ADMIN_LOGIN=true"] else [].

Definition debugBlock (st : settings.Settings) : list string :=
  if settings.WPDebug st then ["WORDPRESS_DEBUG=1"] else [].

(** The variable that declares the environment type, with the script
    debugging switch inside its value. *)
Definition extraConfig (st : settings.Settings) : string :=
  let declaration :=
    "WORDPRESS_CONFIG_EXTRA=define( 'WP_ENVIRONMENT_TYPE', '"
      +:+ settings.Environment st +:+ "' );" in
  if settings.ScriptDebug st
  then declaration +:+ "define( 'SCRIPT_DEBUG', true );"
  else declaration.

(** A variable of the connection to the database container. *)
Definition remoteDatabaseVariable (v : string) : bool := String.prefix "WORDPRESS_DB_" v.

Definition isMkdirAll (e : site.Event) : Prop := ∃ path perm, e = site.MkdirAll path perm.

(** [w'] is [w] after some directories were created. *)
Definition afterMkdirs (w w' : site.World) : Prop :=
  site.containers w' = site.containers w
  ∧ ∃ evs, site.trace w' = site.trace w ++ evs ∧ Forall isMkdirAll evs.

Definition runIsNotLast (w : site.World) : Prop :=
  ∀ c i, last (site.trace w) ≠ Some (site.ContainerRunAndClean c i).

(** The containers run as commands, and those started, in a trace. *)
Definition commandContainers (tr : list site.Event) : list docker.ContainerConfig :=
  omap (λ e, match e with site.ContainerRunAndClean c _ => Some c | _ => None end) tr.

Definition startedContainers (tr : list site.Event) : list docker.ContainerConfig :=
  omap (λ e, match e with site.StartContainer c _ _ => Some c | _ => None end) tr.

(** ** Package [docker]: creating the client *)

Module dockerClient.

Section Client.
(** The engine API client and the store of image update times, both from
    outside these sources. *)
Variables APIClient ViperClient : Type.

Record DockerClient := {
  apiClient : APIClient;
  imageUpdateData : ViperClient;
  checkedImages : list string;
}.

Variable platform : docker.Platform.

(** The outcome of [client.NewClientWithOpts(client.FromEnv)] and of
    [loadImageUpdateData]. *)
Variable NewClientWithOpts_outcome : APIClient * option error.
Variable loadImageUpdateData : string -> ViperClient * option error.

(** [None] when [fuel] was not enough for the guard; otherwise the client,
    [None] for Go's [nil], and the error. *)
Definition NewDockerClient (fuel : nat) (appDirectory : string)
  : StateM docker.GuardState (option (option DockerClient * option error)) :=
  let '(api, err) := NewClientWithOpts_outcome in
  match err with
  | Some _ => mret (Some (None, err))
  | None =>
      available ← docker.ensureDockerIsAvailable platform fuel;
      match available with
      | None => mret None
      | Some (Some e) => mret (Some (None, Some e))
      | Some None =>
          let '(data, _) := loadImageUpdateData appDirectory in
          mret (Some (Some {| apiClient := api;
                              imageUpdateData := data;
                              checkedImages := [] |}, None))
      end
  end.

End Client.

End dockerClient.

(** ** Package [wordpress]: the first generation of the site containers *)

Module wordpress.

(** What [NewWordPress] asks of the controller, in order. *)
Inductive Event :=
| EnsureImage (image : string)
| ContainerRun (c : docker.ContainerConfig).

(** How a call ends: it returns, or it panics with an error. *)
Inductive Completion :=
| Returned
| Panicked (err : error).

(** The containers of a site: the database and the application. *)
Definition wordPressContainers (siteName : string) : list docker.ContainerConfig := [
  {| docker.Name := "";
     docker.Image := "mariadb";
     docker.NetworkName := "kana";
     docker.HostName := "kana_" +:+ siteName +:+ "_mariadb";
     docker.Command := [];
     docker.Env := [
       "MARIADB_ROOT_PASSWORD=password";
       "MARIADB_DATABASE=wordpress";
       "MARIADB_USER=wordpress";
       "MARIADB_PASSWORD=wordpress" ];
     docker.Labels := ∅;
     docker.Volumes := [] |};
  {| docker.Name := "";
     docker.Image := "wordpress";
     docker.NetworkName := "kana";
     docker.HostName := "kana_" +:+ siteName +:+ "_wordpress";
     docker.Command := [];
     docker.Env := [
       "WORDPRESS_DB_HOST=kana_" +:+ siteName +:+ "_mariadb";
       "WORDPRESS_DB_USER=wordpress";
       "WORDPRESS_DB_PASSWORD=wordpress";
       "WORDPRESS_DB_NAME=wordpress" ];
     docker.Labels := list_to_map [
       ("traefik.enable", "true");
       ("traefik.http.routers.wordpress-" +:+ siteName +:+ "-http.entrypoints", "web");
       ("traefik.http.routers.wordpress-" +:+ siteName +:+ "-http.rule",
        "Host(`" +:+ siteName +:+ ".sites.cfw.li`)");
       ("traefik.http.routers.wordpress-" +:+ siteName +:+ ".entrypoints", "websecure");
       ("traefik.http.routers.wordpress-" +:+ siteName +:+ ".rule",
        "Host(`" +:+ siteName +:+ ".sites.cfw.li`)");
       ("traefik.http.routers.wordpress-" +:+ siteName +:+ ".tls", "true") ];
     docker.Volumes := [] |} ].

Section Controller.
(** The outcome of the controller's calls. *)
Variable EnsureImage_outcome : string -> option error.
Variable ContainerRun_outcome : docker.ContainerConfig -> option error.

Definition controller_EnsureImage (image : string) : StateM (list Event) (option error) :=
  λ tr, (EnsureImage_outcome image, tr ++ [EnsureImage image]).

Definition controller_ContainerRun (c : docker.ContainerConfig)
  : StateM (list Event) (option error) :=
  λ tr, (ContainerRun_outcome c, tr ++ [ContainerRun c]).

(** [for _, container := range wordPressContainers]. *)
Fixpoint runEach (containers : list docker.ContainerConfig)
  : StateM (list Event) Completion :=
  match containers with
  | [] => mret Returned
  | container :: rest =>
      err ← controller_EnsureImage (docker.Image container);
      match err with
      | Some e => mret (Panicked e)
      | None =>
          err ← controller_ContainerRun container;
          match err with
          | Some e => mret (Panicked e)
          | None => runEach rest
          end
      end
  end.

Definition NewWordPress (siteName : string) : StateM (list Event) Completion :=
  runEach (wordPressContainers siteName).

End Controller.

End wordpress.

(** ** Package [site]: setting WordPress up inside the containers *)

Module provision.

Record PluginInfo := {
  Name : string;
  Status : string;
  Update : string;
  Version : string;
}.

(** The descriptor as these functions read it: the fields of
    [settings.Settings] and the ones only they use. *)
Record SiteSettings := {
  Core : settings.Settings;
  Activate : bool;
  Theme : string;
  Plugins : list string;
  Multisite : string;
  URL : string;
  AdminUsername : string;
  AdminPassword : string;
  AdminEmail : string;
}.

Record Site := { Settings : SiteSettings }.

(** The receiver as the functions of [site] above take it. *)
Definition core (s : Site) : site.Site := {| site.Settings := Core (Settings s) |}.

(** What these functions do to the outside, besides what [site.World]
    records. *)
Inductive Event :=
| Println (msg : string)
| Warn (msg : string)
| WPCliCall (command : list string) (interactive : bool)
| WriteFile (path contents : string) (perm : Z)
| EnsureKanaPlugin (directory name : string)
| ContainerExec (container : string) (root : bool) (command : list string)
| ContainerRestart (container : string).

Record World := {
  log : list Event;
  engine : site.World;
}.

Definition P := StateM World.

Definition emit (e : Event) : P unit :=
  λ w, (tt, {| log := log w ++ [e]; engine := engine w |}).

(** A computation of [site], run on the engine part of the world. *)
Definition liftSite {A} (m : site.M A) : P A :=
  λ w, let '(a, e) := m (engine w) in (a, {| log := log w; engine := e |}).

(** How [installWordPress] ends: it returns an error or [nil], or it
    panics on calling [Error()] on a nil error. *)
Inductive Completion :=
| Returns (err : option error)
| Panics.

Section Provision.
(** The result of executing a command in a container; [docker.ExecResult]
    is declared outside these sources. *)
Variable ExecResult : Type.
Variable zeroExecResult : ExecResult.

(** [type Cli interface]; its implementations act on the engine. *)
Record Cli := {
  WordPress : string -> bool -> bool -> site.M (ExecResult * option error);
  WPCli : list string -> bool -> site.M (Z * string * option error);
}.

(** The collaborators that are not part of these sources: the console, the
    JSON decoder, [strings.TrimSpace], the settings store, the file system
    and the docker client. *)
Record Host := {
  siteHost : site.Host;
  GOOS : string;
  Bold : string -> string;
  Blue : string -> string;
  TrimSpace : string -> string;
  Unmarshal : string -> list PluginInfo * option error;
  GetDefaultPermissions : Z * Z;
  GetHtaccess : SiteSettings -> string;
  WriteFile_outcome : string -> string -> Z -> option error;
  EnsureKanaPlugin_outcome : string -> string -> option error;
  ContainerExec_outcome : string -> bool -> list string -> ExecResult * option error;
  ContainerRestart_outcome : string -> option error;
}.

Variable host : Host.
Variable cli : Cli.

Definition consoleOutput_Println (msg : string) : P unit := emit (Println msg).
Definition consoleOutput_Warn (msg : string) : P unit := emit (Warn msg).

(** [s.Cli.WPCli(command, interactive, consoleOutput)]. *)
Definition Cli_WPCli (command : list string) (interactive : bool)
  : P (Z * string * option error) :=
  _ ← emit (WPCliCall command interactive); liftSite (WPCli cli command interactive).

Definition os_WriteFile (path contents : string) (perm : Z) : P (option error) :=
  _ ← emit (WriteFile path contents perm); mret (WriteFile_outcome host path contents perm).

Definition dockerClient_ContainerExec (container : string) (root : bool) (command : list string)
  : P (ExecResult * option error) :=
  _ ← emit (ContainerExec container root command);
  mret (ContainerExec_outcome host container root command).

Definition dockerClient_ContainerRestart (container : string) : P (option error) :=
  _ ← emit (ContainerRestart container); mret (ContainerRestart_outcome host container).

(** [for _, plugin := range rawPlugins] of [getInstalledWordPressPlugins]. *)
Fixpoint scanPlugins (s : Site) (rawPlugins : list PluginInfo)
    (plugins : list string) (hasDefaultPlugins : bool) : list string * bool :=
  match rawPlugins with
  | [] => (plugins, hasDefaultPlugins)
  | plugin :: rest =>
      let plugins :=
        if negb (String.eqb (Status plugin) "dropin")
           && negb (String.eqb (Status plugin) "must-use")
           && negb (String.eqb (Name plugin) (settings.Name (Core (Settings s))))
           && negb (String.eqb (Name plugin) "hello")
           && negb (String.eqb (Name plugin) "akismet")
        then plugins ++ [Name plugin]
        else plugins in
      let hasDefaultPlugins :=
        if String.eqb (Name plugin) "hello" || String.eqb (Name plugin) "akismet"
        then true
        else hasDefaultPlugins in
      scanPlugins s rest plugins hasDefaultPlugins
  end.

(** Returns the list of installed plugins and whether default plugins
    are still present. *)
Definition getInstalledWordPressPlugins (s : Site) : P (list string * bool * option error) :=
  let commands := ["plugin"; "list"; "--format=json"] in
  let hasDefaultPlugins := false in
  '(_, commandOutput, err) ← Cli_WPCli commands false;
  iferr err give ([], true, err);
  let plugins := [] in
  let '(rawPlugins, err) := Unmarshal host commandOutput in
  iferr err give ([], true, err);
  let '(plugins, hasDefaultPlugins) := scanPlugins s rawPlugins plugins hasDefaultPlugins in
  mret (plugins, hasDefaultPlugins, None).

Definition activateProject (s : Site) : P (option error) :=
  if Activate (Settings s) && negb (String.eqb (settings.Type_ (Core (Settings s))) "site") then
    _ ← consoleOutput_Println
          ("Activating " +:+ settings.Type_ (Core (Settings s)) +:+ ":  "
             +:+ Bold host (Blue host (settings.Name (Core (Settings s)))));
    let setupCommand :=
      [settings.Type_ (Core (Settings s)); "activate"; settings.Name (Core (Settings s))] in
    '(code, _, err) ← Cli_WPCli setupCommand false;
    iferr err give err;
    _ ← (if negb (code =? 0) then
           consoleOutput_Warn
             ("Unable to activate " +:+ settings.Type_ (Core (Settings s)) +:+ ": "
                +:+ Bold host (Blue host (settings.Name (Core (Settings s)))) +:+ ".")
         else mret tt);
    mret None
  else mret None.

Definition activateTheme (s : Site) : P (option error) :=
  if String.eqb (settings.Type_ (Core (Settings s))) "theme"
     || String.eqb (Theme (Settings s)) "" then mret None
  else
    _ ← consoleOutput_Println
          ("Installing default theme:  " +:+ Bold host (Blue host (Theme (Settings s))));
    let setupCommand := ["theme"; "install"; "--activate"; Theme (Settings s)] in
    '(code, _, err) ← Cli_WPCli setupCommand false;
    iferr err give err;
    _ ← (if negb (code =? 0) then
           consoleOutput_Warn
             ("Unable to install theme: " +:+ Bold host (Blue host (Theme (Settings s))) +:+ ".")
         else mret tt);
    mret None.

(** [for _, installedPlugin := range installedPlugins] of
    [installDefaultPlugins]. *)
Fixpoint matchInstalled (installedPlugins : list string) (plugin : string)
    (setupCommand : list string) : list string :=
  match installedPlugins with
  | [] => setupCommand
  | installedPlugin :: rest =>
      let setupCommand :=
        if String.eqb installedPlugin plugin
        then ["plugin"; "install"; "--activate"; plugin]
        else setupCommand in
      matchInstalled rest plugin setupCommand
  end.

(** [for _, plugin := range s.Settings.Plugins] of [installDefaultPlugins]. *)
Fixpoint installEach (installedPlugins : list string) (plugins : list string)
  : P (option error) :=
  match plugins with
  | [] => mret None
  | plugin :: rest =>
      let setupCommand := ["plugin"; "install"; "--activate"; plugin] in
      let setupCommand := matchInstalled installedPlugins plugin setupCommand in
      _ ← consoleOutput_Println ("Installing plugin:  " +:+ Bold host (Blue host plugin));
      '(code, _, err) ← Cli_WPCli setupCommand false;
      iferr err give err;
      _ ← (if negb (code =? 0) then
             consoleOutput_Warn
               ("Unable to install plugin: " +:+ Bold host (Blue host plugin) +:+ ".")
           else mret tt);
      installEach installedPlugins rest
  end.

(** Installs a list of WordPress plugins. *)
Definition installDefaultPlugins (s : Site) : P (option error) :=
  '(installedPlugins, _, err) ← getInstalledWordPressPlugins s;
  iferr err give err;
  installEach installedPlugins (Plugins (Settings s)).

(** Installs the Kana development plugin. *)
Definition installKanaPlugin (s : Site) : P (option error) :=
  '(wordPressDirectory, err) ← liftSite (site.getWordPressDirectory (siteHost host) (core s));
  iferr err give err;
  _ ← emit (EnsureKanaPlugin wordPressDirectory (settings.Name (Core (Settings s))));
  mret (EnsureKanaPlugin_outcome host wordPressDirectory (settings.Name (Core (Settings s)))).

Definition writeHtaccess (s : Site) : P (option error) :=
  '(wordPressDirectory, err) ← liftSite (site.getWordPressDirectory (siteHost host) (core s));
  iferr err give err;
  let '(_, filePerms) := GetDefaultPermissions host in
  let htaccessContents := GetHtaccess host (Settings s) in
  os_WriteFile (filepath.Join [wordPressDirectory; ".htaccess"]) htaccessContents filePerms.

(** [for _, option := range options] of [installWordPress]; a non-zero
    status without an error reaches [err.Error()] with [err] nil. *)
Fixpoint updateOptions (s : Site) (options : list string) : P Completion :=
  match options with
  | [] => mret (Returns None)
  | option :: rest =>
      let setSiteURLCommand := ["option"; "update"; option; URL (Settings s)] in
      '(code, _, err) ← Cli_WPCli setSiteURLCommand false;
      match err with
      | Some e => mret (Returns (Errorf ("installation of WordPress failed: " +:+ e)))
      | None =>
          if negb (code =? 0) then mret Panics
          else updateOptions s rest
      end
  end.

(** Installs and configures WordPress core. *)
Definition installWordPress (s : Site) : P Completion :=
  let checkCommand := ["option"; "get"; "siteurl"] in
  '(code, checkURL, err) ← Cli_WPCli checkCommand false;
  if bool_decide (err ≠ None) || negb (code =? 0) then
    _ ← consoleOutput_Println "Finishing WordPress setup.";
    let installCommand := "install" in
    let installCommand :=
      if negb (String.eqb (Multisite (Settings s)) "none") then "multisite-install"
      else installCommand in
    let setupCommand := [
      "core";
      installCommand;
      "--url=" +:+ URL (Settings s);
      "--title=Kana Development " +:+ settings.Type_ (Core (Settings s)) +:+ ": "
        +:+ settings.Name (Core (Settings s));
      "--admin_user=" +:+ AdminUsername (Settings s);
      "--admin_password=" +:+ AdminPassword (Settings s);
      "--admin_email=" +:+ AdminEmail (Settings s) ] in
    let install (setupCommand : list string) : P Completion :=
      '(code, output, err) ← Cli_WPCli setupCommand false;
      if bool_decide (err ≠ None) || negb (code =? 0)
      then mret (Returns (Errorf ("installation of WordPress failed: " +:+ output)))
      else mret (Returns None) in
    if String.eqb installCommand "multisite-install" then
      let setupCommand :=
        if String.eqb (Multisite (Settings s)) "subdomain"
        then setupCommand ++ ["--subdomains"]
        else setupCommand in
      err ← writeHtaccess s;
      match err with
      | Some _ => mret (Returns err)
      | None => install setupCommand
      end
    else install setupCommand
  else if negb (String.eqb (TrimSpace host checkURL) (URL (Settings s))) then
    _ ← consoleOutput_Println "The SSL config has changed. Updating the site URL accordingly.";
    updateOptions s ["siteurl"; "home"]
  else mret (Returns None).

(** Ensures the www-data user owns the WordPress directory. *)
Definition resetWPFilePermissions (s : Site) : P (option error) :=
  if String.eqb (GOOS host) "linux" then mret None
  else
    '(_, err) ← dockerClient_ContainerExec
                  ("kana-" +:+ settings.Name (Core (Settings s)) +:+ "-wordpress")
                  true
                  ["chown -R www-data:www-data /var/www/html"];
    mret err.

(** Runs an arbitrary CLI command against the site's WordPress
    container. *)
Definition WordPress_ (s : site.Site) (command : string) (restart root : bool)
  : P (ExecResult * option error) :=
  let container := "kana-" +:+ settings.Name (site.Settings s) +:+ "-wordpress" in
  '(output, err) ← dockerClient_ContainerExec container root [command];
  iferr err give (zeroExecResult, err);
  if restart then
    err ← dockerClient_ContainerRestart container;
    mret (output, err)
  else mret (output, None).

End Provision.

End provision.

(** ** Vocabulary of the further properties *)

(** The seconds slept and the launches attempted in a trace of the
    guard. *)
Definition sleptSeconds (tr : list docker.GuardEvent) : Z :=
  foldr (λ e total, match e with docker.Sleep seconds => seconds + total | _ => total end) 0 tr.

Definition launches (tr : list docker.GuardEvent) : nat :=
  length (List.filter (λ e, match e with docker.ExecRun _ _ => true | _ => false end) tr).

(** The value of [key] in an environment list of [KEY=value] entries. *)
Fixpoint stripPrefix (p s : string) : option string :=
  match p, s with
  | EmptyString, _ => Some s
  | String a p', String b s' => if Ascii.eqb a b then stripPrefix p' s' else None
  | String _ _, EmptyString => None
  end.

Fixpoint getenv (env : list string) (key : string) : option string :=
  match env with
  | [] => None
  | entry :: rest =>
      match stripPrefix (key +:+ "=") entry with
      | Some value => Some value
      | None => getenv rest key
      end
  end.

(** What [NewWordPress] does for a list of containers when nothing
    fails. *)
Definition ensuredThenRun (cs : list docker.ContainerConfig) : list wordpress.Event :=
  flat_map (λ c, [wordpress.EnsureImage (docker.Image c); wordpress.ContainerRun c]) cs.

(** What the controller answers to a request of [NewWordPress]. *)
Definition requestOutcome (EnsureImage_outcome : string -> option error)
    (ContainerRun_outcome : docker.ContainerConfig -> option error)
    (request : wordpress.Event) : option error :=
  match request with
  | wordpress.EnsureImage image => EnsureImage_outcome image
  | wordpress.ContainerRun c => ContainerRun_outcome c
  end.

(** The mounts of a container as the engine reports them. *)
Definition reported (mounts : list mount.Mount) : list docker.MountPoint :=
  map (λ m, {| docker.MountSource := mount.Source m;
               docker.Destination := mount.Target m |}) mounts.

(** The descriptor with another artifact type. *)
Definition withType (st : settings.Settings) (type : string) : settings.Settings :=
  {| settings.Name := settings.Name st;
     settings.Type_ := type;
     settings.SiteDirectory := settings.SiteDirectory st;
     settings.WorkingDirectory := settings.WorkingDirectory st;
     settings.SiteDomain := settings.SiteDomain st;
     settings.PHP := settings.PHP st;
     settings.Environment := settings.Environment st;
     settings.IsNamedSite := settings.IsNamedSite st;
     settings.AutomaticLogin := settings.AutomaticLogin st;
     settings.WPDebug := settings.WPDebug st;
     settings.ScriptDebug := settings.ScriptDebug st;
     settings.UpdateInterval := settings.UpdateInterval st |}.

(** The wp-cli commands issued, in a log. *)
Definition cliCalls (tr : list provision.Event) : list (list string * bool) :=
  omap (λ e, match e with provision.WPCliCall command i => Some (command, i) | _ => None end) tr.

(** The last character of a string. *)
Fixpoint lastChar (s : string) : option ascii :=
  match s with
  | EmptyString => None
  | String c EmptyString => Some c
  | String _ rest => lastChar rest
  end.

(** The name of the command container of a site. *)
Definition commandContainerName (s : site.Site) : string :=
  "kana-" +:+ settings.Name (site.Settings s) +:+ "-wordpress_cli".

(** ** Further sample hosts *)

Module moreSamples.

(** Linux; the engine is down. *)
Definition linuxDown : docker.Platform :=
  {| docker.GOOS := "linux";
     docker.listOutcome := λ _, Some samples.daemonDown;
     docker.runOutcome := λ _ _, None |}.

(** macOS; the engine is down and cannot be launched. *)
Definition launchFails : docker.Platform :=
  {| docker.GOOS := "darwin";
     docker.listOutcome := λ _, Some samples.daemonDown;
     docker.runOutcome := λ _ _, Some "exit status 1" |}.

(** Linux; the engine is up. *)
Definition linuxUp : docker.Platform :=
  {| docker.GOOS := "linux";
     docker.listOutcome := λ _, None;
     docker.runOutcome := λ _ _, None |}.

(** A calm host whose settings store takes the overridden type. *)
Definition settingHost : site.Host :=
  {| site.DefaultType := "site";
     site.MkdirAll_outcome := λ _ _, None;
     site.Stat_outcome := λ _, None;
     site.GetSiteLink := λ _, ("", None);
     site.isUsingSQLite := λ _, (false, None);
     site.OverrideType := λ st type, (withType st type, None);
     site.getDirectories_outcome := λ _, ("/sites/acme/wordpress", "/sites/acme/database", None);
     site.getDatabaseContainer := site.getDatabaseContainer (samples.calmHost (false, None) (0, "", None));
     site.startContainer_outcome := λ _ _ _ _, None;
     site.verifyDatabase_outcome := λ _, None;
     site.EnsureNetwork_outcome := λ _, None;
     site.EnsureImage_outcome := λ _ _, None;
     site.ContainerGetMounts_outcome := λ _, [];
     site.ContainerRunAndClean_outcome := λ _ _, (0, "", None);
     site.engineStop_outcome := λ name,
       if String.eqb name "kana-acme-wordpress" then Some "cannot stop container" else None |}.

End moreSamples.

(** ** Vocabulary of the provisioning properties *)

(** A plugin that [getInstalledWordPressPlugins] lists, and one of the
    plugins WordPress ships with. *)
Definition keepListed (s : provision.Site) (plugin : provision.PluginInfo) : bool :=
  negb (String.eqb (provision.Status plugin) "dropin")
  && negb (String.eqb (provision.Status plugin) "must-use")
  && negb (String.eqb (provision.Name plugin)
             (settings.Name (provision.Core (provision.Settings s))))
  && negb (String.eqb (provision.Name plugin) "hello")
  && negb (String.eqb (provision.Name plugin) "akismet").

Definition isDefaultPlugin (plugin : provision.PluginInfo) : bool :=
  String.eqb (provision.Name plugin) "hello" || String.eqb (provision.Name plugin) "akismet".

(** The wp-cli command that installs and activates a plugin. *)
Definition installCommand (plugin : string) : list string * bool :=
  (["plugin"; "install"; "--activate"; plugin], false).

(** The results of wp-cli commands issued one after another, each on the
    engine as the one before left it. *)
Fixpoint cliResults {ExecResult : Type} (cli : provision.Cli ExecResult)
    (commands : list (list string * bool)) (engine : site.World)
  : list (Z * string * option error) :=
  match commands with
  | [] => []
  | (command, interactive) :: rest =>
      let r := provision.WPCli ExecResult cli command interactive engine in
      r.1 :: cliResults cli rest r.2
  end.

(** The warnings of [installDefaultPlugins] for plugins and the results of
    their installation: one for every result without error and with a
    non-zero status. *)
Definition installWarnings {ExecResult : Type} (host : provision.Host ExecResult)
    (plugins : list string) (results : list (Z * string * option error)) : list string :=
  omap (λ '(plugin, res),
          if bool_decide (res.2 = None) && negb (res.1.1 =? 0)
          then Some ("Unable to install plugin: "
                       +:+ provision.Bold ExecResult host (provision.Blue ExecResult host plugin)
                       +:+ ".")
          else None)
       (zip plugins results).

(** The wp-cli command of a first installation of WordPress. *)
Definition coreInstallCommand (st : provision.SiteSettings) : list string :=
  [ "core";
    if String.eqb (provision.Multisite st) "none" then "install" else "multisite-install";
    "--url=" +:+ provision.URL st;
    "--title=Kana Development " +:+ settings.Type_ (provision.Core st) +:+ ": "
      +:+ settings.Name (provision.Core st);
    "--admin_user=" +:+ provision.AdminUsername st;
    "--admin_password=" +:+ provision.AdminPassword st;
    "--admin_email=" +:+ provision.AdminEmail st ]
  ++ (if String.eqb (provision.Multisite st) "subdomain" then ["--subdomains"] else []).

(** The files written, in a log. *)
Definition filesWritten (tr : list provision.Event) : list string :=
  omap (λ e, match e with provision.WriteFile path _ _ => Some path | _ => None end) tr.

(** The warnings printed, in a log. *)
Definition warnings (tr : list provision.Event) : list string :=
  omap (λ e, match e with provision.Warn msg => Some msg | _ => None end) tr.

(** ** Sample provisioning hosts *)

Module provisionSamples.

Definition acme : provision.Site :=
  {| provision.Settings :=
       {| provision.Core := site.Settings samples.debuggedSite;
          provision.Activate := true;
          provision.Theme := "twentytwentyfour";
          provision.Plugins := ["query-monitor"; "akismet"];
          provision.Multisite := "subdomain";
          provision.URL := "https://acme.sites.kana.sh";
          provision.AdminUsername := "admin";
          provision.AdminPassword := "password";
          provision.AdminEmail := "admin@sites.kana.sh" |} |}.

(** A decoder that answers with a fixed plugin list. *)
Definition listed : list provision.PluginInfo := [
  {| provision.Name := "akismet"; provision.Status := "inactive";
     provision.Update := "none"; provision.Version := "5.3" |};
  {| provision.Name := "acme"; provision.Status := "active";
     provision.Update := "none"; provision.Version := "0.1" |};
  {| provision.Name := "query-monitor"; provision.Status := "active";
     provision.Update := "none"; provision.Version := "3.15" |};
  {| provision.Name := "object-cache.php"; provision.Status := "dropin";
     provision.Update := "none"; provision.Version := "" |} ].

Definition quietHost (decoded : list provision.PluginInfo * option error)
  : provision.Host unit :=
  {| provision.siteHost := samples.calmHost (true, None) (0, "", None);
     provision.GOOS := "darwin";
     provision.Bold := λ text, text;
     provision.Blue := λ text, text;
     provision.TrimSpace := λ text, text;
     provision.Unmarshal := λ _, decoded;
     provision.GetDefaultPermissions := (493, 420);
     provision.GetHtaccess := λ _, "RewriteEngine On";
     provision.WriteFile_outcome := λ _ _ _, None;
     provision.EnsureKanaPlugin_outcome := λ _ _, None;
     provision.ContainerExec_outcome := λ _ _ _, (tt, None);
     provision.ContainerRestart_outcome := λ _, None |}.

(** A wp-cli that answers every command with the same result and leaves
    the engine alone. *)
Definition fixedCli (result : Z * string * option error) : provision.Cli unit :=
  {| provision.WordPress := λ _ _ _, mret (tt, None);
     provision.WPCli := λ _ _, mret result |}.

(** A wp-cli that knows the site under another URL and fails to update
    it. *)
Definition staleCli : provision.Cli unit :=
  {| provision.WordPress := λ _ _ _, mret (tt, None);
     provision.WPCli := λ command _,
       match command with
       | "option" :: "get" :: _ => mret (0, "http://acme.sites.kana.sh", None)
       | _ => mret (1, "", None)
       end |}.

(** A wp-cli in front of a site where WordPress is not installed yet. *)
Definition blankCli : provision.Cli unit :=
  {| provision.WordPress := λ _ _ _, mret (tt, None);
     provision.WPCli := λ command _,
       match command with
       | "option" :: "get" :: _ => mret (1, "", None)
       | _ => mret (0, "Success: WordPress installed successfully.", None)
       end |}.

Definition freshWorld : provision.World :=
  {| provision.log := []; provision.engine := samples.freshWorld |}.

End provisionSamples.

(** * Properties *)

(** ** The engine availability guard *)

Section GuardFacts.
Import docker.
Variable host : Platform.

(** Thirteen iterations of fuel are always enough for the retry loop. *)
Lemma retryLoop_returns (fuel : nat) :
  ∀ (retries : Z) (err : option error) (st : GuardState),
    (Z.to_nat (maxRetries + 1 - retries) ≤ fuel)%nat →
    ∃ res, (retryLoop host fuel retries err st).1 = Some res.
Proof.
  induction fuel as [|fuel IH]; intros retries err st Hfuel; simpl.
  - destruct (Z.leb_spec retries maxRetries) as [Hle|Hgt]; [|by eexists].
    unfold maxRetries in *. lia.
  - destruct (Z.leb_spec retries maxRetries) as [Hle|Hgt]; [|by eexists].
    destruct (Z.eqb_spec (retries + 1) maxRetries) as [Heq|Hne]; [by eexists|].
    unfold mbind, StateM_bind, guardDo, apiClient_ContainerList; simpl.
    destruct (listOutcome host (listCalls st)) as [e|]; [by eexists|].
    apply IH. unfold maxRetries in *. lia.
Qed.

(** Whatever the retry loop returns below the attempt limit, it is an
    error: a listing call that succeeds only sends it round again. *)
Lemma retryLoop_never_nil (fuel : nat) :
  ∀ (retries : Z) (err : option error) (st : GuardState),
    retries < maxRetries →
    (retryLoop host fuel retries err st).1 ≠ Some None.
Proof.
  induction fuel as [|fuel IH]; intros retries err st Hlt; simpl.
  - destruct (Z.leb_spec retries maxRetries); [done | lia].
  - destruct (Z.leb_spec retries maxRetries); [|lia].
    destruct (Z.eqb_spec (retries + 1) maxRetries) as [Heq|Hne]; [done|].
    unfold mbind, StateM_bind, guardDo, apiClient_ContainerList; simpl.
    destruct (listOutcome host (listCalls st)) as [e|]; [done|].
    apply IH. lia.
Qed.

Lemma ensureDockerIsAvailable_returns (fuel : nat) (st : GuardState) :
  (13 ≤ fuel)%nat →
  ∃ res, (ensureDockerIsAvailable host fuel st).1 = Some res.
Proof.
  intros Hfuel. unfold ensureDockerIsAvailable.
  unfold mbind, StateM_bind, apiClient_ContainerList, execCommand_Run, guardDo; simpl.
  destruct (listOutcome host (listCalls st)) as [e|]; [|by eexists].
  destruct (String.eqb (GOOS host) "darwin"); [|by eexists].
  simpl. destruct (runOutcome host "open" ["-a"; "Docker"]); [by eexists|].
  apply retryLoop_returns. unfold maxRetries. simpl. lia.
Qed.

(** Once the first check has failed on macOS, no later answer of the
    engine makes the guard return success. *)
Lemma ensureDockerIsAvailable_no_late_success (fuel : nat) (st : GuardState) (e : error) :
  GOOS host = "darwin" →
  listOutcome host (listCalls st) = Some e →
  (ensureDockerIsAvailable host fuel st).1 ≠ Some None.
Proof.
  intros Hos Hfirst. unfold ensureDockerIsAvailable.
  unfold mbind, StateM_bind, apiClient_ContainerList, execCommand_Run, guardDo; simpl.
  rewrite Hfirst, Hos. simpl.
  destruct (runOutcome host "open" ["-a"; "Docker"]); [done|].
  apply retryLoop_never_nil. done.
Qed.

End GuardFacts.

(** C1 (code defect). The specification asks the guard to return success
    at the first retry on which the listing call succeeds. The loop tests
    the listing error the wrong way round: with the engine answering every
    retry after the launch, the guard sleeps and lists eleven times and
    then returns the exhaustion error; with the engine answering from the
    third retry on, it returns the listing error of the first retry. *)
Theorem guard_success_on_retry_is_not_returned :
  docker.ensureDockerIsAvailable samples.reachableAfterLaunch 13 docker.guardStart
  = (Some (Errorf "error: unable to start Docker for Mac"),
     {| docker.listCalls := 12;
        docker.guardTrace :=
          [docker.ContainerList;
           docker.Println "Docker doesn't appear to be running. Trying to start Docker.";
           docker.ExecRun "open" ["-a"; "Docker"]]
          ++ concat (replicate 11 [docker.Sleep 5; docker.ContainerList])
          ++ [docker.Println "Restarting Docker is taking too long. We seem to have hit an error"] |})
  ∧ (docker.ensureDockerIsAvailable samples.reachableOnThirdRetry 13 docker.guardStart).1
    = Some (Some samples.daemonDown).
Proof. split; reflexivity. Qed.

(** C2 (code defect). The specification asks for twelve attempts, five
    seconds apart, and then the engine-unreachable error. With an engine
    that never answers, the guard sleeps once, lists once and returns the
    error of that listing call: one retry, not twelve. *)
Theorem guard_gives_up_after_first_failed_retry :
  docker.ensureDockerIsAvailable samples.neverReachable 13 docker.guardStart
  = (Some (Some samples.daemonDown),
     {| docker.listCalls := 2;
        docker.guardTrace :=
          [docker.ContainerList;
           docker.Println "Docker doesn't appear to be running. Trying to start Docker.";
           docker.ExecRun "open" ["-a"; "Docker"];
           docker.Sleep 5;
           docker.ContainerList] |}).
Proof. reflexivity. Qed.

(** ** Slash-separated paths *)

Section PathFacts.

Lemma SplitSlash_prepend (p s : string) :
  noSlash p = true →
  strings.SplitSlash (p +:+ String "/" s) = p :: strings.SplitSlash s.
Proof.
  induction p as [|c p IH]; simpl; intros Hp.
  - reflexivity.
  - apply andb_true_iff in Hp as [Hc Hp].
    apply negb_true_iff in Hc. rewrite Hc, (IH Hp). reflexivity.
Qed.

Lemma SplitSlash_not_nil (s : string) : strings.SplitSlash s ≠ [].
Proof.
  destruct s as [|c s]; simpl; [done|].
  destruct (Ascii.eqb c "/"); [done|].
  destruct (strings.SplitSlash s); done.
Qed.

Lemma Join_cons (e : string) (rest : list string) (sep : string) :
  rest ≠ [] →
  strings.Join (e :: rest) sep = e +:+ sep +:+ strings.Join rest sep.
Proof. destruct rest; [done | reflexivity]. Qed.

Lemma Join_String (c : ascii) (e : string) (rest : list string) (sep : string) :
  strings.Join (String c e :: rest) sep = String c (strings.Join (e :: rest) sep).
Proof. destruct rest; reflexivity. Qed.

(** Joining the fields of a split gives the string back. *)
Lemma Join_SplitSlash (s : string) :
  strings.Join (strings.SplitSlash s) "/" = s.
Proof.
  induction s as [|c s IH]; [reflexivity|].
  simpl strings.SplitSlash.
  destruct (Ascii.eqb_spec c "/") as [->|Hc].
  - rewrite Join_cons by apply SplitSlash_not_nil. rewrite IH. reflexivity.
  - pose proof (SplitSlash_not_nil s) as Hne.
    destruct (strings.SplitSlash s) as [|f fs]; [done|].
    rewrite Join_String, IH. reflexivity.
Qed.

Lemma Join_app_cons (front : list string) (e : string) (rest : list string) (sep : string) :
  strings.Join (front ++ e :: rest) sep
  = fold_right (λ f acc, f +:+ sep +:+ acc) (strings.Join (e :: rest) sep) front.
Proof.
  induction front as [|f front IH]; [reflexivity|].
  simpl app. rewrite Join_cons by (by destruct front). simpl. by rewrite IH.
Qed.

(** Plain elements are pushed, one after the other. *)
Lemma cleanStep_plain (rooted : bool) (fields kept : list string) :
  forallb plainElement fields = true →
  fold_left (filepath.cleanStep rooted) fields kept = rev fields ++ kept.
Proof.
  revert kept. induction fields as [|f fields IH]; intros kept Hall; [reflexivity|].
  simpl in Hall. apply andb_true_iff in Hall as [Hf Hall].
  unfold plainElement in Hf.
  apply andb_true_iff in Hf as [Hf Hdd]. apply andb_true_iff in Hf as [He Hd].
  apply negb_true_iff in He, Hd, Hdd.
  simpl. unfold filepath.cleanStep at 2. rewrite He, Hd, Hdd.
  rewrite (IH _ Hall), <- app_assoc. reflexivity.
Qed.

(** Without [..] elements nothing that was kept is ever removed. *)
Lemma cleanStep_noDotDot (rooted : bool) (fields kept : list string) :
  forallb (λ e, negb (String.eqb e "..")) fields = true →
  ∃ more, fold_left (filepath.cleanStep rooted) fields kept = more ++ kept.
Proof.
  revert kept. induction fields as [|f fields IH]; intros kept Hall.
  - by exists [].
  - simpl in Hall. apply andb_true_iff in Hall as [Hf Hall].
    apply negb_true_iff in Hf.
    simpl. unfold filepath.cleanStep at 2. rewrite Hf.
    destruct (String.eqb f ""); [by apply IH|].
    destruct (String.eqb f "."); [by apply IH|].
    destruct (IH (f :: kept) Hall) as [more ->].
    exists (more ++ [f]). by rewrite <- app_assoc.
Qed.

Lemma SplitSlash_wpContent (dir name : string) :
  noSlash dir = true →
  strings.SplitSlash (strings.Join ["/var/www/html/wp-content"; dir; name] "/")
  = ["" ; "var"; "www"; "html"; "wp-content"; dir] ++ strings.SplitSlash name.
Proof.
  intros Hdir.
  change (strings.Join ["/var/www/html/wp-content"; dir; name] "/")
    with ("" +:+ String "/" ("var" +:+ String "/" ("www" +:+ String "/"
           ("html" +:+ String "/" ("wp-content" +:+ String "/"
             (dir +:+ String "/" name)))))).
  rewrite !SplitSlash_prepend by done. reflexivity.
Qed.

Lemma Clean_rooted (s : string) :
  filepath.Clean (String "/" s)
  = "/" +:+ strings.Join
              (rev (fold_left (filepath.cleanStep true)
                      (strings.SplitSlash (String "/" s)) [])) "/".
Proof. reflexivity. Qed.

Lemma Join_wpContent_Clean (dir name : string) :
  filepath.Join ["/var/www/html/wp-content"; dir; name]
  = "/" +:+ strings.Join
              (rev (fold_left (filepath.cleanStep true)
                      (strings.SplitSlash
                         (strings.Join ["/var/www/html/wp-content"; dir; name] "/")) [])) "/".
Proof. apply Clean_rooted. Qed.

(** The target of the artifact mount for a plain name. *)
Lemma Join_wpContent_plain (dir name : string) :
  noSlash dir = true → plainElement dir = true → plainName name = true →
  filepath.Join ["/var/www/html/wp-content"; dir; name]
  = "/var/www/html/wp-content/" +:+ dir +:+ "/" +:+ name.
Proof.
  intros Hdir Hplain Hname. unfold plainName in Hname.
  rewrite Join_wpContent_Clean, SplitSlash_wpContent by done.
  rewrite fold_left_app.
  assert (fold_left (filepath.cleanStep true) ["" ; "var"; "www"; "html"; "wp-content"; dir] []
          = [dir; "wp-content"; "html"; "www"; "var"]) as ->.
  { change (fold_left (filepath.cleanStep true) ["var"; "www"; "html"; "wp-content"; dir] []
            = [dir; "wp-content"; "html"; "www"; "var"]).
    rewrite cleanStep_plain; [done|]. simpl. by rewrite Hplain. }
  rewrite cleanStep_plain by done.
  rewrite rev_app_distr, rev_involutive.
  pose proof (SplitSlash_not_nil name) as Hne.
  destruct (strings.SplitSlash name) as [|f fs] eqn:Hfields; [done|].
  change (rev [dir; "wp-content"; "html"; "www"; "var"] ++ f :: fs)
    with (["var"; "www"; "html"; "wp-content"; dir] ++ f :: fs).
  rewrite Join_app_cons, <- Hfields, Join_SplitSlash. reflexivity.
Qed.

(** Without [..] in the name the target stays below the content
    directory. *)
Lemma Join_wpContent_noDotDot (dir name : string) :
  noSlash dir = true → plainElement dir = true → noDotDot name = true →
  ∃ rest, filepath.Join ["/var/www/html/wp-content"; dir; name]
          = "/var/www/html/wp-content/" +:+ rest.
Proof.
  intros Hdir Hplain Hname. unfold noDotDot in Hname.
  rewrite Join_wpContent_Clean, SplitSlash_wpContent by done.
  rewrite fold_left_app.
  assert (fold_left (filepath.cleanStep true) ["" ; "var"; "www"; "html"; "wp-content"; dir] []
          = [dir; "wp-content"; "html"; "www"; "var"]) as ->.
  { change (fold_left (filepath.cleanStep true) ["var"; "www"; "html"; "wp-content"; dir] []
            = [dir; "wp-content"; "html"; "www"; "var"]).
    rewrite cleanStep_plain; [done|]. simpl. by rewrite Hplain. }
  destruct (cleanStep_noDotDot true _ [dir; "wp-content"; "html"; "www"; "var"] Hname)
    as [more ->].
  rewrite rev_app_distr.
  change (rev [dir; "wp-content"; "html"; "www"; "var"])
    with (["var"; "www"; "html"; "wp-content"] ++ [dir]).
  rewrite <- app_assoc. change ([dir] ++ rev more) with (dir :: rev more).
  rewrite Join_app_cons. eexists. reflexivity.
Qed.

End PathFacts.

Example Clean_examples :
  map filepath.Clean
    ["abc//def"; "abc/./def"; "abc/def/.."; "/../abc"; "../../abc"; "a/../.."; "/"; ""; "a/b/"]
  = ["abc/def"; "abc/def"; "abc"; "/abc"; "../../abc"; ".."; "/"; "."; "a/b"].
Proof. reflexivity. Qed.

Example Join_examples :
  map filepath.Join
    [["a"; "b"]; [""; "b"]; ["a"; ""]; ["/var/www/html/wp-content"; "plugins"; "acme"];
     ["/var/www/html/wp-content"; "plugins"; "../.."]; [""; ""]]
  = ["a/b"; "b"; "a"; "/var/www/html/wp-content/plugins/acme"; "/var/www/html"; ""].
Proof. reflexivity. Qed.

Example Contains_examples :
  map (λ destination, strings.Contains destination "/var/www/html/wp-content/plugins/")
    ["/var/www/html"; "/var/www/html/wp-content/plugins/acme"; "/Site"]
  = [false; true; false].
Proof. reflexivity. Qed.

(** ** The mount planner *)

Section MountFacts.
Import settings.
Variable host : site.Host.

Lemma getWordPressMounts_plugin (s : site.Site) (appDir : string) (w : site.World) :
  Type_ (site.Settings s) = "plugin" →
  site.MkdirAll_outcome host
    (filepath.Join [appDir; "wp-content"; "plugins"; Name (site.Settings s)])
    site.defaultDirPermissions = None →
  (site.getWordPressMounts host s appDir w).1
  = (alwaysMounted s appDir ++ [artifactMount s "plugins"], None).
Proof.
  intros Htype Hmk. unfold site.getWordPressMounts.
  rewrite Htype. simpl String.eqb. cbv iota.
  unfold mbind, StateM_bind, site.os_MkdirAll, site.emit.
  cbn -[filepath.Join site.defaultDirPermissions]. rewrite Hmk. reflexivity.
Qed.

Lemma getWordPressMounts_theme (s : site.Site) (appDir : string) (w : site.World) :
  Type_ (site.Settings s) = "theme" →
  site.MkdirAll_outcome host
    (filepath.Join [appDir; "wp-content"; "themes"; Name (site.Settings s)])
    site.defaultDirPermissions = None →
  (site.getWordPressMounts host s appDir w).1
  = (alwaysMounted s appDir ++ [artifactMount s "themes"], None).
Proof.
  intros Htype Hmk. unfold site.getWordPressMounts.
  rewrite Htype. simpl String.eqb. cbv iota.
  unfold mbind, StateM_bind, site.os_MkdirAll, site.emit.
  cbn -[filepath.Join site.defaultDirPermissions]. rewrite Hmk. reflexivity.
Qed.

Lemma getWordPressMounts_other (s : site.Site) (appDir : string) (w : site.World) :
  Type_ (site.Settings s) ≠ "plugin" →
  Type_ (site.Settings s) ≠ "theme" →
  site.getWordPressMounts host s appDir w = ((alwaysMounted s appDir, None), w).
Proof.
  intros Hp Ht. unfold site.getWordPressMounts.
  apply String.eqb_neq in Hp, Ht. rewrite Hp, Ht. reflexivity.
Qed.

(** Whatever the planner returns starts with the two binds, and is
    followed by at most the one artifact mount of the descriptor's type. *)
Lemma getWordPressMounts_shape (s : site.Site) (appDir : string) (w : site.World) :
  let mounts := (site.getWordPressMounts host s appDir w).1.1 in
  mounts = alwaysMounted s appDir
  ∨ (Type_ (site.Settings s) = "plugin"
     ∧ mounts = alwaysMounted s appDir ++ [artifactMount s "plugins"])
  ∨ (Type_ (site.Settings s) = "theme"
     ∧ mounts = alwaysMounted s appDir ++ [artifactMount s "themes"]).
Proof.
  unfold site.getWordPressMounts.
  destruct (String.eqb_spec (Type_ (site.Settings s)) "plugin") as [Hp|Hp].
  - rewrite Hp. simpl String.eqb. cbv iota.
    unfold mbind, StateM_bind, site.os_MkdirAll, site.emit.
    cbn -[filepath.Join site.defaultDirPermissions].
    destruct (site.MkdirAll_outcome host _ _); cbn -[filepath.Join]; [by left | right; left; done].
  - destruct (String.eqb_spec (Type_ (site.Settings s)) "theme") as [Ht|Ht]; [|by left].
    unfold mbind, StateM_bind, site.os_MkdirAll, site.emit.
    cbn -[filepath.Join site.defaultDirPermissions].
    destruct (site.MkdirAll_outcome host _ _); cbn -[filepath.Join]; [by left | right; right; done].
Qed.

End MountFacts.

Section SuffixFacts.

Lemma substring_all (s : string) : String.substring 0 (String.length s) s = s.
Proof. induction s as [|c s IH]; simpl; [done | by rewrite IH]. Qed.

Lemma substring_skip (p s : string) (k : nat) :
  String.substring (String.length p) k (p +:+ s) = String.substring 0 k s.
Proof. induction p as [|c p IH]; simpl; done. Qed.

Lemma length_append (p s : string) :
  String.length (p +:+ s) = (String.length p + String.length s)%nat.
Proof. induction p as [|c p IH]; simpl; [done | by rewrite IH]. Qed.

Lemma HasSuffix_append (p s : string) : strings.HasSuffix (p +:+ s) s = true.
Proof.
  unfold strings.HasSuffix. rewrite length_append.
  apply andb_true_iff. split.
  - apply Nat.leb_le. lia.
  - replace (String.length p + String.length s - String.length s)%nat
      with (String.length p) by lia.
    rewrite substring_skip, substring_all. apply String.eqb_refl.
Qed.

End SuffixFacts.

Section MountClaims.
Import settings.

(** C5 (amended). For a descriptor whose name consists of plain path
    elements (none empty, [.] or [..]) and whose artifact directory can
    be created, artifact type [plugin] adds to the two always-present
    binds one bind of the working directory to
    [/var/www/html/wp-content/plugins/<name>], and type [theme] one to
    [/var/www/html/wp-content/themes/<name>]; with type [site] the
    planner returns the two always-present binds and nothing else. *)
Theorem mounts_follow_artifact_type
    (host : site.Host) (s : site.Site) (appDir : string) (w : site.World) :
  (Type_ (site.Settings s) = "plugin" →
   plainName (Name (site.Settings s)) = true →
   site.MkdirAll_outcome host
     (filepath.Join [appDir; "wp-content"; "plugins"; Name (site.Settings s)])
     site.defaultDirPermissions = None →
   (site.getWordPressMounts host s appDir w).1
   = (alwaysMounted s appDir ++ [
        {| mount.Type_ := mount.TypeBind;
           mount.Source := WorkingDirectory (site.Settings s);
           mount.Target := "/var/www/html/wp-content/plugins/" +:+ Name (site.Settings s) |} ],
      None)
   ∧ strings.HasSuffix ("/var/www/html/wp-content/plugins/" +:+ Name (site.Settings s))
       ("wp-content/plugins/" +:+ Name (site.Settings s)) = true)
  ∧ (Type_ (site.Settings s) = "theme" →
     plainName (Name (site.Settings s)) = true →
     site.MkdirAll_outcome host
       (filepath.Join [appDir; "wp-content"; "themes"; Name (site.Settings s)])
       site.defaultDirPermissions = None →
     (site.getWordPressMounts host s appDir w).1
     = (alwaysMounted s appDir ++ [
          {| mount.Type_ := mount.TypeBind;
             mount.Source := WorkingDirectory (site.Settings s);
             mount.Target := "/var/www/html/wp-content/themes/" +:+ Name (site.Settings s) |} ],
        None)
     ∧ strings.HasSuffix ("/var/www/html/wp-content/themes/" +:+ Name (site.Settings s))
         ("wp-content/themes/" +:+ Name (site.Settings s)) = true)
  ∧ (Type_ (site.Settings s) = "site" →
     site.getWordPressMounts host s appDir w = ((alwaysMounted s appDir, None), w)).
Proof.
  split; [|split].
  - intros Htype Hname Hmk. split.
    + rewrite getWordPressMounts_plugin by done.
      unfold artifactMount. by rewrite Join_wpContent_plain.
    + apply (HasSuffix_append "/var/www/html/").
  - intros Htype Hname Hmk. split.
    + rewrite getWordPressMounts_theme by done.
      unfold artifactMount. by rewrite Join_wpContent_plain.
    + apply (HasSuffix_append "/var/www/html/").
  - intros Htype. apply getWordPressMounts_other; rewrite Htype; discriminate.
Qed.

(** C6 (amended). For a descriptor whose name has no [..] path element,
    the mounts of a successful planning have pairwise distinct
    targets. *)
Theorem mount_targets_distinct
    (host : site.Host) (s : site.Site) (appDir : string) (w : site.World)
    (mounts : list mount.Mount) :
  noDotDot (Name (site.Settings s)) = true →
  (site.getWordPressMounts host s appDir w).1 = (mounts, None) →
  NoDup (map mount.Target mounts).
Proof.
  intros Hname Hplan.
  pose proof (getWordPressMounts_shape host s appDir w) as Hshape.
  rewrite Hplan in Hshape. simpl in Hshape.
  assert (∀ dir, noSlash dir = true → plainElement dir = true →
            NoDup (map mount.Target (alwaysMounted s appDir ++ [artifactMount s dir])))
    as Hthree.
  { intros dir Hslash Hplain.
    destruct (Join_wpContent_noDotDot dir _ Hslash Hplain Hname) as [rest Hrest].
    unfold alwaysMounted, artifactMount.
    cbn [map app mount.Target]. rewrite Hrest.
    repeat (apply NoDup_cons; split); try apply NoDup_nil_2;
      rewrite ?list_elem_of_In; simpl; intuition discriminate. }
  destruct Hshape as [-> | [[_ ->] | [_ ->]]].
  - simpl. repeat (apply NoDup_cons; split); try apply NoDup_nil_2;
      rewrite ?list_elem_of_In; simpl; intuition discriminate.
  - by apply Hthree.
  - by apply Hthree.
Qed.

End MountClaims.

(** C5, at concrete descriptors: a plugin and a theme [acme], and a
    site. *)
Lemma mounts_follow_artifact_type_witness :
  (site.getWordPressMounts (samples.calmHost (true, None) (0, "", None))
     (samples.descriptor "acme" "plugin") "/sites/acme/wordpress" samples.freshWorld).1
  = ([ {| mount.Type_ := mount.TypeBind; mount.Source := "/sites/acme/wordpress";
          mount.Target := "/var/www/html" |};
       {| mount.Type_ := mount.TypeBind; mount.Source := "/sites/acme";
          mount.Target := "/Site" |};
       {| mount.Type_ := mount.TypeBind; mount.Source := "/home/dev/acme";
          mount.Target := "/var/www/html/wp-content/plugins/acme" |} ], None)
  ∧ (site.getWordPressMounts (samples.calmHost (true, None) (0, "", None))
       (samples.descriptor "acme" "theme") "/sites/acme/wordpress" samples.freshWorld).1
    = ([ {| mount.Type_ := mount.TypeBind; mount.Source := "/sites/acme/wordpress";
            mount.Target := "/var/www/html" |};
         {| mount.Type_ := mount.TypeBind; mount.Source := "/sites/acme";
            mount.Target := "/Site" |};
         {| mount.Type_ := mount.TypeBind; mount.Source := "/home/dev/acme";
            mount.Target := "/var/www/html/wp-content/themes/acme" |} ], None)
  ∧ (site.getWordPressMounts (samples.calmHost (true, None) (0, "", None))
       (samples.descriptor "acme" "site") "/sites/acme/wordpress" samples.freshWorld).1
    = ([ {| mount.Type_ := mount.TypeBind; mount.Source := "/sites/acme/wordpress";
            mount.Target := "/var/www/html" |};
         {| mount.Type_ := mount.TypeBind; mount.Source := "/sites/acme";
            mount.Target := "/Site" |} ], None).
Proof.
  split; [|split].
  - apply (mounts_follow_artifact_type (samples.calmHost (true, None) (0, "", None))
             (samples.descriptor "acme" "plugin")); reflexivity.
  - apply (mounts_follow_artifact_type (samples.calmHost (true, None) (0, "", None))
             (samples.descriptor "acme" "theme")); reflexivity.
  - rewrite (proj2 (proj2 (mounts_follow_artifact_type
               (samples.calmHost (true, None) (0, "", None))
               (samples.descriptor "acme" "site") "/sites/acme/wordpress"
               samples.freshWorld))); reflexivity.
Defined.

(** C5 as stated fails for the plugin named [..]: its mount targets the
    content directory itself, and no mount target ends in
    [wp-content/plugins/..]. *)
Lemma mount_of_plugin_named_dotdot :
  (site.getWordPressMounts (samples.calmHost (true, None) (0, "", None))
     (samples.descriptor ".." "plugin") "/sites/acme/wordpress" samples.freshWorld).1
  = ([ {| mount.Type_ := mount.TypeBind; mount.Source := "/sites/acme/wordpress";
          mount.Target := "/var/www/html" |};
       {| mount.Type_ := mount.TypeBind; mount.Source := "/sites/acme";
          mount.Target := "/Site" |};
       {| mount.Type_ := mount.TypeBind; mount.Source := "/home/dev/acme";
          mount.Target := "/var/www/html/wp-content" |} ], None)
  ∧ map (λ target, strings.HasSuffix target "wp-content/plugins/..")
      ["/var/www/html"; "/Site"; "/var/www/html/wp-content"]
    = [false; false; false].
Proof. split; reflexivity. Qed.

(** C6, at the plugin [acme]. *)
Lemma mount_targets_distinct_witness :
  NoDup ["/var/www/html"; "/Site"; "/var/www/html/wp-content/plugins/acme"].
Proof.
  apply (mount_targets_distinct (samples.calmHost (true, None) (0, "", None))
           (samples.descriptor "acme" "plugin") "/sites/acme/wordpress" samples.freshWorld
           [ {| mount.Type_ := mount.TypeBind; mount.Source := "/sites/acme/wordpress";
                mount.Target := "/var/www/html" |};
             {| mount.Type_ := mount.TypeBind; mount.Source := "/sites/acme";
                mount.Target := "/Site" |};
             {| mount.Type_ := mount.TypeBind; mount.Source := "/home/dev/acme";
                mount.Target := "/var/www/html/wp-content/plugins/acme" |} ]);
    reflexivity.
Defined.

(** C6 as stated fails for the plugin named [../..]: planning succeeds
    and the artifact mount has the target of the document root bind. *)
Lemma mount_targets_collide_for_climbing_name :
  (site.getWordPressMounts (samples.calmHost (true, None) (0, "", None))
     (samples.descriptor "../.." "plugin") "/sites/acme/wordpress" samples.freshWorld).1.2
  = None
  ∧ ¬ NoDup (map mount.Target
        (site.getWordPressMounts (samples.calmHost (true, None) (0, "", None))
           (samples.descriptor "../.." "plugin") "/sites/acme/wordpress"
           samples.freshWorld).1.1).
Proof.
  split; [reflexivity|].
  change (¬ NoDup ["/var/www/html"; "/Site"; "/var/www/html"]).
  intros Hnd. apply NoDup_cons in Hnd as [Hnotin _].
  apply Hnotin. rewrite list_elem_of_In. simpl. tauto.
Qed.

(** ** The environment of the application container *)

Section ApplicationEnvironment.
Import settings.
Variable host : site.Host.

Lemma getWordPressContainer_env (s : site.Site) (appVolumes : list mount.Mount)
    (appContainers : list docker.ContainerConfig) (b : bool) :
  site.isUsingSQLite host s = (b, None) →
  ∃ c, site.getWordPressContainer host s appVolumes appContainers = appContainers ++ [c]
       ∧ docker.Volumes c = appVolumes
       ∧ docker.Name c = "kana-" +:+ Name (site.Settings s) +:+ "-wordpress"
       ∧ docker.Env c
         = [marker] ++ databaseBlock (site.Settings s) b
             ++ loginBlock (site.Settings s) ++ debugBlock (site.Settings s)
             ++ [extraConfig (site.Settings s)].
Proof.
  intros Hsql. unfold site.getWordPressContainer. rewrite Hsql.
  eexists. split; [reflexivity|].
  unfold loginBlock, debugBlock, extraConfig, databaseBlock, marker.
  destruct b, (AutomaticLogin (site.Settings s)), (WPDebug (site.Settings s)),
    (ScriptDebug (site.Settings s)); repeat split; reflexivity.
Qed.

Lemma getWordPressContainer_check_failed (s : site.Site) (appVolumes : list mount.Mount)
    (appContainers : list docker.ContainerConfig) (b : bool) (e : error) :
  site.isUsingSQLite host s = (b, Some e) →
  site.getWordPressContainer host s appVolumes appContainers = appContainers.
Proof. intros Hsql. unfold site.getWordPressContainer. by rewrite Hsql. Qed.

End ApplicationEnvironment.

(** Membership in the blocks of an environment list. *)
Ltac env_membership :=
  unfold marker, databaseBlock, loginBlock, debugBlock, extraConfig;
  repeat match goal with
         | |- context [if ?b then _ else _] => destruct b
         end;
  rewrite ?list_elem_of_In; simpl;
  repeat split; intros; try done; try tauto; intuition discriminate.

Section EnvironmentClaims.
Import settings.
Variable host : site.Host.

(** C3 (amended). When the embedded-database check succeeds, the
    environment of the application container is, in this order: the
    marker, the database block, [KANA_ADMIN_LOGIN=true] exactly when
    automatic login is set, [WORDPRESS_DEBUG=1] exactly when debugging is
    set, and last, whatever the flags, the [WORDPRESS_CONFIG_EXTRA]
    variable that declares the environment type (script debugging extends
    its value). The list depends on the descriptor and the database mode
    only. *)
Theorem application_env_order (s : site.Site) (appVolumes : list mount.Mount)
    (appContainers : list docker.ContainerConfig) (b : bool) :
  site.isUsingSQLite host s = (b, None) →
  ∃ c, site.getWordPressContainer host s appVolumes appContainers = appContainers ++ [c]
    ∧ docker.Env c
      = [marker] ++ databaseBlock (site.Settings s) b
          ++ (if AutomaticLogin (site.Settings s) then ["KANA_ADMIN_LOGIN=true"] else [])
          ++ (if WPDebug (site.Settings s) then ["WORDPRESS_DEBUG=1"] else [])
          ++ [extraConfig (site.Settings s)]
    ∧ ("KANA_ADMIN_LOGIN=true" ∈ docker.Env c ↔ AutomaticLogin (site.Settings s) = true)
    ∧ ("WORDPRESS_DEBUG=1" ∈ docker.Env c ↔ WPDebug (site.Settings s) = true)
    ∧ extraConfig (site.Settings s) ∈ docker.Env c
    ∧ (∀ appVolumes' appContainers' c',
         site.getWordPressContainer host s appVolumes' appContainers' = appContainers' ++ [c'] →
         docker.Env c' = docker.Env c).
Proof.
  intros Hsql.
  destruct (getWordPressContainer_env host s appVolumes appContainers b Hsql)
    as (c & Hc & _ & _ & Henv).
  exists c. split; [done|]. split; [done|]. rewrite Henv.
  split; [|split; [|split]].
  - clear. env_membership.
  - clear. env_membership.
  - set_solver.
  - intros vols' cs' c' Hc'.
    destruct (getWordPressContainer_env host s vols' cs' b Hsql)
      as (c'' & Hc'' & _ & _ & Henv'').
    rewrite Hc' in Hc''. apply app_inj_tail in Hc'' as [_ ->]. done.
Qed.

End EnvironmentClaims.

(** C3, for a descriptor with automatic login and debugging on. *)
Lemma application_env_order_witness :
  ∃ c, site.getWordPressContainer (samples.calmHost (true, None) (0, "", None))
         samples.debuggedSite [] [] = [c]
       ∧ docker.Env c
         = [ "IS_KANA_ENVIRONMENT=true"; "KANA_SQLITE=true"; "KANA_ADMIN_LOGIN=true";
             "WORDPRESS_DEBUG=1";
             "WORDPRESS_CONFIG_EXTRA=define( 'WP_ENVIRONMENT_TYPE', 'local' );" ].
Proof.
  destruct (application_env_order (samples.calmHost (true, None) (0, "", None))
              samples.debuggedSite [] [] true eq_refl) as (c & Hc & Henv & _).
  exists c. split; [exact Hc | exact Henv].
Defined.

(** C3 as stated fails for a descriptor on which no flag is set and no
    environment is named: its list still ends with the variable that
    declares the environment type. *)
Lemma environment_type_declared_without_flag :
  settings.AutomaticLogin (site.Settings (samples.descriptor "acme" "site")) = false
  ∧ settings.WPDebug (site.Settings (samples.descriptor "acme" "site")) = false
  ∧ settings.ScriptDebug (site.Settings (samples.descriptor "acme" "site")) = false
  ∧ settings.Environment (site.Settings (samples.descriptor "acme" "site")) = ""
  ∧ map docker.Env
      (site.getWordPressContainer (samples.calmHost (true, None) (0, "", None))
         (samples.descriptor "acme" "site") [] [])
    = [[ "IS_KANA_ENVIRONMENT=true"; "KANA_SQLITE=true";
         "WORDPRESS_CONFIG_EXTRA=define( 'WP_ENVIRONMENT_TYPE', '' );" ]].
Proof. repeat split. Qed.

(** ** Worlds and traces *)

Section WorldFacts.
Import settings.
Variable host : site.Host.

Lemma afterMkdirs_refl w : afterMkdirs w w.
Proof. split; [done|]. exists []. by rewrite app_nil_r. Qed.

Lemma afterMkdirs_MkdirAll w path perm :
  afterMkdirs w (site.os_MkdirAll host path perm w).2.
Proof. split; [done|]. exists [site.MkdirAll path perm]. split; [done|]. repeat constructor. by eexists _, _. Qed.

Lemma afterMkdirs_trans w1 w2 w3 : afterMkdirs w1 w2 → afterMkdirs w2 w3 → afterMkdirs w1 w3.
Proof.
  intros [Hc1 (evs1 & Ht1 & Hm1)] [Hc2 (evs2 & Ht2 & Hm2)].
  split; [congruence|]. exists (evs1 ++ evs2).
  split; [by rewrite Ht2, Ht1, app_assoc | by apply Forall_app].
Qed.

Lemma runIsNotLast_afterMkdirs w w' : runIsNotLast w → afterMkdirs w w' → runIsNotLast w'.
Proof.
  intros Hw [_ (evs & Ht & Hm)] c i. rewrite Ht.
  destruct evs as [|e evs _] using rev_ind.
  - rewrite app_nil_r. apply Hw.
  - rewrite app_assoc, last_snoc. apply Forall_app in Hm as [_ Hm].
    apply Forall_singleton in Hm as (path & perm & ->). discriminate.
Qed.

Lemma getWordPressDirectory_world s w :
  afterMkdirs w (site.getWordPressDirectory host s w).2.
Proof.
  unfold site.getWordPressDirectory.
  destruct (site.GetSiteLink host s) as [siteLink [e|]]; [apply afterMkdirs_refl|].
  unfold mbind, StateM_bind.
  match goal with |- context [site.os_MkdirAll host ?p ?m w] =>
    pose proof (afterMkdirs_MkdirAll w p m) as H;
    destruct (site.os_MkdirAll host p m w) as [[e|] w'] end; exact H.
Qed.

Lemma getWordPressMounts_world s appDir w :
  afterMkdirs w (site.getWordPressMounts host s appDir w).2.
Proof.
  unfold site.getWordPressMounts.
  assert (∀ vols w1, afterMkdirs w w1 →
    afterMkdirs w
      ((if String.eqb (Type_ (site.Settings s)) "theme"
        then
          err ← site.os_MkdirAll host
                  (filepath.Join [appDir; "wp-content"; "themes"; Name (site.Settings s)])
                  site.defaultDirPermissions;
          iferr err give (vols, err);
          mret (vols ++ [
            {| mount.Type_ := mount.TypeBind;
               mount.Source := WorkingDirectory (site.Settings s);
               mount.Target := filepath.Join ["/var/www/html/wp-content"; "themes"; Name (site.Settings s)] |} ],
            None)
        else mret (vols, None)) w1).2) as Htheme.
  { intros vols w1 Hw1. destruct (String.eqb _ "theme"); [|exact Hw1].
    unfold mbind, StateM_bind.
    match goal with |- context [site.os_MkdirAll host ?p ?m w1] =>
      pose proof (afterMkdirs_MkdirAll w1 p m) as H;
      destruct (site.os_MkdirAll host p m w1) as [[e|] w'] end;
      exact (afterMkdirs_trans _ _ _ Hw1 H). }
  destruct (String.eqb _ "plugin"); [|apply Htheme, afterMkdirs_refl].
  unfold mbind at 1, StateM_bind at 1.
  match goal with |- context [site.os_MkdirAll host ?p ?m w] =>
    pose proof (afterMkdirs_MkdirAll w p m) as H;
    destruct (site.os_MkdirAll host p m w) as [[e|] w'] end; [exact H|].
  by apply Htheme.
Qed.

(** What the planner returns does not depend on the world it runs in. *)
Lemma getWordPressMounts_result s appDir w w0 :
  (site.getWordPressMounts host s appDir w).1 = (site.getWordPressMounts host s appDir w0).1.
Proof.
  unfold site.getWordPressMounts, mbind, StateM_bind, site.os_MkdirAll, site.emit, mret, StateM_ret.
  destruct (String.eqb _ "plugin"), (String.eqb _ "theme");
    cbn -[filepath.Join site.defaultDirPermissions];
    repeat match goal with
           | |- context [site.MkdirAll_outcome host ?p ?m] =>
               destruct (site.MkdirAll_outcome host p m)
           end; reflexivity.
Qed.

(** The directory [getWordPressDirectory] returns does not depend on the
    world it runs in. *)
Lemma getWordPressDirectory_result s w w0 :
  (site.getWordPressDirectory host s w).1 = (site.getWordPressDirectory host s w0).1.
Proof.
  unfold site.getWordPressDirectory, mbind, StateM_bind, site.os_MkdirAll, site.emit,
    mret, StateM_ret.
  destruct (site.GetSiteLink host s) as [siteLink [e|]]; [done|].
  cbn -[filepath.Join site.defaultDirPermissions].
  match goal with
  | |- context [site.MkdirAll_outcome host ?p ?m] => destruct (site.MkdirAll_outcome host p m)
  end; reflexivity.
Qed.
End WorldFacts.

(** A run of [WPCli] that ends with the command container being run: what
    was run, and what is returned. *)
Lemma WPCli_run (host : site.Host) (s : site.Site) (command : list string)
    (interactive : bool) (w : site.World) (c : docker.ContainerConfig) (i : bool) :
  last (site.trace (site.WPCli host s command interactive w).2)
    = Some (site.ContainerRunAndClean c i) →
  ∃ b dir,
    i = interactive
    ∧ site.isUsingSQLite host (site.WPCli host s command interactive w).1.1 = (b, None)
    ∧ (∀ w0, (site.getWordPressMounts host (site.WPCli host s command interactive w).1.1 dir w0).1
             = (docker.Volumes c, None))
    ∧ docker.Env c
      = [marker] ++ databaseBlock (site.Settings (site.WPCli host s command interactive w).1.1) b
          ++ loginBlock (site.Settings (site.WPCli host s command interactive w).1.1)
    ∧ docker.Command c = ["wp"; "--path=/var/www/html"] ++ command
    ∧ (site.WPCli host s command interactive w).1.2
      = (let '(code, output, err) := site.ContainerRunAndClean_outcome host c interactive in
         match err with Some _ => (code, "", err) | None => (code, output, None) end).
Proof.
  unfold site.WPCli, site.dockerClient_ContainerGetMounts, site.dockerClient_EnsureImage,
    site.dockerClient_ContainerRunAndClean, site.emit.
  unfold mbind, StateM_bind, mret, StateM_ret.
  cbv beta iota zeta.
  destruct (site.overrideTypes host _ (site.Settings s)) as [st [e|]] eqn:Hov.
  { cbn [snd site.trace]. rewrite last_snoc. discriminate. }
  match goal with |- context [site.getWordPressDirectory host _ ?w1] => set (w1' := w1) end.
  assert (runIsNotLast w1') as Hw1.
  { intros c' i'. subst w1'. cbn [site.trace]. rewrite last_snoc. discriminate. }
  clearbody w1'.
  pose proof (getWordPressDirectory_world host {| site.Settings := st |} w1') as Hdir.
  destruct (site.getWordPressDirectory host {| site.Settings := st |} w1')
    as [[dir [e|]] w2].
  { intros Hlast. by apply (runIsNotLast_afterMkdirs _ _ Hw1 Hdir) in Hlast. }
  pose proof (runIsNotLast_afterMkdirs _ _ Hw1 Hdir) as Hw2. clear Hdir Hw1.
  pose proof (getWordPressMounts_world host {| site.Settings := st |} dir w2) as Hmounts.
  pose proof (getWordPressMounts_result host {| site.Settings := st |} dir w2) as Hres.
  destruct (site.getWordPressMounts host {| site.Settings := st |} dir w2)
    as [[vols [e|]] w3].
  { intros Hlast. by apply (runIsNotLast_afterMkdirs _ _ Hw2 Hmounts) in Hlast. }
  pose proof (runIsNotLast_afterMkdirs _ _ Hw2 Hmounts) as Hw3. clear Hmounts Hw2.
  destruct (site.isUsingSQLite host {| site.Settings := st |}) as [b [e|]] eqn:Hsql.
  { intros Hlast. by apply Hw3 in Hlast. }
  match goal with |- context [site.EnsureImage_outcome host ?im ?n] =>
    destruct (site.EnsureImage_outcome host im n) as [e|] end.
  { cbn [snd site.trace]. rewrite last_snoc. discriminate. }
  match goal with |- context [site.ContainerRunAndClean_outcome host ?ct ?it] =>
    set (container := ct);
    destruct (site.ContainerRunAndClean_outcome host container it) as [[code output] err] eqn:Hrun
  end.
  assert (docker.Env container
          = [marker] ++ databaseBlock st b ++ loginBlock st
          ∧ docker.Volumes container = vols
          ∧ docker.Command container = ["wp"; "--path=/var/www/html"] ++ command) as (Henv & Hvols & Hcmd).
  { subst container. unfold databaseBlock, loginBlock, marker. cbn [site.Settings].
    destruct b, (settings.AutomaticLogin st); repeat split; reflexivity. }
  clearbody container.
  destruct err as [e|]; cbn [snd fst site.trace]; rewrite last_snoc;
    intros [= <- <-]; exists b, dir; cbn [site.Settings fst snd];
    rewrite Hrun; (split; [done|]); (split; [done|]);
    (split; [intros w0; by rewrite <- (Hres w0), Hvols|]); done.
Qed.

(** A run of [WPCli] that ends with the command container being run
    planned the mounts of that container in the directory
    [getWordPressDirectory] returned for the descriptor it holds. *)
Lemma WPCli_plans_in_site_directory (host : site.Host) (s : site.Site) (command : list string)
    (interactive : bool) (w : site.World) (c : docker.ContainerConfig) (i : bool) :
  last (site.trace (site.WPCli host s command interactive w).2)
    = Some (site.ContainerRunAndClean c i) →
  ∃ dir,
    (∀ w0, (site.getWordPressDirectory host (site.WPCli host s command interactive w).1.1 w0).1
           = (dir, None))
    ∧ (∀ w0, (site.getWordPressMounts host (site.WPCli host s command interactive w).1.1 dir w0).1
             = (docker.Volumes c, None)).
Proof.
  unfold site.WPCli, site.dockerClient_ContainerGetMounts, site.dockerClient_EnsureImage,
    site.dockerClient_ContainerRunAndClean, site.emit.
  unfold mbind, StateM_bind, mret, StateM_ret.
  cbv beta iota zeta.
  destruct (site.overrideTypes host _ (site.Settings s)) as [st [e|]] eqn:Hov.
  { cbn [snd site.trace]. rewrite last_snoc. discriminate. }
  match goal with |- context [site.getWordPressDirectory host _ ?w1] => set (w1' := w1) end.
  assert (runIsNotLast w1') as Hw1.
  { intros c' i'. subst w1'. cbn [site.trace]. rewrite last_snoc. discriminate. }
  clearbody w1'.
  pose proof (getWordPressDirectory_world host {| site.Settings := st |} w1') as Hdir.
  pose proof (getWordPressDirectory_result host {| site.Settings := st |} w1') as Hdirres.
  destruct (site.getWordPressDirectory host {| site.Settings := st |} w1')
    as [[dir [e|]] w2].
  { intros Hlast. by apply (runIsNotLast_afterMkdirs _ _ Hw1 Hdir) in Hlast. }
  pose proof (runIsNotLast_afterMkdirs _ _ Hw1 Hdir) as Hw2. clear Hdir Hw1.
  pose proof (getWordPressMounts_world host {| site.Settings := st |} dir w2) as Hmounts.
  pose proof (getWordPressMounts_result host {| site.Settings := st |} dir w2) as Hres.
  destruct (site.getWordPressMounts host {| site.Settings := st |} dir w2)
    as [[vols [e|]] w3].
  { intros Hlast. by apply (runIsNotLast_afterMkdirs _ _ Hw2 Hmounts) in Hlast. }
  pose proof (runIsNotLast_afterMkdirs _ _ Hw2 Hmounts) as Hw3. clear Hmounts Hw2.
  destruct (site.isUsingSQLite host {| site.Settings := st |}) as [b [e|]] eqn:Hsql.
  { intros Hlast. by apply Hw3 in Hlast. }
  match goal with |- context [site.EnsureImage_outcome host ?im ?n] =>
    destruct (site.EnsureImage_outcome host im n) as [e|] end.
  { cbn [snd site.trace]. rewrite last_snoc. discriminate. }
  match goal with |- context [site.ContainerRunAndClean_outcome host ?ct ?it] =>
    set (container := ct);
    destruct (site.ContainerRunAndClean_outcome host container it) as [[code output] err] eqn:Hrun
  end.
  assert (docker.Volumes container = vols) as Hvols.
  { subst container. cbn [site.Settings]. destruct (settings.AutomaticLogin st); reflexivity. }
  clearbody container.
  destruct err as [e|]; cbn [snd fst site.trace]; rewrite last_snoc;
    intros [= <- <-]; exists dir; cbn [site.Settings fst snd];
    (split; [intros w0; by rewrite <- (Hdirres w0) |
             intros w0; by rewrite <- (Hres w0), Hvols]).
Qed.

Section CommandReached.
Variable host : site.Host.
Hypothesis mkdir_ok : ∀ path perm, site.MkdirAll_outcome host path perm = None.

Lemma getWordPressDirectory_ok (s : site.Site) (w : site.World) (siteLink : string) :
  site.GetSiteLink host s = (siteLink, None) →
  (site.getWordPressDirectory host s w).1.2 = None.
Proof.
  intros Hlink. unfold site.getWordPressDirectory. rewrite Hlink.
  unfold mbind, StateM_bind, site.os_MkdirAll, site.emit, mret, StateM_ret.
  cbv beta iota zeta. by rewrite mkdir_ok.
Qed.

Lemma getWordPressMounts_ok (s : site.Site) (appDir : string) (w : site.World) :
  (site.getWordPressMounts host s appDir w).1.2 = None.
Proof.
  unfold site.getWordPressMounts, mbind, StateM_bind, site.os_MkdirAll, site.emit, mret, StateM_ret.
  destruct (String.eqb _ "plugin"), (String.eqb _ "theme");
    cbv beta iota zeta; rewrite ?mkdir_ok; cbv beta iota zeta; rewrite ?mkdir_ok; reflexivity.
Qed.

(** When every step before it succeeds, [WPCli] runs the command
    container. *)
Lemma WPCli_reaches_run (s : site.Site) (command : list string) (interactive : bool)
    (w : site.World) (st : settings.Settings) (siteLink : string) (b : bool) :
  site.overrideTypes host
    (site.ContainerGetMounts_outcome host
       ("kana-" +:+ settings.Name (site.Settings s) +:+ "-wordpress"))
    (site.Settings s) = (st, None) →
  site.GetSiteLink host {| site.Settings := st |} = (siteLink, None) →
  site.isUsingSQLite host {| site.Settings := st |} = (b, None) →
  (∀ image interval, site.EnsureImage_outcome host image interval = None) →
  ∃ c, last (site.trace (site.WPCli host s command interactive w).2)
       = Some (site.ContainerRunAndClean c interactive).
Proof.
  intros Hov Hlink Hsql Himage.
  unfold site.WPCli, site.dockerClient_ContainerGetMounts, site.dockerClient_EnsureImage,
    site.dockerClient_ContainerRunAndClean, site.emit.
  unfold mbind, StateM_bind, mret, StateM_ret.
  cbv beta iota zeta. rewrite Hov.
  match goal with |- context [site.getWordPressDirectory host _ ?w1] =>
    pose proof (getWordPressDirectory_ok {| site.Settings := st |} w1 siteLink Hlink) as Hdir;
    destruct (site.getWordPressDirectory host {| site.Settings := st |} w1) as [[dir err] w2]
  end.
  cbn [fst snd] in Hdir. subst err.
  pose proof (getWordPressMounts_ok {| site.Settings := st |} dir w2) as Hm.
  destruct (site.getWordPressMounts host {| site.Settings := st |} dir w2) as [[vols err] w3].
  cbn [fst snd] in Hm. subst err.
  rewrite Hsql, Himage.
  match goal with |- context [site.ContainerRunAndClean_outcome host ?ct ?it] =>
    exists ct; destruct (site.ContainerRunAndClean_outcome host ct it) as [[code output] [e|]]
  end; cbn [snd site.trace]; by rewrite last_snoc.
Qed.
End CommandReached.

(** ** The command container *)

Section CommandClaims.
Import settings.
Variable host : site.Host.

(** C10. When [WPCli] gets as far as running the command container and
    the run returns a non-nil error, [WPCli] returns the status code of
    the run, the empty output and that error; when the run returns no
    error, it returns the status code and the captured output as they
    are. *)
Theorem WPCli_drops_output_on_error (s : site.Site) (command : list string)
    (interactive : bool) (w : site.World) (c : docker.ContainerConfig) (i : bool)
    (code : Z) (output : string) (err : option error) :
  last (site.trace (site.WPCli host s command interactive w).2)
    = Some (site.ContainerRunAndClean c i) →
  site.ContainerRunAndClean_outcome host c i = (code, output, err) →
  (site.WPCli host s command interactive w).1.2
  = match err with
    | Some e => (code, "", Some e)
    | None => (code, output, None)
    end.
Proof.
  intros Hlast Hrun.
  destruct (WPCli_run host s command interactive w c i Hlast)
    as (b & dir & -> & _ & _ & _ & _ & Hres).
  rewrite Hres, Hrun. by destruct err.
Qed.

(** C4. With the embedded-database mode selected, the environment of the
    application container and that of the command container hold the
    mode flag and no variable of the connection to a database container;
    without it they hold, in place of the mode flag, exactly the four
    connection variables: the host named after the site and the fixed
    user, password and database. *)
Theorem database_block_by_mode (s : site.Site) :
  (∀ appVolumes appContainers,
     site.isUsingSQLite host s = (true, None) →
     ∃ c, site.getWordPressContainer host s appVolumes appContainers = appContainers ++ [c]
          ∧ "KANA_SQLITE=true" ∈ docker.Env c
          ∧ List.filter remoteDatabaseVariable (docker.Env c) = [])
  ∧ (∀ appVolumes appContainers,
       site.isUsingSQLite host s = (false, None) →
       ∃ c, site.getWordPressContainer host s appVolumes appContainers = appContainers ++ [c]
            ∧ ("KANA_SQLITE=true" ∉ docker.Env c)
            ∧ List.filter remoteDatabaseVariable (docker.Env c)
              = [ "WORDPRESS_DB_HOST=kana-" +:+ Name (site.Settings s) +:+ "-database";
                  "WORDPRESS_DB_USER=wordpress";
                  "WORDPRESS_DB_PASSWORD=wordpress";
                  "WORDPRESS_DB_NAME=wordpress" ])
  ∧ (∀ command interactive w c i,
       last (site.trace (site.WPCli host s command interactive w).2)
         = Some (site.ContainerRunAndClean c i) →
       (site.isUsingSQLite host (site.WPCli host s command interactive w).1.1 = (true, None) →
        "KANA_SQLITE=true" ∈ docker.Env c
        ∧ List.filter remoteDatabaseVariable (docker.Env c) = [])
       ∧ (site.isUsingSQLite host (site.WPCli host s command interactive w).1.1 = (false, None) →
          ("KANA_SQLITE=true" ∉ docker.Env c)
          ∧ List.filter remoteDatabaseVariable (docker.Env c)
            = [ "WORDPRESS_DB_HOST=kana-"
                  +:+ Name (site.Settings (site.WPCli host s command interactive w).1.1)
                  +:+ "-database";
                "WORDPRESS_DB_USER=wordpress";
                "WORDPRESS_DB_PASSWORD=wordpress";
                "WORDPRESS_DB_NAME=wordpress" ])).
Proof.
  split; [|split].
  - intros vols cs Hsql.
    destruct (getWordPressContainer_env host s vols cs true Hsql) as (c & Hc & _ & _ & Henv).
    exists c. split; [done|]. rewrite Henv. clear. split.
    + set_solver.
    + unfold loginBlock, debugBlock, extraConfig.
      destruct (AutomaticLogin _), (WPDebug _), (ScriptDebug _); reflexivity.
  - intros vols cs Hsql.
    destruct (getWordPressContainer_env host s vols cs false Hsql) as (c & Hc & _ & _ & Henv).
    exists c. split; [done|]. rewrite Henv. clear. split.
    + env_membership.
    + unfold loginBlock, debugBlock, extraConfig.
      destruct (AutomaticLogin _), (WPDebug _), (ScriptDebug _); reflexivity.
  - intros command interactive w c i Hlast.
    destruct (WPCli_run host s command interactive w c i Hlast)
      as (b & dir & _ & Hsql & _ & Henv & _).
    rewrite Henv.
    generalize (site.Settings (site.WPCli host s command interactive w).1.1). intros st.
    split; intros Hmode; rewrite Hmode in Hsql; injection Hsql as <-; clear; split.
    + set_solver.
    + unfold loginBlock. destruct (AutomaticLogin _); reflexivity.
    + env_membership.
    + unfold loginBlock. destruct (AutomaticLogin _); reflexivity.
Qed.

(** C7 (amended). The command container is composed from the descriptor
    as [WPCli] leaves it. Its mounts are the ones [getWordPressMounts]
    plans for that descriptor in the directory [getWordPressDirectory]
    returns for it, and its environment is the marker, the database block
    and the automatic-login variable. The application container composed
    from the planner's mounts for the same descriptor and directory has the
    same mounts, and this environment followed by the debugging variable,
    if set, and the variable declaring the environment type: those the
    command container does not get. *)
Theorem command_container_shares_env_prefix (s : site.Site) (command : list string)
    (interactive : bool) (w : site.World) (c : docker.ContainerConfig) (i : bool) :
  last (site.trace (site.WPCli host s command interactive w).2)
    = Some (site.ContainerRunAndClean c i) →
  ∃ dir,
    (∀ w0, (site.getWordPressDirectory host (site.WPCli host s command interactive w).1.1 w0).1
           = (dir, None))
    ∧ ∀ w0 appContainers,
        (site.getWordPressMounts host (site.WPCli host s command interactive w).1.1 dir w0).1
        = (docker.Volumes c, None)
        ∧ ∃ app,
            site.getWordPressContainer host (site.WPCli host s command interactive w).1.1
              (site.getWordPressMounts host (site.WPCli host s command interactive w).1.1
                 dir w0).1.1
              appContainers
            = appContainers ++ [app]
            ∧ docker.Volumes app = docker.Volumes c
            ∧ docker.Env app
              = docker.Env c
                  ++ debugBlock (site.Settings (site.WPCli host s command interactive w).1.1)
                  ++ [extraConfig (site.Settings (site.WPCli host s command interactive w).1.1)].
Proof.
  intros Hlast.
  destruct (WPCli_run host s command interactive w c i Hlast)
    as (b & _ & _ & Hsql & _ & Henv & _).
  destruct (WPCli_plans_in_site_directory host s command interactive w c i Hlast)
    as (dir & Hdir & Hvols).
  exists dir. split; [exact Hdir|]. intros w0 cs. split; [apply Hvols|].
  rewrite (Hvols w0). cbn [fst].
  destruct (getWordPressContainer_env host _ (docker.Volumes c) cs b Hsql)
    as (app & Happ & Hv & _ & Happenv).
  exists app. split; [done|]. split; [done|].
  rewrite Happenv, Henv, <- !app_assoc. reflexivity.
Qed.

End CommandClaims.

(** C10, for a command that fails after printing. *)
Lemma WPCli_drops_output_on_error_witness :
  (site.WPCli (samples.calmHost (true, None) (1, "Error: plugin not found.", Some "exit status 1"))
     (samples.descriptor "acme" "plugin") ["plugin"; "list"] false samples.freshWorld).1.2
  = (1, "", Some "exit status 1").
Proof.
  eapply (WPCli_drops_output_on_error
            (samples.calmHost (true, None) (1, "Error: plugin not found.", Some "exit status 1"))
            (samples.descriptor "acme" "plugin") ["plugin"; "list"] false samples.freshWorld
            _ _ 1 "Error: plugin not found." (Some "exit status 1"));
    reflexivity.
Defined.

(** C4, for the site [acme] in either mode, as application container and
    as command container. *)
Lemma database_block_by_mode_witness :
  (∃ c, site.getWordPressContainer (samples.calmHost (true, None) (0, "", None))
          (samples.descriptor "acme" "site") [] [] = [c]
        ∧ "KANA_SQLITE=true" ∈ docker.Env c
        ∧ List.filter remoteDatabaseVariable (docker.Env c) = [])
  ∧ (∃ c, site.getWordPressContainer (samples.calmHost (false, None) (0, "", None))
            (samples.descriptor "acme" "site") [] [] = [c]
          ∧ ("KANA_SQLITE=true" ∉ docker.Env c)
          ∧ List.filter remoteDatabaseVariable (docker.Env c)
            = [ "WORDPRESS_DB_HOST=kana-acme-database"; "WORDPRESS_DB_USER=wordpress";
                "WORDPRESS_DB_PASSWORD=wordpress"; "WORDPRESS_DB_NAME=wordpress" ])
  ∧ (∃ c, last (site.trace
                  (site.WPCli (samples.calmHost (true, None) (0, "", None))
                     (samples.descriptor "acme" "site") ["core"; "version"] false
                     samples.freshWorld).2)
          = Some (site.ContainerRunAndClean c false)
          ∧ "KANA_SQLITE=true" ∈ docker.Env c
          ∧ List.filter remoteDatabaseVariable (docker.Env c) = [])
  ∧ (∃ c, last (site.trace
                  (site.WPCli (samples.calmHost (false, None) (0, "", None))
                     (samples.descriptor "acme" "site") ["core"; "version"] false
                     samples.freshWorld).2)
          = Some (site.ContainerRunAndClean c false)
          ∧ ("KANA_SQLITE=true" ∉ docker.Env c)
          ∧ List.filter remoteDatabaseVariable (docker.Env c)
            = [ "WORDPRESS_DB_HOST=kana-acme-database"; "WORDPRESS_DB_USER=wordpress";
                "WORDPRESS_DB_PASSWORD=wordpress"; "WORDPRESS_DB_NAME=wordpress" ]).
Proof.
  split; [|split; [|split]].
  - apply (proj1 (database_block_by_mode (samples.calmHost (true, None) (0, "", None))
                    (samples.descriptor "acme" "site")) [] []).
    reflexivity.
  - apply (proj1 (proj2 (database_block_by_mode (samples.calmHost (false, None) (0, "", None))
                           (samples.descriptor "acme" "site"))) [] []).
    reflexivity.
  - eexists. split; [reflexivity|].
    apply (proj1 (proj2 (proj2 (database_block_by_mode
                    (samples.calmHost (true, None) (0, "", None))
                    (samples.descriptor "acme" "site"))) ["core"; "version"] false
                    samples.freshWorld _ false eq_refl)).
    reflexivity.
  - eexists. split; [reflexivity|].
    apply (proj2 (proj2 (proj2 (database_block_by_mode
                    (samples.calmHost (false, None) (0, "", None))
                    (samples.descriptor "acme" "site"))) ["core"; "version"] false
                    samples.freshWorld _ false eq_refl)).
    reflexivity.
Defined.

(** C7, for a debugged site: the application container has two variables
    more than the command container. *)
Lemma command_container_shares_env_prefix_witness :
  ∃ c app,
    last (site.trace
            (site.WPCli (samples.calmHost (true, None) (0, "", None))
               samples.debuggedSite ["core"; "version"] false samples.freshWorld).2)
    = Some (site.ContainerRunAndClean c false)
    ∧ site.getWordPressContainer (samples.calmHost (true, None) (0, "", None))
        samples.debuggedSite
        (site.getWordPressMounts (samples.calmHost (true, None) (0, "", None))
           samples.debuggedSite
           (site.getWordPressDirectory (samples.calmHost (true, None) (0, "", None))
              samples.debuggedSite samples.freshWorld).1.1
           samples.freshWorld).1.1
        [] = [app]
    ∧ docker.Volumes app = docker.Volumes c
    ∧ docker.Env app
      = docker.Env c
          ++ [ "WORDPRESS_DEBUG=1";
               "WORDPRESS_CONFIG_EXTRA=define( 'WP_ENVIRONMENT_TYPE', 'local' );" ].
Proof.
  eexists.
  destruct (command_container_shares_env_prefix
              (samples.calmHost (true, None) (0, "", None))
              samples.debuggedSite ["core"; "version"] false samples.freshWorld
              _ false eq_refl) as (dir & Hdir & Happ).
  destruct (Happ samples.freshWorld []) as (_ & app & Hbuilt & Hvols & Henv).
  exists app. split; [reflexivity|].
  specialize (Hdir samples.freshWorld). apply (f_equal fst) in Hdir. cbn [fst] in Hdir.
  rewrite <- Hdir in Hbuilt.
  split; [exact Hbuilt|]. split; [exact Hvols | exact Henv].
Defined.

(** C7 as stated fails for the site [acme] with every flag off: the
    application container is given the variable declaring the environment
    type, the command container is not. *)
Lemma command_env_differs_from_application_env :
  map docker.Env
    (site.getWordPressContainer (samples.calmHost (true, None) (0, "", None))
       (samples.descriptor "acme" "site") [] [])
  = [[ "IS_KANA_ENVIRONMENT=true"; "KANA_SQLITE=true";
       "WORDPRESS_CONFIG_EXTRA=define( 'WP_ENVIRONMENT_TYPE', '' );" ]]
  ∧ map docker.Env
      (commandContainers
         (site.trace
            (site.WPCli (samples.calmHost (true, None) (0, "", None))
               (samples.descriptor "acme" "site") ["core"; "version"] false
               samples.freshWorld).2))
    = [[ "IS_KANA_ENVIRONMENT=true"; "KANA_SQLITE=true" ]].
Proof. split; reflexivity. Qed.

(** ** Stopping and starting a site *)

Section StopFacts.
Variable host : site.Host.

(** Stopping a list of names: as long as the engine stops those that
    exist, no absent one is an error. *)
Lemma stopEach_absent_ok (names : list string) :
  ∀ w : site.World,
    (∀ name, name ∈ names → name ∈ site.containers w →
             site.engineStop_outcome host name = None) →
    site.stopEach host names w
    = (None, {| site.trace := site.trace w ++ map site.ContainerStop names;
                site.containers := site.containers w ∖ list_to_set names |}).
Proof.
  induction names as [|name names IH]; intros w Hstop.
  - destruct w as [tr cs]. simpl. rewrite app_nil_r.
    do 2 f_equal. set_solver.
  - cbn [site.stopEach]. unfold mbind at 1, StateM_bind at 1.
    unfold site.dockerClient_ContainerStop at 1.
    assert (site.engineStop_outcome host name = None
            ∨ name ∉ site.containers w) as Hname.
    { destruct (decide (name ∈ site.containers w)) as [Hin|Hout]; [left|by right].
      apply Hstop; [set_solver | done]. }
    assert (∀ tr cs,
              cs = site.containers w ∖ {[name]} →
              site.stopEach host names {| site.trace := tr; site.containers := cs |}
              = (None, {| site.trace := tr ++ map site.ContainerStop names;
                          site.containers := site.containers w ∖ list_to_set (name :: names) |}))
      as Hrest.
    { intros tr cs ->. rewrite IH.
      - cbn [site.trace site.containers]. do 2 f_equal. set_solver.
      - cbn [site.containers]. intros other Hother Hin. apply Hstop; set_solver. }
    destruct (decide (name ∈ site.containers w)) as [Hin|Hout].
    + destruct Hname as [-> | Hout]; [|done].
      cbn [site.trace]. rewrite Hrest by done.
      cbn [map]. by rewrite <- app_assoc.
    + rewrite Hrest by set_solver.
      cbn [map]. by rewrite <- app_assoc.
Qed.

End StopFacts.

(** C8. [stopWordPress] stops the four containers of the site, database,
    application, phpmyadmin and mailpit, in this order and returns no
    error, whichever of them exist, as long as the engine stops those that
    do; afterwards none of the four is left. (The stop call of the docker
    client is modelled from the specification.) *)
Theorem stop_tolerates_absent_containers (host : site.Host) (s : site.Site) (w : site.World) :
  (∀ name, name ∈ site.getWordPressContainers s → name ∈ site.containers w →
           site.engineStop_outcome host name = None) →
  site.getWordPressContainers s
  = [ "kana-" +:+ settings.Name (site.Settings s) +:+ "-database";
      "kana-" +:+ settings.Name (site.Settings s) +:+ "-wordpress";
      "kana-" +:+ settings.Name (site.Settings s) +:+ "-phpmyadmin";
      "kana-" +:+ settings.Name (site.Settings s) +:+ "-mailpit" ]
  ∧ site.stopWordPress host s w
    = (None, {| site.trace :=
                  site.trace w ++ map site.ContainerStop (site.getWordPressContainers s);
                site.containers :=
                  site.containers w ∖ list_to_set (site.getWordPressContainers s) |}).
Proof.
  intros Hstop. split; [reflexivity|].
  unfold site.stopWordPress. by apply stopEach_absent_ok.
Qed.

(** C8, for a site none of whose containers exists, and for one of which
    only the application container exists. *)
Lemma stop_tolerates_absent_containers_witness :
  (site.stopWordPress (samples.calmHost (true, None) (0, "", None))
     (samples.descriptor "acme" "site") samples.freshWorld).1 = None
  ∧ (site.stopWordPress (samples.calmHost (true, None) (0, "", None))
       (samples.descriptor "acme" "site")
       {| site.trace := []; site.containers := {["kana-acme-wordpress"]} |}).1 = None.
Proof.
  split.
  - rewrite (proj2 (stop_tolerates_absent_containers
                      (samples.calmHost (true, None) (0, "", None))
                      (samples.descriptor "acme" "site") samples.freshWorld
                      (λ _ _ _, eq_refl))).
    reflexivity.
  - rewrite (proj2 (stop_tolerates_absent_containers
                      (samples.calmHost (true, None) (0, "", None))
                      (samples.descriptor "acme" "site")
                      {| site.trace := []; site.containers := {["kana-acme-wordpress"]} |}
                      (λ _ _ _, eq_refl))).
    reflexivity.
Defined.

Section StartFacts.
Variable host : site.Host.

Lemma startEach_ok (s : site.Site) (cs : list docker.ContainerConfig) :
  ∀ w : site.World,
    (∀ c, c ∈ cs → site.startContainer_outcome host s c true true = None) →
    site.startEach host s cs w
    = (None, {| site.trace := site.trace w ++ map (λ c, site.StartContainer c true true) cs;
                site.containers := site.containers w |}).
Proof.
  induction cs as [|c cs IH]; intros w Hok.
  - destruct w. simpl. by rewrite app_nil_r.
  - cbn [site.startEach]. unfold mbind at 1, StateM_bind at 1.
    unfold site.startContainer at 1.
    unfold mbind at 1, StateM_bind at 1, site.emit at 1, mret at 1, StateM_ret at 1.
    cbv beta iota zeta.
    rewrite (Hok c) by set_solver. rewrite IH by (intros; apply Hok; set_solver).
    cbn [site.trace site.containers map]. by rewrite <- app_assoc.
Qed.

Lemma startedContainers_app (tr tr' : list site.Event) :
  startedContainers (tr ++ tr') = startedContainers tr ++ startedContainers tr'.
Proof. apply omap_app. Qed.

Lemma startedContainers_started (cs : list docker.ContainerConfig) :
  startedContainers (map (λ c, site.StartContainer c true true) cs) = cs.
Proof. unfold startedContainers. induction cs as [|c cs IH]; [done|]. cbn. by rewrite IH. Qed.

Lemma startedContainers_afterMkdirs (w w' : site.World) :
  afterMkdirs w w' →
  startedContainers (site.trace w') = startedContainers (site.trace w).
Proof.
  intros [_ (evs & -> & Hevs)]. rewrite startedContainers_app.
  assert (startedContainers evs = []) as ->; [|by rewrite app_nil_r].
  induction Hevs as [|ev evs (path & perm & ->) _ IH]; [done|]. exact IH.
Qed.
End StartFacts.

(** C9. When the embedded-database check of [getWordPressContainer]
    returns an error, the container list comes back as it was given and no
    error is reported; [startWordPress] then starts the containers of
    [getDatabaseContainer] only and, when its other steps succeed, returns
    no error although no application container was started. *)
Theorem start_succeeds_without_application_container
    (host : site.Host) (s : site.Site) (w : site.World)
    (b : bool) (e : error) (appDir databaseDir : string) :
  site.isUsingSQLite host s = (b, Some e) →
  site.EnsureNetwork_outcome host "kana" = None →
  site.getDirectories_outcome host s = (appDir, databaseDir, None) →
  (site.getWordPressMounts host s appDir w).1.2 = None →
  (∀ c, c ∈ site.getDatabaseContainer host s databaseDir [] →
        site.startContainer_outcome host s c true true = None) →
  site.verifyDatabase_outcome host s = None →
  (∀ appVolumes appContainers,
     site.getWordPressContainer host s appVolumes appContainers = appContainers)
  ∧ (site.startWordPress host s w).1 = None
  ∧ startedContainers (site.trace (site.startWordPress host s w).2)
    = startedContainers (site.trace w) ++ site.getDatabaseContainer host s databaseDir [].
Proof.
  intros Hsql Hnet Hdirs Hmounts Hstart Hverify.
  split; [intros; by eapply getWordPressContainer_check_failed|].
  unfold site.startWordPress, site.dockerClient_EnsureNetwork, site.getDirectories,
    site.os_Stat, site.os_Remove, site.verifyDatabase, site.emit.
  unfold mbind, StateM_bind, mret, StateM_ret. cbv beta iota zeta.
  rewrite Hnet. cbv beta iota zeta. rewrite Hdirs. cbv beta iota zeta.
  destruct (site.Stat_outcome host _); cbv beta iota zeta;
    match goal with |- context [site.getWordPressMounts host s appDir ?w2] =>
      assert (startedContainers (site.trace w2) = startedContainers (site.trace w)) as Htr
        by (cbn [site.trace]; rewrite !startedContainers_app; cbn; by rewrite ?app_nil_r);
      set (w2' := w2) in *; clearbody w2'
    end;
    pose proof (getWordPressMounts_world host s appDir w2') as Hworld;
    pose proof (getWordPressMounts_result host s appDir w2' w) as Hres;
    destruct (site.getWordPressMounts host s appDir w2') as [[vols err] w3];
    cbn [fst snd] in Hres; rewrite <- Hres in Hmounts; cbn [fst snd] in Hmounts; subst err;
    apply startedContainers_afterMkdirs in Hworld; cbn [snd] in Hworld;
    rewrite (getWordPressContainer_check_failed host s vols _ b e Hsql);
    rewrite startEach_ok by done;
    cbn [fst snd site.trace]; rewrite Hverify; (split; [done|]);
    rewrite !startedContainers_app, startedContainers_started, Hworld, Htr; cbn;
    by rewrite app_nil_r.
Qed.

(** C9, for a site whose database mode cannot be read. *)
Lemma start_succeeds_without_application_container_witness :
  (site.startWordPress
     (samples.calmHost (false, Some "open wp-content/database: permission denied") (0, "", None))
     (samples.descriptor "acme" "site") samples.freshWorld).1 = None
  ∧ map docker.Name
      (startedContainers
         (site.trace
            (site.startWordPress
               (samples.calmHost (false, Some "open wp-content/database: permission denied")
                  (0, "", None))
               (samples.descriptor "acme" "site") samples.freshWorld).2))
    = ["kana-acme-database"].
Proof.
  destruct (start_succeeds_without_application_container
              (samples.calmHost (false, Some "open wp-content/database: permission denied")
                 (0, "", None))
              (samples.descriptor "acme" "site") samples.freshWorld
              false "open wp-content/database: permission denied"
              "/sites/acme/wordpress" "/sites/acme/database"
              eq_refl eq_refl eq_refl eq_refl (λ _ _, eq_refl) eq_refl)
    as (_ & Hok & Hstarted).
  split; [exact Hok | rewrite Hstarted; reflexivity].
Defined.

(** * Further properties *)

(** ** The guard, on every platform *)

Section GuardBounds.
Import docker.
Variable host : Platform.

Lemma sleptSeconds_app (tr tr' : list GuardEvent) :
  sleptSeconds (tr ++ tr') = sleptSeconds tr + sleptSeconds tr'.
Proof.
  induction tr as [|e tr IH]; simpl; [lia|]. destruct e; rewrite ?IH; lia.
Qed.

Lemma launches_app (tr tr' : list GuardEvent) :
  launches (tr ++ tr') = (launches tr + launches tr')%nat.
Proof. unfold launches. by rewrite List.filter_app, length_app. Qed.

(** From [retries] on, the loop lists and sleeps at most
    [maxRetries - 1 - retries] times and launches nothing. *)
Lemma retryLoop_effort (fuel : nat) :
  ∀ (retries : Z) (err : option error) (st : GuardState),
    0 ≤ retries < maxRetries →
    let st' := (retryLoop host fuel retries err st).2 in
    Z.of_nat (listCalls st') ≤ Z.of_nat (listCalls st) + (maxRetries - 1 - retries)
    ∧ sleptSeconds (guardTrace st')
      ≤ sleptSeconds (guardTrace st) + sleepDuration * (maxRetries - 1 - retries)
    ∧ launches (guardTrace st') = launches (guardTrace st).
Proof.
  induction fuel as [|fuel IH]; intros retries err st Hr; cbn [retryLoop];
    unfold mbind, StateM_bind, guardDo, apiClient_ContainerList, mret, StateM_ret;
    cbv beta iota zeta.
  - destruct (Z.leb_spec retries maxRetries); cbn [fst snd]; unfold sleepDuration; lia.
  - destruct (Z.leb_spec retries maxRetries); [|lia].
    destruct (Z.eqb_spec (retries + 1) maxRetries) as [Heq|Hne].
    + cbn [fst snd listCalls guardTrace]. rewrite sleptSeconds_app, launches_app.
      cbn. unfold sleepDuration. lia.
    + destruct (listOutcome host _) as [e|].
      * cbn [fst snd listCalls guardTrace]. rewrite !sleptSeconds_app, !launches_app.
        cbn. unfold sleepDuration. lia.
      * match goal with |- context [retryLoop host fuel ?r ?e ?s] =>
          specialize (IH r e s ltac:(lia)) end.
        cbn [listCalls guardTrace] in IH.
        rewrite !sleptSeconds_app, !launches_app in IH. cbn in IH.
        cbn [listCalls guardTrace]. unfold sleepDuration in *. lia.
Qed.

(** X1. Whatever the platform answers, one run of the guard makes at most
    twelve listing calls, sleeps at most 55 seconds in all and launches the
    engine at most once. *)
Theorem guard_effort_is_bounded (fuel : nat) (st : GuardState) :
  let st' := (ensureDockerIsAvailable host fuel st).2 in
  (listCalls st' ≤ listCalls st + 12)%nat
  ∧ sleptSeconds (guardTrace st') ≤ sleptSeconds (guardTrace st) + 55
  ∧ (launches (guardTrace st') ≤ launches (guardTrace st) + 1)%nat.
Proof.
  unfold ensureDockerIsAvailable, execCommand_Run.
  unfold mbind, StateM_bind, apiClient_ContainerList, guardDo, mret, StateM_ret.
  cbv beta iota zeta.
  destruct (listOutcome host (listCalls st)) as [e|].
  2: { cbn [fst snd listCalls guardTrace]. rewrite sleptSeconds_app, launches_app. cbn. lia. }
  destruct (String.eqb (GOOS host) "darwin").
  2: { cbn [fst snd listCalls guardTrace]. rewrite sleptSeconds_app, launches_app. cbn. lia. }
  destruct (runOutcome host "open" ["-a"; "Docker"]).
  { cbn [fst snd listCalls guardTrace]. rewrite !sleptSeconds_app, !launches_app. cbn. lia. }
  match goal with |- context [retryLoop host fuel 0 ?e ?s] =>
    pose proof (retryLoop_effort fuel 0 e s ltac:(unfold maxRetries; lia)) as Hloop end.
  cbn [listCalls guardTrace] in Hloop.
  rewrite !sleptSeconds_app, !launches_app in Hloop. cbn in Hloop.
  cbn [fst snd listCalls guardTrace].
  unfold maxRetries, sleepDuration in Hloop. lia.
Qed.

(** A failed first check never ends in success. *)
Lemma guard_nil_needs_first_check (fuel : nat) (st : GuardState) :
  (ensureDockerIsAvailable host fuel st).1 = Some None →
  listOutcome host (listCalls st) = None.
Proof.
  unfold ensureDockerIsAvailable, execCommand_Run.
  unfold mbind, StateM_bind, apiClient_ContainerList, guardDo, mret, StateM_ret.
  cbv beta iota zeta.
  destruct (listOutcome host (listCalls st)) as [e|]; [|done].
  intros Hnil. exfalso.
  destruct (String.eqb (GOOS host) "darwin"); [|done].
  destruct (runOutcome host "open" ["-a"; "Docker"]); [done|].
  revert Hnil. apply retryLoop_never_nil. done.
Qed.

(** X2. On every platform and with any fuel, the guard returns [nil]
    exactly when its first listing call succeeds: no later answer of the
    engine turns a failed first check into success. *)
Theorem guard_succeeds_iff_first_check_does (fuel : nat) (st : GuardState) :
  (ensureDockerIsAvailable host fuel st).1 = Some None
  ↔ listOutcome host (listCalls st) = None.
Proof.
  split; [apply guard_nil_needs_first_check|].
  intros Hfirst. unfold ensureDockerIsAvailable.
  unfold mbind, StateM_bind, apiClient_ContainerList, mret, StateM_ret.
  cbv beta iota zeta. by rewrite Hfirst.
Qed.

Lemma retryLoop_step (fuel : nat) (retries : Z) (err : option error) :
  retryLoop host (S fuel) retries err
  = if retries <=? maxRetries then
      if retries + 1 =? maxRetries then
        _ ← guardDo (Println "Restarting Docker is taking too long. We seem to have hit an error");
        mret (Some (Errorf "error: unable to start Docker for Mac"))
      else
        _ ← guardDo (Sleep sleepDuration);
        err ← apiClient_ContainerList host;
        match err with
        | Some _ => mret (Some err)
        | None => retryLoop host fuel (retries + 1) err
        end
    else mret (Some err).
Proof. reflexivity. Qed.

(** One more iteration of fuel changes nothing once the loop returns. *)
Lemma retryLoop_more_fuel (fuel : nat) :
  ∀ (retries : Z) (err : option error) (st : GuardState) (res : option error),
    (retryLoop host fuel retries err st).1 = Some res →
    retryLoop host (S fuel) retries err st = retryLoop host fuel retries err st.
Proof.
  induction fuel as [|fuel IH]; intros retries err st res Hres.
  - cbn [retryLoop] in *. destruct (retries <=? maxRetries); [done|reflexivity].
  - rewrite (retryLoop_step (S fuel)), (retryLoop_step fuel).
    rewrite (retryLoop_step fuel) in Hres.
    destruct (retries <=? maxRetries); [|reflexivity].
    destruct (retries + 1 =? maxRetries); [reflexivity|].
    unfold mbind, StateM_bind, guardDo, apiClient_ContainerList in *.
    cbv beta iota zeta in *.
    destruct (listOutcome host _) as [e|]; [reflexivity|].
    by eapply IH.
Qed.

Lemma retryLoop_enough_fuel (fuel extra : nat) (retries : Z) (err : option error)
    (st : GuardState) (res : option error) :
  (retryLoop host fuel retries err st).1 = Some res →
  retryLoop host (extra + fuel) retries err st = retryLoop host fuel retries err st.
Proof.
  intros Hres. induction extra as [|extra IH]; [reflexivity|].
  cbn [Nat.add]. rewrite <- IH. eapply retryLoop_more_fuel. rewrite IH. exact Hres.
Qed.

(** X3. The guard always returns: with thirteen iterations of fuel or
    more it yields a result, and the same result and trace whatever the
    fuel. *)
Theorem guard_returns_whatever_the_fuel (fuel : nat) (st : GuardState) :
  (13 ≤ fuel)%nat →
  ensureDockerIsAvailable host fuel st = ensureDockerIsAvailable host 13 st
  ∧ ∃ res, (ensureDockerIsAvailable host fuel st).1 = Some res.
Proof.
  intros Hfuel. split; [|by apply ensureDockerIsAvailable_returns].
  unfold ensureDockerIsAvailable, execCommand_Run.
  unfold mbind, StateM_bind, apiClient_ContainerList, guardDo, mret, StateM_ret.
  cbv beta iota zeta.
  destruct (listOutcome host (listCalls st)) as [e|]; [|done].
  destruct (String.eqb (GOOS host) "darwin"); [|done].
  destruct (runOutcome host "open" ["-a"; "Docker"]); [done|].
  match goal with |- context [retryLoop host 13 0 ?e ?s] =>
    destruct (retryLoop_returns host 13 0 e s ltac:(unfold maxRetries; simpl; lia))
      as [res Hres] end.
  replace fuel with ((fuel - 13) + 13)%nat by lia.
  by eapply retryLoop_enough_fuel.
Qed.

(** X4. Off macOS the guard checks once and returns what the check
    returned: it neither launches the engine nor waits for it. *)
Theorem guard_checks_once_off_macos (fuel : nat) (st : GuardState) :
  GOOS host ≠ "darwin" →
  ensureDockerIsAvailable host fuel st
  = (Some (listOutcome host (listCalls st)),
     {| listCalls := S (listCalls st); guardTrace := guardTrace st ++ [ContainerList] |}).
Proof.
  intros Hos. apply String.eqb_neq in Hos.
  unfold ensureDockerIsAvailable.
  unfold mbind, StateM_bind, apiClient_ContainerList, mret, StateM_ret.
  cbv beta iota zeta. rewrite Hos.
  by destruct (listOutcome host (listCalls st)).
Qed.

(** X5. On macOS, when the engine is down and the launcher fails, the
    guard returns its fixed error at once, without sleeping or listing
    again; the launcher's own error is not passed on. *)
Theorem guard_gives_up_when_launch_fails (fuel : nat) (st : GuardState) (e e' : error) :
  GOOS host = "darwin" →
  listOutcome host (listCalls st) = Some e →
  runOutcome host "open" ["-a"; "Docker"] = Some e' →
  ensureDockerIsAvailable host fuel st
  = (Some (Some "error: unable to start Docker for Mac"),
     {| listCalls := S (listCalls st);
        guardTrace :=
          guardTrace st
            ++ [ContainerList;
                Println "Docker doesn't appear to be running. Trying to start Docker.";
                ExecRun "open" ["-a"; "Docker"]] |}).
Proof.
  intros Hos Hfirst Hrun.
  unfold ensureDockerIsAvailable, execCommand_Run.
  unfold mbind, StateM_bind, apiClient_ContainerList, guardDo, mret, StateM_ret.
  cbv beta iota zeta. rewrite Hfirst, Hos. cbn [String.eqb Ascii.eqb Bool.eqb].
  cbv beta iota zeta. rewrite Hrun. cbn [guardTrace listCalls].
  by rewrite <- !app_assoc.
Qed.

End GuardBounds.

Lemma guard_returns_whatever_the_fuel_witness :
  docker.ensureDockerIsAvailable samples.reachableAfterLaunch 40 docker.guardStart
  = docker.ensureDockerIsAvailable samples.reachableAfterLaunch 13 docker.guardStart.
Proof.
  apply (guard_returns_whatever_the_fuel samples.reachableAfterLaunch 40 docker.guardStart).
  lia.
Defined.

Lemma guard_checks_once_off_macos_witness :
  docker.ensureDockerIsAvailable moreSamples.linuxDown 13 docker.guardStart
  = (Some (Some samples.daemonDown),
     {| docker.listCalls := 1; docker.guardTrace := [docker.ContainerList] |}).
Proof.
  apply (guard_checks_once_off_macos moreSamples.linuxDown 13 docker.guardStart).
  discriminate.
Defined.

Lemma guard_gives_up_when_launch_fails_witness :
  (docker.ensureDockerIsAvailable moreSamples.launchFails 13 docker.guardStart).1
  = Some (Some "error: unable to start Docker for Mac").
Proof.
  rewrite (guard_gives_up_when_launch_fails moreSamples.launchFails 13 docker.guardStart
             samples.daemonDown "exit status 1" eq_refl eq_refl eq_refl).
  reflexivity.
Defined.


(** ** Creating the docker client *)

Section ClientFacts.
Variables APIClient ViperClient : Type.
Variable platform : docker.Platform.
Variable NewClientWithOpts_outcome : APIClient * option error.
Variable loadImageUpdateData : string -> ViperClient * option error.

(** X6. [NewDockerClient] returns a client exactly when the API client
    could be created and the first listing call succeeds, and then without
    error; the client holds that API client, no checked images and the
    image update data as loaded, whether or not loading reported an error.
    Otherwise it returns no client and an error. *)
Theorem NewDockerClient_returns_client_iff (fuel : nat) (appDirectory : string)
    (st : docker.GuardState) :
  (13 ≤ fuel)%nat →
  ∃ client err,
    (dockerClient.NewDockerClient APIClient ViperClient platform NewClientWithOpts_outcome
       loadImageUpdateData fuel appDirectory st).1 = Some (client, err)
    ∧ (is_Some client ↔ err = None)
    ∧ (is_Some client
       ↔ NewClientWithOpts_outcome.2 = None
         ∧ docker.listOutcome platform (docker.listCalls st) = None)
    ∧ ∀ c, client = Some c →
           dockerClient.apiClient _ _ c = NewClientWithOpts_outcome.1
           ∧ dockerClient.imageUpdateData _ _ c = (loadImageUpdateData appDirectory).1
           ∧ dockerClient.checkedImages _ _ c = [].
Proof.
  intros Hfuel. unfold dockerClient.NewDockerClient.
  destruct NewClientWithOpts_outcome as [api [e|]]; cbn [fst snd].
  { exists None, (Some e). split; [reflexivity|].
    split; [split; [by intros [? ?] | done]|].
    split; [split; [by intros [? ?] | by intros [? _]]|]. done. }
  unfold mbind, StateM_bind.
  pose proof (guard_nil_needs_first_check platform fuel st) as Hneeds.
  assert (docker.listOutcome platform (docker.listCalls st) = None →
          (docker.ensureDockerIsAvailable platform fuel st).1 = Some None) as Hgives.
  { intros Hfirst. unfold docker.ensureDockerIsAvailable.
    unfold mbind, StateM_bind, docker.apiClient_ContainerList, mret, StateM_ret.
    cbv beta iota zeta. by rewrite Hfirst. }
  destruct (ensureDockerIsAvailable_returns platform fuel st Hfuel) as [res Hres].
  destruct (docker.ensureDockerIsAvailable platform fuel st) as [available st'].
  cbn [fst] in *. subst available.
  destruct res as [e|].
  - exists None, (Some e). split; [reflexivity|].
    split; [split; [by intros [? ?] | done]|].
    split; [split; [by intros [? ?] |]|done].
    intros [_ Hfirst]. by apply Hgives in Hfirst.
  - destruct (loadImageUpdateData appDirectory) as [data loadErr].
    eexists (Some _), None. split; [reflexivity|].
    split; [done|].
    split; [split; [intros _; split; [done | by apply Hneeds] | by eexists]|].
    by intros c [= <-].
Qed.

End ClientFacts.

Lemma NewDockerClient_returns_client_iff_witness :
  ∃ client err,
    (dockerClient.NewDockerClient unit unit moreSamples.linuxUp (tt, None)
       (λ _, (tt, Some "open images.json: no such file or directory"))
       13 "/home/dev/.config/kana" docker.guardStart).1 = Some (client, err)
    ∧ (is_Some client ↔ err = None).
Proof.
  destruct (NewDockerClient_returns_client_iff unit unit moreSamples.linuxUp (tt, None)
              (λ _, (tt, Some "open images.json: no such file or directory"))
              13 "/home/dev/.config/kana" docker.guardStart)
    as (client & err & Hrun & Hiff & _); [lia|].
  exists client, err. split; [exact Hrun | exact Hiff].
Defined.

(** ** The first generation of the site containers *)

Section NewWordPressFacts.
Variable EnsureImage_outcome : string -> option error.
Variable ContainerRun_outcome : docker.ContainerConfig -> option error.

(** The loop of [NewWordPress] over any list of containers: it asks for
    the requests of the plan in order, up to and including the first one
    the controller fails. *)
Lemma runEach_until_first_failure (cs : list docker.ContainerConfig) :
  ∀ tr : list wordpress.Event,
    let r := wordpress.runEach EnsureImage_outcome ContainerRun_outcome cs tr in
    ∃ asked,
      r.2 = tr ++ asked
      ∧ asked `prefix_of` ensuredThenRun cs
      ∧ match r.1 with
        | wordpress.Returned =>
            asked = ensuredThenRun cs
            ∧ Forall (λ request,
                        requestOutcome EnsureImage_outcome ContainerRun_outcome request = None)
                     asked
        | wordpress.Panicked e =>
            ∃ earlier request,
              asked = earlier ++ [request]
              ∧ Forall (λ request,
                          requestOutcome EnsureImage_outcome ContainerRun_outcome request = None)
                       earlier
              ∧ requestOutcome EnsureImage_outcome ContainerRun_outcome request = Some e
        end.
Proof.
  induction cs as [|c cs IH]; intros tr; cbv zeta.
  - exists []. cbn. rewrite app_nil_r. done.
  - cbn [wordpress.runEach].
    unfold mbind, StateM_bind, wordpress.controller_EnsureImage,
      wordpress.controller_ContainerRun, mret, StateM_ret.
    cbv beta iota zeta.
    destruct (EnsureImage_outcome (docker.Image c)) as [e|] eqn:Himage.
    { exists [wordpress.EnsureImage (docker.Image c)]. cbn [fst snd].
      split; [done|]. split; [by eexists|].
      exists [], (wordpress.EnsureImage (docker.Image c)). done. }
    destruct (ContainerRun_outcome c) as [e|] eqn:Hrun.
    { exists [wordpress.EnsureImage (docker.Image c); wordpress.ContainerRun c].
      cbn [fst snd]. split; [by rewrite <- app_assoc|].
      split; [by eexists|].
      exists [wordpress.EnsureImage (docker.Image c)], (wordpress.ContainerRun c).
      split; [done|]. split; [|done]. by apply Forall_singleton. }
    destruct (IH ((tr ++ [wordpress.EnsureImage (docker.Image c)]) ++ [wordpress.ContainerRun c]))
      as (asked & Htr & Hprefix & Hend).
    exists ([wordpress.EnsureImage (docker.Image c); wordpress.ContainerRun c] ++ asked).
    split; [by rewrite Htr, <- !app_assoc|].
    split; [by apply prefix_app|].
    destruct (wordpress.runEach _ _ cs _).1 as [|e].
    + destruct Hend as [-> Hall]. split; [done|].
      apply Forall_app. split; [|exact Hall].
      by repeat apply Forall_cons_2.
    + destruct Hend as (earlier & request & -> & Hall & Hfail).
      exists ([wordpress.EnsureImage (docker.Image c); wordpress.ContainerRun c] ++ earlier),
        request.
      split; [by rewrite <- app_assoc|]. split; [|exact Hfail].
      apply Forall_app. split; [|exact Hall].
      by repeat apply Forall_cons_2.
Qed.

(** X7. [NewWordPress] ensures the image of each container right before
    running it, database first. What it asked of the controller is the
    plan (ensure-database, run-database, ensure-application,
    run-application) up to and including the first request the controller
    fails: it panics with the error of that request, every request before
    it having succeeded, and asks for nothing more. It returns exactly
    when the controller fails none of the four requests, after all
    four. *)
Theorem NewWordPress_runs_in_order (siteName : string) (tr : list wordpress.Event) :
  let plan := ensuredThenRun (wordpress.wordPressContainers siteName) in
  let succeeds request :=
    requestOutcome EnsureImage_outcome ContainerRun_outcome request = None in
  let r := wordpress.NewWordPress EnsureImage_outcome ContainerRun_outcome siteName tr in
  (r.1 = wordpress.Returned ↔ Forall succeeds plan)
  ∧ ∃ asked,
      r.2 = tr ++ asked
      ∧ asked `prefix_of` plan
      ∧ match r.1 with
        | wordpress.Returned => asked = plan
        | wordpress.Panicked e =>
            ∃ earlier request,
              asked = earlier ++ [request]
              ∧ Forall succeeds earlier
              ∧ requestOutcome EnsureImage_outcome ContainerRun_outcome request = Some e
        end.
Proof.
  cbv zeta. unfold wordpress.NewWordPress.
  destruct (runEach_until_first_failure (wordpress.wordPressContainers siteName) tr)
    as (asked & Htr & Hprefix & Hend).
  split.
  - destruct (wordpress.runEach _ _ _ _).1 as [|e].
    + destruct Hend as [-> Hall]. done.
    + split; [done|]. intros Hplan.
      destruct Hend as (earlier & request & -> & _ & Hfail).
      destruct Hprefix as [rest Hrest]. rewrite Hrest in Hplan.
      apply Forall_app in Hplan as [Hplan _]. apply Forall_app in Hplan as [_ Hplan].
      rewrite Forall_singleton in Hplan. congruence.
  - exists asked. split; [exact Htr|]. split; [exact Hprefix|].
    destruct (wordpress.runEach _ _ _ _).1 as [|e]; [by destruct Hend | exact Hend].
Qed.

(** X8. For every site name, the application container of [NewWordPress]
    is wired to its database container: [WORDPRESS_DB_HOST] is the host
    name of the database container, the user, password and database name
    it connects with are the ones the database container creates, and both
    are on the same network. *)
Theorem NewWordPress_database_wiring (siteName : string) :
  ∃ database application,
    wordpress.wordPressContainers siteName = [database; application]
    ∧ getenv (docker.Env application) "WORDPRESS_DB_HOST" = Some (docker.HostName database)
    ∧ is_Some (getenv (docker.Env database) "MARIADB_USER")
    ∧ getenv (docker.Env application) "WORDPRESS_DB_USER"
      = getenv (docker.Env database) "MARIADB_USER"
    ∧ is_Some (getenv (docker.Env database) "MARIADB_PASSWORD")
    ∧ getenv (docker.Env application) "WORDPRESS_DB_PASSWORD"
      = getenv (docker.Env database) "MARIADB_PASSWORD"
    ∧ is_Some (getenv (docker.Env database) "MARIADB_DATABASE")
    ∧ getenv (docker.Env application) "WORDPRESS_DB_NAME"
      = getenv (docker.Env database) "MARIADB_DATABASE"
    ∧ docker.NetworkName application = docker.NetworkName database
    ∧ docker.HostName application ≠ docker.HostName database.
Proof.
  eexists _, _. split; [reflexivity|].
  repeat split; try reflexivity; try (by eexists).
  cbn. intros Heq. injection Heq as Heq.
  induction siteName as [|ch siteName IH]; [discriminate|].
  injection Heq as Heq. by apply IH.
Qed.

End NewWordPressFacts.


(** ** Names and labels of the site containers *)

Section StringFacts.

Lemma append_inv_head (p a b : string) : p +:+ a = p +:+ b → a = b.
Proof. induction p as [|c p IH]; simpl; [done|]. intros [= Heq]. by apply IH. Qed.

Lemma append_inv_tail (s : string) : ∀ a b : string, a +:+ s = b +:+ s → a = b.
Proof.
  induction a as [|c a IH]; intros [|d b] Heq; simpl in Heq.
  - done.
  - apply (f_equal String.length) in Heq. rewrite !length_append in Heq. simpl in Heq. lia.
  - apply (f_equal String.length) in Heq. rewrite !length_append in Heq. simpl in Heq. lia.
  - injection Heq as -> Heq. f_equal. by apply IH.
Qed.

Lemma lastChar_append (a : string) (c : ascii) (s : string) :
  lastChar (a +:+ String c s) = lastChar (String c s).
Proof.
  induction a as [|d a IH]; [done|].
  change (lastChar (String d (a +:+ String c s)) = lastChar (String c s)).
  rewrite <- IH. cbn [lastChar]. by destruct a.
Qed.

End StringFacts.

(** The names of the containers of a site, by role; the command
    container last. *)
Ltac names_differ :=
  let Heq := fresh "Heq" in
  intros Heq; apply (inj Some) in Heq; apply append_inv_head in Heq;
  apply (f_equal lastChar) in Heq; rewrite !lastChar_append in Heq; discriminate.

Section NameFacts.
Import settings.

(** X9. Container names are unique per site and role: the database,
    application, phpmyadmin, mailpit and command container names of two
    sites coincide only for the same role and the same site name. *)
Theorem container_names_unique (s1 s2 : site.Site) (i j : nat) (name : string) :
  (site.getWordPressContainers s1 ++ [commandContainerName s1]) !! i = Some name →
  (site.getWordPressContainers s2 ++ [commandContainerName s2]) !! j = Some name →
  i = j ∧ Name (site.Settings s1) = Name (site.Settings s2).
Proof.
  unfold site.getWordPressContainers, commandContainerName.
  generalize (Name (site.Settings s1)) (Name (site.Settings s2)). intros n1 n2 Hi Hj.
  assert (i < 5 ∧ j < 5)%nat as [Hi5 Hj5].
  { apply lookup_lt_Some in Hi, Hj. cbn in Hi, Hj. lia. }
  destruct i as [|[|[|[|[|i]]]]]; try lia;
    destruct j as [|[|[|[|[|j]]]]]; try lia;
    simpl in Hi, Hj; injection Hi as <-; revert Hj;
    try (by names_differ);
    (intros Heq; apply (inj Some) in Heq; apply append_inv_head in Heq;
     split; [done|]; symmetry; exact (append_inv_tail _ _ _ Heq)).
Qed.

End NameFacts.

Lemma container_names_unique_witness :
  (1 = 1)%nat
  ∧ settings.Name (site.Settings (samples.descriptor "acme" "plugin"))
    = settings.Name (site.Settings (samples.descriptor "acme" "site")).
Proof.
  apply (container_names_unique (samples.descriptor "acme" "plugin")
           (samples.descriptor "acme" "site") 1 1 "kana-acme-wordpress");
    reflexivity.
Defined.

(** Two label keys differ. *)
Ltac keys_differ :=
  let Heq := fresh "Heq" in
  intros Heq;
  first [ discriminate Heq
        | apply (append_inv_head "traefik.http.routers.wordpress-") in Heq;
          apply append_inv_head in Heq; discriminate Heq ].

Section LabelFacts.
Import settings.
Variable host : site.Host.

(** X10. When the check of the database mode fails,
    [getWordPressContainer] appends nothing. Otherwise it appends one
    container, and whatever the site name that container carries all
    eight labels (no two keys coincide, so none overwrites another): the
    discovery switch, the kana type and site, and for the plain and the
    TLS router the entry point and the rule [Host(`<domain>`)], with TLS
    switched on for the latter. *)
Theorem application_labels (s : site.Site) (appVolumes : list mount.Mount)
    (appContainers : list docker.ContainerConfig) :
  match (site.isUsingSQLite host s).2 with
  | Some _ => site.getWordPressContainer host s appVolumes appContainers = appContainers
  | None =>
  ∃ c, site.getWordPressContainer host s appVolumes appContainers = appContainers ++ [c]
    ∧ size (docker.Labels c) = 8%nat
    ∧ docker.Labels c !! "traefik.enable" = Some "true"
    ∧ docker.Labels c !! "kana.type" = Some "wordpress"
    ∧ docker.Labels c !! "kana.site" = Some (Name (site.Settings s))
    ∧ docker.Labels c
        !! ("traefik.http.routers.wordpress-" +:+ Name (site.Settings s) +:+ "-http.entrypoints")
      = Some "web"
    ∧ docker.Labels c
        !! ("traefik.http.routers.wordpress-" +:+ Name (site.Settings s) +:+ "-http.rule")
      = Some ("Host(`" +:+ SiteDomain (site.Settings s) +:+ "`)")
    ∧ docker.Labels c
        !! ("traefik.http.routers.wordpress-" +:+ Name (site.Settings s) +:+ ".entrypoints")
      = Some "websecure"
    ∧ docker.Labels c
        !! ("traefik.http.routers.wordpress-" +:+ Name (site.Settings s) +:+ ".rule")
      = Some ("Host(`" +:+ SiteDomain (site.Settings s) +:+ "`)")
    ∧ docker.Labels c
        !! ("traefik.http.routers.wordpress-" +:+ Name (site.Settings s) +:+ ".tls")
      = Some "true"
  end.
Proof.
  unfold site.getWordPressContainer.
  destruct (site.isUsingSQLite host s) as [b [e|]]; cbn [snd]; [reflexivity|].
  eexists. split; [reflexivity|].
  generalize (Name (site.Settings s)) (SiteDomain (site.Settings s)). intros name domain.
  assert (∀ c v, docker.Labels (docker.appendEnv c v) = docker.Labels c) as Hkeep by done.
  destruct (AutomaticLogin (site.Settings s)), (WPDebug (site.Settings s));
    rewrite !Hkeep; cbn [docker.Labels]; rewrite !list_to_map_cons, list_to_map_nil;
    cbn [fst snd];
    (split; [|repeat split;
               repeat first [ apply lookup_insert_eq
                            | rewrite lookup_insert_ne by keys_differ ]]);
    repeat (rewrite map_size_insert_None;
            [| repeat (rewrite lookup_insert_ne by keys_differ); apply lookup_empty]);
    by rewrite map_size_empty.
Qed.

End LabelFacts.

Lemma application_labels_witness :
  ∃ c, site.getWordPressContainer (samples.calmHost (true, None) (0, "", None))
         samples.debuggedSite [] [] = [c]
       ∧ size (docker.Labels c) = 8%nat
       ∧ docker.Labels c !! "traefik.http.routers.wordpress-acme.rule"
         = Some "Host(`acme.sites.kana.sh`)".
Proof.
  destruct (application_labels (samples.calmHost (true, None) (0, "", None))
              samples.debuggedSite [] [])
    as (c & Hc & Hsize & _ & _ & _ & _ & _ & _ & Hrule & _).
  exists c. split; [exact Hc|]. split; [exact Hsize | exact Hrule].
Defined.

(** ** The planner and the WordPress directory *)

Section PlannerFacts.
Import settings.
Variable host : site.Host.

(** X11. Whatever happens, the mount planner returns the two
    always-present binds first and at most one mount more, every mount a
    bind; when it reports an error, the two binds are all it returns; and
    all it does to the outside is create directories: the engine is left
    alone. *)
Theorem planner_invariants (s : site.Site) (appDir : string) (w : site.World) :
  let mounts := (site.getWordPressMounts host s appDir w).1.1 in
  let err := (site.getWordPressMounts host s appDir w).1.2 in
  alwaysMounted s appDir `prefix_of` mounts
  ∧ (length mounts ≤ 3)%nat
  ∧ Forall (λ m, mount.Type_ m = mount.TypeBind) mounts
  ∧ (err ≠ None → mounts = alwaysMounted s appDir)
  ∧ afterMkdirs w (site.getWordPressMounts host s appDir w).2.
Proof.
  cbv zeta. split; [|split; [|split; [|split]]].
  - destruct (getWordPressMounts_shape host s appDir w) as [-> | [[_ ->] | [_ ->]]];
      [done | by eexists | by eexists].
  - destruct (getWordPressMounts_shape host s appDir w) as [-> | [[_ ->] | [_ ->]]];
      cbn; lia.
  - destruct (getWordPressMounts_shape host s appDir w) as [-> | [[_ ->] | [_ ->]]];
      repeat constructor.
  - unfold site.getWordPressMounts, mbind, StateM_bind, site.os_MkdirAll, site.emit,
      mret, StateM_ret.
    destruct (String.eqb_spec (Type_ (site.Settings s)) "plugin") as [Hp|Hp].
    + rewrite Hp. cbn [String.eqb Ascii.eqb Bool.eqb]. cbv beta iota zeta.
      destruct (site.MkdirAll_outcome host _ _); cbn [fst snd]; done.
    + destruct (String.eqb _ "theme"); cbv beta iota zeta; [|done].
      destruct (site.MkdirAll_outcome host _ _); cbn [fst snd]; done.
  - apply getWordPressMounts_world.
Qed.

(** X12. [getWordPressDirectory] returns either an error with the empty
    directory, or no error with a directory it has just created with mode
    0750: the working directory of a site of the default type that is
    unnamed or linked, its [wordpress] subdirectory for the other types,
    and the [wordpress] subdirectory of the site directory for a named
    site without link. When the site link cannot be read nothing is
    created. *)
Theorem getWordPressDirectory_outcomes (s : site.Site) (w : site.World) :
  let r := site.getWordPressDirectory host s w in
  match r.1.2 with
  | Some _ =>
      r.1.1 = ""
      ∧ ((site.GetSiteLink host s).2 ≠ None → r.2 = w)
  | None =>
      (site.GetSiteLink host s).2 = None
      ∧ site.trace r.2 = site.trace w ++ [site.MkdirAll r.1.1 site.defaultDirPermissions]
      ∧ site.MkdirAll_outcome host r.1.1 site.defaultDirPermissions = None
      ∧ r.1.1
        = if negb (IsNamedSite (site.Settings s))
             || negb (String.eqb (site.GetSiteLink host s).1 "")
          then
            if String.eqb (Type_ (site.Settings s)) (site.DefaultType host)
            then WorkingDirectory (site.Settings s)
            else filepath.Join [WorkingDirectory (site.Settings s); "wordpress"]
          else filepath.Join [SiteDirectory (site.Settings s); "wordpress"]
  end.
Proof.
  cbv zeta. unfold site.getWordPressDirectory.
  destruct (site.GetSiteLink host s) as [siteLink [e|]]; cbn [fst snd].
  { cbn. done. }
  unfold mbind, StateM_bind, site.os_MkdirAll, site.emit, mret, StateM_ret.
  cbv beta iota zeta.
  destruct (site.MkdirAll_outcome host _ _) eqn:Hmk; cbn [fst snd site.trace].
  { split; [done|]. by intros []. }
  split; [done|]. split; [done|]. split; [exact Hmk|].
  destruct (negb (IsNamedSite _) || negb (String.eqb siteLink "")); [|done].
  by destruct (String.eqb (Type_ _) _).
Qed.

End PlannerFacts.

(** ** Every run of the command wrapper *)

Section CommandFacts.
Import settings.
Variable host : site.Host.

Lemma commandContainers_app (tr tr' : list site.Event) :
  commandContainers (tr ++ tr') = commandContainers tr ++ commandContainers tr'.
Proof. apply omap_app. Qed.

Lemma commandContainers_afterMkdirs (w w' : site.World) :
  afterMkdirs w w' →
  commandContainers (site.trace w') = commandContainers (site.trace w).
Proof.
  intros [_ (evs & -> & Hevs)]. rewrite commandContainers_app.
  assert (commandContainers evs = []) as ->; [|by rewrite app_nil_r].
  induction Hevs as [|ev evs (path & perm & ->) _ IH]; [done|]. exact IH.
Qed.

(** Every way [WPCli] can end. *)
Lemma WPCli_cases_full (s : site.Site) (command : list string) (interactive : bool)
    (w : site.World) :
  let r := site.WPCli host s command interactive w in
  (∃ e, r.1.2 = (1, "", Some e)
        ∧ commandContainers (site.trace r.2) = commandContainers (site.trace w))
  ∨ (∃ c before,
       site.trace r.2
       = before ++ [site.EnsureImage (docker.Image c) (UpdateInterval (site.Settings r.1.1));
                    site.ContainerRunAndClean c interactive]
       ∧ commandContainers before = commandContainers (site.trace w)
       ∧ docker.Name c = commandContainerName r.1.1
       ∧ docker.HostName c = docker.Name c
       ∧ docker.Image c = "wordpress:cli-php" +:+ PHP (site.Settings r.1.1)
       ∧ docker.NetworkName c = "kana"
       ∧ docker.Command c = ["wp"; "--path=/var/www/html"] ++ command
       ∧ r.1.2
         = (let '(code, output, err) := site.ContainerRunAndClean_outcome host c interactive in
            match err with Some _ => (code, "", err) | None => (code, output, None) end)).
Proof.
  cbv zeta.
  unfold site.WPCli, site.dockerClient_ContainerGetMounts, site.dockerClient_EnsureImage,
    site.dockerClient_ContainerRunAndClean, site.emit.
  unfold mbind, StateM_bind, mret, StateM_ret.
  cbv beta iota zeta.
  destruct (site.overrideTypes host _ (site.Settings s)) as [st [e|]] eqn:Hov.
  { left. exists e. cbn [fst snd site.trace]. split; [done|].
    rewrite commandContainers_app. cbn. by rewrite app_nil_r. }
  match goal with |- context [site.getWordPressDirectory host _ ?w1] => set (w1' := w1) end.
  assert (commandContainers (site.trace w1') = commandContainers (site.trace w)) as Hw1.
  { subst w1'. cbn [site.trace]. rewrite commandContainers_app. cbn. by rewrite app_nil_r. }
  clearbody w1'.
  pose proof (getWordPressDirectory_world host {| site.Settings := st |} w1') as Hdir.
  apply commandContainers_afterMkdirs in Hdir.
  destruct (site.getWordPressDirectory host {| site.Settings := st |} w1')
    as [[dir [e|]] w2]; cbn [snd] in Hdir.
  { left. exists e. cbn [fst snd]. split; [done | congruence]. }
  pose proof (getWordPressMounts_world host {| site.Settings := st |} dir w2) as Hmounts.
  apply commandContainers_afterMkdirs in Hmounts.
  destruct (site.getWordPressMounts host {| site.Settings := st |} dir w2)
    as [[vols [e|]] w3]; cbn [snd] in Hmounts.
  { left. exists e. cbn [fst snd]. split; [done | congruence]. }
  destruct (site.isUsingSQLite host {| site.Settings := st |}) as [b [e|]] eqn:Hsql.
  { left. exists e. cbn [fst snd]. split; [done | congruence]. }
  match goal with |- context [site.EnsureImage_outcome host ?im ?n] =>
    destruct (site.EnsureImage_outcome host im n) as [e|] end.
  { left. exists e. cbn [fst snd site.trace]. split; [done|].
    rewrite commandContainers_app. cbn. rewrite app_nil_r. congruence. }
  right.
  match goal with |- context [site.ContainerRunAndClean_outcome host ?ct ?it] =>
    exists ct, (site.trace w3);
    destruct (site.ContainerRunAndClean_outcome host ct it) as [[code output] [e|]]
  end;
    cbn [fst snd site.trace site.Settings]; rewrite <- app_assoc;
    (split; [by destruct (AutomaticLogin st)|]);
    (split; [congruence|]);
    destruct (AutomaticLogin st); done.
Qed.


(** A run of [WPCli] stops early, or runs the command container as its
    last step. *)
Lemma WPCli_cases_helper (s : site.Site) (command : list string) (interactive : bool)
    (w : site.World) :
  (∃ e, (site.WPCli host s command interactive w).1.2 = (1, "", Some e)
        ∧ commandContainers (site.trace (site.WPCli host s command interactive w).2)
          = commandContainers (site.trace w))
  ∨ (∃ c before,
       site.trace (site.WPCli host s command interactive w).2
       = before ++ [site.EnsureImage (docker.Image c)
                      (UpdateInterval (site.Settings (site.WPCli host s command interactive w).1.1));
                    site.ContainerRunAndClean c interactive]
       ∧ commandContainers before = commandContainers (site.trace w)
       ∧ (site.WPCli host s command interactive w).1.2
         = (let '(code, output, err) := site.ContainerRunAndClean_outcome host c interactive in
            match err with Some _ => (code, "", err) | None => (code, output, None) end)).
Proof.
  destruct (WPCli_cases_full s command interactive w) as [Hearly | Hrun]; [by left|].
  right. destruct Hrun as (c & before & Htr & Hbefore & _ & _ & _ & _ & _ & Hr).
  by exists c, before.
Qed.

(** X13. Every run of [WPCli] ends in one of two ways. Either it fails
    before the command container is run and returns status 1, no output
    and the error, having run no container; or it ensures the image
    [wordpress:cli-php<version>] and right after that runs, once, the
    container [kana-<name>-wordpress_cli] with the command
    [wp --path=/var/www/html] followed by the arguments as given, and
    returns what the run returned, with the output emptied on error. *)
Theorem WPCli_outcomes (s : site.Site) (command : list string) (interactive : bool)
    (w : site.World) :
  let r := site.WPCli host s command interactive w in
  (∃ e, r.1.2 = (1, "", Some e)
        ∧ commandContainers (site.trace r.2) = commandContainers (site.trace w))
  ∨ (∃ c before,
       site.trace r.2
       = before ++ [site.EnsureImage (docker.Image c) (UpdateInterval (site.Settings r.1.1));
                    site.ContainerRunAndClean c interactive]
       ∧ commandContainers before = commandContainers (site.trace w)
       ∧ docker.Name c = commandContainerName r.1.1
       ∧ docker.HostName c = docker.Name c
       ∧ docker.Image c = "wordpress:cli-php" +:+ PHP (site.Settings r.1.1)
       ∧ docker.NetworkName c = "kana"
       ∧ docker.Command c = ["wp"; "--path=/var/www/html"] ++ command
       ∧ r.1.2
         = (let '(code, output, err) := site.ContainerRunAndClean_outcome host c interactive in
            match err with Some _ => (code, "", err) | None => (code, output, None) end)).
Proof. apply WPCli_cases_full. Qed.

(** X14. [WPCli] returns output only together with a [nil] error: an error
    always comes with the empty output, and with status 1 unless the
    command container was run. *)
Theorem WPCli_error_has_no_output (s : site.Site) (command : list string)
    (interactive : bool) (w : site.World) (code : Z) (output : string) (e : error) :
  (site.WPCli host s command interactive w).1.2 = (code, output, Some e) →
  output = ""
  ∧ (commandContainers (site.trace (site.WPCli host s command interactive w).2)
     = commandContainers (site.trace w) → code = 1).
Proof.
  intros Hres.
  destruct (WPCli_cases_helper s command interactive w) as [Hearly | Hrun].
  - destruct Hearly as (e' & Hr & _). rewrite Hr in Hres. injection Hres as <- <- _. done.
  - destruct Hrun as (c & before & Htr & Hbefore & Hr).
    rewrite Hr in Hres.
    destruct (site.ContainerRunAndClean_outcome host c interactive) as [[code' out'] [e'|]];
      [|done].
    injection Hres as <- <- _. split; [done|].
    rewrite Htr, commandContainers_app, Hbefore. cbn.
    intros Hsame. apply (f_equal length) in Hsame. rewrite length_app in Hsame.
    cbn in Hsame. lia.
Qed.

End CommandFacts.

(** ** The artifact type read back from the mounts *)

Section ContainsFacts.

Lemma append_cons (c : ascii) (p s : string) : String c p +:+ s = String c (p +:+ s).
Proof. reflexivity. Qed.

Lemma append_nil_l (s : string) : "" +:+ s = s.
Proof. reflexivity. Qed.

Lemma prefix_append (p s : string) : String.prefix p (p +:+ s) = true.
Proof.
  induction p as [|c p IH]; simpl; [by destruct s|].
  destruct (ascii_dec c c); [exact IH | done].
Qed.

Lemma Contains_prefix (p s : string) : strings.Contains (p +:+ s) p = true.
Proof.
  destruct p as [|c p]; [by destruct s|].
  rewrite append_cons. cbn [strings.Contains].
  rewrite <- append_cons, prefix_append. reflexivity.
Qed.

Lemma Contains_skip (c : ascii) (rest needle : string) :
  String.prefix needle (String c rest) = false →
  strings.Contains (String c rest) needle = strings.Contains rest needle.
Proof. intros Hp. cbn [strings.Contains]. by rewrite Hp. Qed.

Lemma prefix_noSlash (p : string) :
  ∀ name, String.prefix p name = true → noSlash name = true → noSlash p = true.
Proof.
  induction p as [|a p IH]; intros name Hp Hname; [done|].
  destruct name as [|b name]; [done|]. simpl in Hp, Hname |- *.
  destruct (ascii_dec a b) as [->|]; [|done].
  apply andb_true_iff in Hname as [Hb Hname]. rewrite Hb. by eapply IH.
Qed.

Lemma Contains_noSlash (name needle : string) :
  noSlash name = true → strings.Contains name (String "/" needle) = false.
Proof.
  induction name as [|b name IH]; intros Hname; [done|].
  simpl in Hname. apply andb_true_iff in Hname as [Hb Hname].
  cbn [strings.Contains]. rewrite (IH Hname), orb_false_r.
  cbn [String.prefix]. destruct (ascii_dec "/" b) as [<-|]; [by vm_compute in Hb | done].
Qed.

(** The plugin directory does not look like the theme directory, nor the
    other way round, when the name is a single path element. *)
Lemma Contains_themes_in_plugins (name : string) :
  noSlash name = true →
  strings.Contains ("/var/www/html/wp-content/plugins/" +:+ name)
    "/var/www/html/wp-content/themes/" = false.
Proof.
  intros Hname. rewrite !append_cons, append_nil_l.
  do 32 (rewrite Contains_skip by reflexivity).
  cbn [strings.Contains]. rewrite Contains_noSlash, orb_false_r by done.
  destruct (String.prefix _ (String "/" name)) eqn:Hp; [|done].
  simpl in Hp. apply prefix_noSlash in Hp; done.
Qed.

Lemma Contains_plugins_in_themes (name : string) :
  noSlash name = true →
  strings.Contains ("/var/www/html/wp-content/themes/" +:+ name)
    "/var/www/html/wp-content/plugins/" = false.
Proof.
  intros Hname. rewrite !append_cons, append_nil_l.
  do 31 (rewrite Contains_skip by reflexivity).
  cbn [strings.Contains]. rewrite Contains_noSlash, orb_false_r by done.
  destruct (String.prefix _ (String "/" name)) eqn:Hp; [|done].
  simpl in Hp. apply prefix_noSlash in Hp; done.
Qed.

Lemma SplitSlash_noSlash (name : string) :
  noSlash name = true → strings.SplitSlash name = [name].
Proof.
  induction name as [|c name IH]; [done|]. simpl. intros Hname.
  apply andb_true_iff in Hname as [Hc Hname]. apply negb_true_iff in Hc.
  by rewrite Hc, (IH Hname).
Qed.

End ContainsFacts.

Section TypeRecovered.
Import settings.
Variable host : site.Host.

(** X15. Planning and inspection agree. When the settings store takes an
    overridden type as given, the name is a single plain path element and
    planning succeeds, the loop of [WPCli] over the planned mounts, as the
    engine reports them, overrides the type to [plugin] for a plugin, to
    [theme] for a theme, and overrides nothing for any other type. *)
Theorem artifact_type_recovered_from_mounts (s : site.Site) (appDir : string)
    (w : site.World) (st0 : settings.Settings) :
  (∀ st type, site.OverrideType host st type = (withType st type, None)) →
  noSlash (Name (site.Settings s)) = true →
  plainElement (Name (site.Settings s)) = true →
  (site.getWordPressMounts host s appDir w).1.2 = None →
  site.overrideTypes host (reported (site.getWordPressMounts host s appDir w).1.1) st0
  = (if String.eqb (Type_ (site.Settings s)) "plugin" then withType st0 "plugin"
     else if String.eqb (Type_ (site.Settings s)) "theme" then withType st0 "theme"
     else st0, None).
Proof.
  intros Hstore Hslash Hplain.
  assert (plainName (Name (site.Settings s)) = true) as Hname.
  { unfold plainName. rewrite SplitSlash_noSlash by done. cbn. by rewrite Hplain. }
  unfold site.getWordPressMounts, site.os_MkdirAll, site.emit.
  unfold mbind, StateM_bind, mret, StateM_ret.
  destruct (String.eqb_spec (Type_ (site.Settings s)) "plugin") as [Hp|Hp].
  - rewrite Hp. cbn [String.eqb Ascii.eqb Bool.eqb]. cbv beta iota zeta.
    destruct (site.MkdirAll_outcome host _ _); cbn [fst snd]; [done|]. intros _.
    rewrite Join_wpContent_plain by done.
    change ("/var/www/html/wp-content/" +:+ "plugins" +:+ "/" +:+ Name (site.Settings s))
      with ("/var/www/html/wp-content/plugins/" +:+ Name (site.Settings s)).
    cbn [reported map app mount.Target mount.Source site.overrideTypes docker.Destination].
    change (strings.Contains "/var/www/html" _) with false.
    change (strings.Contains "/Site" _) with false. cbv beta iota zeta.
    rewrite (Contains_prefix "/var/www/html/wp-content/plugins/").
    rewrite Contains_themes_in_plugins by done.
    by rewrite Hstore.
  - destruct (String.eqb_spec (Type_ (site.Settings s)) "theme") as [Ht|Ht];
      cbv beta iota zeta; [|done].
    destruct (site.MkdirAll_outcome host _ _); cbn [fst snd]; [done|]. intros _.
    rewrite Join_wpContent_plain by done.
    change ("/var/www/html/wp-content/" +:+ "themes" +:+ "/" +:+ Name (site.Settings s))
      with ("/var/www/html/wp-content/themes/" +:+ Name (site.Settings s)).
    cbn [reported map app mount.Target mount.Source site.overrideTypes docker.Destination].
    change (strings.Contains "/var/www/html" _) with false.
    change (strings.Contains "/Site" _) with false. cbv beta iota zeta.
    rewrite (Contains_prefix "/var/www/html/wp-content/themes/").
    rewrite Contains_plugins_in_themes by done.
    by rewrite Hstore.
Qed.

End TypeRecovered.

Lemma artifact_type_recovered_from_mounts_witness :
  site.overrideTypes moreSamples.settingHost
    (reported (site.getWordPressMounts moreSamples.settingHost
                 (samples.descriptor "acme" "theme") "/sites/acme/wordpress"
                 samples.freshWorld).1.1)
    (site.Settings (samples.descriptor "acme" "site"))
  = (site.Settings (samples.descriptor "acme" "theme"), None).
Proof.
  apply (artifact_type_recovered_from_mounts moreSamples.settingHost
           (samples.descriptor "acme" "theme") "/sites/acme/wordpress" samples.freshWorld
           (site.Settings (samples.descriptor "acme" "site")));
    reflexivity.
Defined.

(** ** Every run of starting and stopping *)

Section StartStopFacts.
Variable host : site.Host.

(** Starting a list of containers starts some first ones, all of them if
    no error is returned. *)
Lemma startEach_shape (s : site.Site) (cs : list docker.ContainerConfig) :
  ∀ w : site.World,
    ∃ k, (site.startEach host s cs w).2
         = {| site.trace :=
                site.trace w ++ map (λ c, site.StartContainer c true true) (take k cs);
              site.containers := site.containers w |}
         ∧ ((site.startEach host s cs w).1 = None →
            take k cs = cs
            ∧ ∀ c, c ∈ cs → site.startContainer_outcome host s c true true = None).
Proof.
  induction cs as [|c cs IH]; intros w.
  - exists 0%nat. destruct w. cbn. rewrite app_nil_r. split; [done|]. intros _.
    split; [done|]. intros c Hc. by apply elem_of_nil in Hc.
  - cbn [site.startEach]. unfold site.startContainer, site.emit.
    unfold mbind, StateM_bind, mret, StateM_ret. cbv beta iota zeta.
    destruct (site.startContainer_outcome host s c true true) as [e|] eqn:Hc.
    + exists 1%nat. cbn. split; [done|]. done.
    + match goal with |- context [site.startEach host s cs ?w1] =>
        destruct (IH w1) as (k & Hw & Hok) end.
      exists (S k). rewrite Hw. cbn [site.trace site.containers take map].
      split; [by rewrite <- app_assoc|].
      intros Hnone. destruct (Hok Hnone) as [Htake Hall].
      split; [by rewrite Htake|].
      intros c' Hc'. apply elem_of_cons in Hc' as [->|Hc']; [done | by apply Hall].
Qed.

(** X16. In every run of [startWordPress] the containers started are the
    first ones of the plan, the containers of [getDatabaseContainer]
    followed by the application container: no container is started out of
    order or skipped. If it returns no error, the network was ensured, the
    whole plan was started, every start succeeded, and the last thing it
    did was to verify the database, successfully. *)
Theorem startWordPress_follows_the_plan (s : site.Site) (w : site.World) :
  let r := site.startWordPress host s w in
  let plan :=
    site.getWordPressContainer host s
      (site.getWordPressMounts host s (site.getDirectories_outcome host s).1.1 w).1.1
      (site.getDatabaseContainer host s (site.getDirectories_outcome host s).1.2 []) in
  ∃ started,
    startedContainers (site.trace r.2) = startedContainers (site.trace w) ++ started
    ∧ started `prefix_of` plan
    ∧ (r.1 = None →
       started = plan
       ∧ site.EnsureNetwork_outcome host "kana" = None
       ∧ (∀ c, c ∈ plan → site.startContainer_outcome host s c true true = None)
       ∧ last (site.trace r.2) = Some site.VerifyDatabase
       ∧ site.verifyDatabase_outcome host s = None).
Proof.
  cbv zeta.
  unfold site.startWordPress, site.dockerClient_EnsureNetwork, site.getDirectories,
    site.os_Stat, site.os_Remove, site.verifyDatabase, site.emit.
  unfold mbind, StateM_bind, mret, StateM_ret. cbv beta iota zeta.
  destruct (site.EnsureNetwork_outcome host "kana") as [e|].
  { exists []. cbn [fst snd site.trace]. rewrite startedContainers_app. cbn.
    split; [done|]. split; [apply prefix_nil | done]. }
  destruct (site.getDirectories_outcome host s) as [[appDir databaseDir] [e|]];
    cbn [fst snd]; cbv beta iota zeta.
  { exists []. cbn [fst snd site.trace]. rewrite !startedContainers_app. cbn.
    split; [by rewrite !app_nil_r|]. split; [apply prefix_nil | done]. }
  destruct (site.Stat_outcome host _) as [statErr|]; cbv beta iota zeta;
    match goal with |- context [site.getWordPressMounts host s appDir ?w2] =>
      assert (startedContainers (site.trace w2) = startedContainers (site.trace w)) as Htr
        by (cbn [site.trace]; rewrite !startedContainers_app; cbn; by rewrite ?app_nil_r);
      set (w2' := w2) in *; clearbody w2'
    end;
    pose proof (getWordPressMounts_world host s appDir w2') as Hworld;
    pose proof (getWordPressMounts_result host s appDir w2' w) as Hres;
    destruct (site.getWordPressMounts host s appDir w2') as [[vols err] w3];
    cbn [fst snd] in Hres; rewrite <- Hres; cbn [fst snd];
    apply startedContainers_afterMkdirs in Hworld; cbn [snd] in Hworld;
    (destruct err as [mountErr|];
     [ exists []; cbn [fst snd]; rewrite app_nil_r;
       split; [congruence|]; split; [apply prefix_nil | done] |]);
    match goal with |- context [site.startEach host s ?plan w3] =>
      destruct (startEach_shape s plan w3) as (k & Hw & Hok);
      destruct (site.startEach host s plan w3) as [startErr w4];
      cbn [fst snd] in Hw, Hok; subst w4;
      exists (take k plan);
      destruct startErr as [startError|]; cbn [fst snd site.trace];
      rewrite ?startedContainers_app, startedContainers_started, Hworld, Htr;
      [ split; [done|]; split; [apply prefix_take | done]
      | cbn; rewrite app_nil_r; split; [done|]; split; [apply prefix_take|];
        intros Hverify; destruct (Hok eq_refl) as [Htake Hall];
        split; [done|]; split; [done|]; split; [done|];
        split; [by rewrite last_snoc | done] ]
    end.
Qed.

Lemma stopEach_app (before after : list string) (w : site.World) :
  site.stopEach host (before ++ after) w
  = match (site.stopEach host before w).1 with
    | Some _ => site.stopEach host before w
    | None => site.stopEach host after (site.stopEach host before w).2
    end.
Proof.
  revert w. induction before as [|name before IH]; intros w; [done|].
  cbn [app site.stopEach]. unfold mbind, StateM_bind.
  destruct (site.dockerClient_ContainerStop host name w) as [[stopped [e|]] w1]; [done|].
  apply IH.
Qed.

(** X17. [stopWordPress] gives up at the first container the engine
    fails to stop: it returns that error, the containers named before it
    are stopped, and those named after it are neither asked to stop nor
    removed. (The stop call is the one modelled for the engine.) *)
Theorem stopWordPress_gives_up_at_first_error (s : site.Site) (w : site.World)
    (before after : list string) (name : string) (e : error) :
  site.getWordPressContainers s = before ++ name :: after →
  (∀ other, other ∈ before → other ∈ site.containers w →
            site.engineStop_outcome host other = None) →
  name ∈ site.containers w →
  name ∉ before →
  site.engineStop_outcome host name = Some e →
  site.stopWordPress host s w
  = (Some e,
     {| site.trace := site.trace w ++ map site.ContainerStop (before ++ [name]);
        site.containers := site.containers w ∖ list_to_set before |}).
Proof.
  intros Hnames Hbefore Hin Hnot Hfail.
  unfold site.stopWordPress. rewrite Hnames, stopEach_app.
  rewrite stopEach_absent_ok by done. cbn [fst snd site.stopEach].
  unfold mbind, StateM_bind, site.dockerClient_ContainerStop.
  cbn [site.containers site.trace].
  rewrite decide_True by set_solver. rewrite Hfail.
  by rewrite map_app, app_assoc.
Qed.

End StartStopFacts.

Lemma stopWordPress_gives_up_at_first_error_witness :
  (site.stopWordPress moreSamples.settingHost (samples.descriptor "acme" "site")
     {| site.trace := [];
        site.containers := {["kana-acme-wordpress"]} ∪ {["kana-acme-mailpit"]} |}).1
  = Some "cannot stop container".
Proof.
  rewrite (stopWordPress_gives_up_at_first_error moreSamples.settingHost
             (samples.descriptor "acme" "site")
             {| site.trace := [];
                site.containers := {["kana-acme-wordpress"]} ∪ {["kana-acme-mailpit"]} |}
             ["kana-acme-database"] ["kana-acme-phpmyadmin"; "kana-acme-mailpit"]
             "kana-acme-wordpress" "cannot stop container").
  - reflexivity.
  - reflexivity.
  - intros other Hother _. apply list_elem_of_singleton in Hother as ->. reflexivity.
  - apply elem_of_union_l, elem_of_singleton. reflexivity.
  - intros Hin. apply list_elem_of_singleton in Hin. discriminate Hin.
  - reflexivity.
Defined.

Lemma WPCli_error_has_no_output_witness :
  (site.WPCli
     (samples.calmHost (true, None) (1, "Error: plugin not found.", Some "exit status 1"))
     (samples.descriptor "acme" "plugin") ["plugin"; "list"] false samples.freshWorld).1.2.1.2
  = "".
Proof.
  apply (WPCli_error_has_no_output
           (samples.calmHost (true, None) (1, "Error: plugin not found.", Some "exit status 1"))
           (samples.descriptor "acme" "plugin") ["plugin"; "list"] false samples.freshWorld
           1 _ "exit status 1").
  reflexivity.
Defined.


(** ** Setting WordPress up *)

Section ProvisionFacts.
Variable ExecResult : Type.
Variable host : provision.Host ExecResult.
Variable cli : provision.Cli ExecResult.

(** A call of the wp-cli: one entry in the log, and what the
    implementation does to the engine. *)
Lemma Cli_WPCli_run (command : list string) (interactive : bool) (w : provision.World) :
  provision.Cli_WPCli ExecResult cli command interactive w
  = ((provision.WPCli ExecResult cli command interactive (provision.engine w)).1,
     {| provision.log := provision.log w ++ [provision.WPCliCall command interactive];
        provision.engine :=
          (provision.WPCli ExecResult cli command interactive (provision.engine w)).2 |}).
Proof.
  unfold provision.Cli_WPCli, provision.liftSite, provision.emit, mbind, StateM_bind.
  cbn [provision.engine provision.log].
  by destruct (provision.WPCli ExecResult cli command interactive (provision.engine w)).
Qed.

Lemma cliCalls_app (tr tr' : list provision.Event) :
  cliCalls (tr ++ tr') = cliCalls tr ++ cliCalls tr'.
Proof. apply omap_app. Qed.

Lemma warnings_app (tr tr' : list provision.Event) :
  warnings (tr ++ tr') = warnings tr ++ warnings tr'.
Proof. apply omap_app. Qed.

(** The scan keeps the listed plugins in order and notes the default
    ones. *)
Lemma scanPlugins_spec (s : provision.Site) (rawPlugins : list provision.PluginInfo) :
  ∀ (plugins : list string) (hasDefaultPlugins : bool),
    provision.scanPlugins s rawPlugins plugins hasDefaultPlugins
    = (plugins ++ map provision.Name (List.filter (keepListed s) rawPlugins),
       hasDefaultPlugins || existsb isDefaultPlugin rawPlugins).
Proof.
  induction rawPlugins as [|plugin rest IH]; intros plugins hasDefault.
  - cbn. by rewrite app_nil_r, orb_false_r.
  - cbn [provision.scanPlugins List.filter existsb]. rewrite IH.
    fold (keepListed s plugin). fold (isDefaultPlugin plugin).
    destruct (keepListed s plugin), (isDefaultPlugin plugin), hasDefault;
      cbn [map]; rewrite <- ?app_assoc; reflexivity.
Qed.

(** X18. When [getInstalledWordPressPlugins] returns no error, its list
    holds, in the order wp-cli reported them, the names of the reported
    plugins that are neither drop-ins nor must-use plugins nor the site's
    own plugin nor [hello] nor [akismet]: none of these three names is
    ever in the list. The flag tells whether [hello] or [akismet] was
    reported. *)
Theorem installed_plugins_are_filtered (s : provision.Site) (w : provision.World)
    (plugins : list string) (hasDefaultPlugins : bool) :
  (provision.getInstalledWordPressPlugins ExecResult host cli s w).1
    = (plugins, hasDefaultPlugins, None) →
  ∃ code commandOutput rawPlugins,
    (provision.WPCli ExecResult cli ["plugin"; "list"; "--format=json"] false
       (provision.engine w)).1 = (code, commandOutput, None)
    ∧ provision.Unmarshal ExecResult host commandOutput = (rawPlugins, None)
    ∧ plugins = map provision.Name (List.filter (keepListed s) rawPlugins)
    ∧ hasDefaultPlugins = existsb isDefaultPlugin rawPlugins
    ∧ ("hello" ∉ plugins)
    ∧ ("akismet" ∉ plugins)
    ∧ (settings.Name (provision.Core (provision.Settings s)) ∉ plugins).
Proof.
  unfold provision.getInstalledWordPressPlugins.
  unfold mbind at 1, StateM_bind at 1. rewrite Cli_WPCli_run.
  destruct (provision.WPCli ExecResult cli _ false (provision.engine w)).1
    as [[code commandOutput] [e|]] eqn:Hcli; [done|].
  destruct (provision.Unmarshal ExecResult host commandOutput) as [rawPlugins [e|]] eqn:Hjson;
    [done|].
  rewrite scanPlugins_spec. cbn. intros [= <- <-].
  exists code, commandOutput, rawPlugins.
  split; [done|]. split; [done|]. split; [done|]. split; [done|].
  assert (∀ name, name ∈ map provision.Name (List.filter (keepListed s) rawPlugins) →
            name ≠ "hello" ∧ name ≠ "akismet"
            ∧ name ≠ settings.Name (provision.Core (provision.Settings s))) as Hkept.
  { intros name Hin. apply list_elem_of_fmap in Hin as (plugin & -> & Hin).
    apply list_elem_of_In, filter_In in Hin as [_ Hkeep].
    unfold keepListed in Hkeep.
    repeat (apply andb_true_iff in Hkeep as [Hkeep ?]).
    repeat match goal with H : negb _ = true |- _ =>
             apply negb_true_iff, String.eqb_neq in H end.
    done. }
  repeat split; intros Hin; apply Hkept in Hin; tauto.
Qed.

(** X19. When [getInstalledWordPressPlugins] returns an error, because
    wp-cli failed or because its output could not be decoded, the list is
    empty and the flag says that default plugins are present. *)
Theorem installed_plugins_on_error (s : provision.Site) (w : provision.World)
    (plugins : list string) (hasDefaultPlugins : bool) (e : error) :
  (provision.getInstalledWordPressPlugins ExecResult host cli s w).1
    = (plugins, hasDefaultPlugins, Some e) →
  plugins = [] ∧ hasDefaultPlugins = true
  ∧ ((provision.WPCli ExecResult cli ["plugin"; "list"; "--format=json"] false
        (provision.engine w)).1.2 = Some e
     ∨ ∃ code commandOutput,
         (provision.WPCli ExecResult cli ["plugin"; "list"; "--format=json"] false
            (provision.engine w)).1 = (code, commandOutput, None)
         ∧ (provision.Unmarshal ExecResult host commandOutput).2 = Some e).
Proof.
  unfold provision.getInstalledWordPressPlugins.
  unfold mbind at 1, StateM_bind at 1. rewrite Cli_WPCli_run.
  destruct (provision.WPCli ExecResult cli _ false (provision.engine w)).1
    as [[code commandOutput] [e'|]] eqn:Hcli.
  { cbn. intros [= <- <- <-]. split; [done|]. split; [done|]. by left. }
  destruct (provision.Unmarshal ExecResult host commandOutput) as [rawPlugins [e'|]] eqn:Hjson.
  { cbn. intros [= <- <- <-]. split; [done|]. split; [done|]. right.
    exists code, commandOutput. by rewrite Hjson. }
  rewrite scanPlugins_spec. cbn. done.
Qed.

(** The look through the installed plugins leaves the command as it
    was. *)
Lemma matchInstalled_same (installedPlugins : list string) (plugin : string) :
  provision.matchInstalled installedPlugins plugin ["plugin"; "install"; "--activate"; plugin]
  = ["plugin"; "install"; "--activate"; plugin].
Proof.
  induction installedPlugins as [|installed rest IH]; [done|].
  cbn [provision.matchInstalled]. by destruct (String.eqb installed plugin).
Qed.

(** The list of installed plugins has no effect on the loop over the
    configured plugins. *)
Lemma installEach_ignores_installed (installedPlugins plugins : list string) :
  ∀ w : provision.World,
    provision.installEach ExecResult host cli installedPlugins plugins w
    = provision.installEach ExecResult host cli [] plugins w.
Proof.
  induction plugins as [|plugin rest IH]; intros w; [done|].
  cbn [provision.installEach]. rewrite matchInstalled_same.
  cbn [provision.matchInstalled].
  unfold mbind, StateM_bind.
  destruct (provision.consoleOutput_Println _ w) as [u w1].
  destruct (provision.Cli_WPCli ExecResult cli _ false w1) as [[[code output] [e|]] w2];
    [done|].
  match goal with |- context [(if ?b then ?m else ?m') w2] =>
    destruct ((if b then m else m') w2) as [u' w3] end.
  apply IH.
Qed.

Lemma cliResults_installCommand (plugin : string) (commands : list (list string * bool))
    (engine : site.World) :
  cliResults cli (installCommand plugin :: commands) engine
  = (provision.WPCli ExecResult cli ["plugin"; "install"; "--activate"; plugin] false
       engine).1
    :: cliResults cli commands
         (provision.WPCli ExecResult cli ["plugin"; "install"; "--activate"; plugin] false
            engine).2.
Proof. reflexivity. Qed.

Lemma installWarnings_cons (plugin : string) (plugins : list string) (code : Z)
    (output : string) (err : option error) (results : list (Z * string * option error)) :
  installWarnings host (plugin :: plugins) ((code, output, err) :: results)
  = (if bool_decide (err = None) && negb (code =? 0)
     then ["Unable to install plugin: "
             +:+ provision.Bold ExecResult host (provision.Blue ExecResult host plugin)
             +:+ "."]
     else [])
    ++ installWarnings host plugins results.
Proof.
  unfold installWarnings. cbn [zip zip_with omap list_omap fst snd].
  by destruct (bool_decide (err = None) && negb (code =? 0)).
Qed.

(** The loop over the configured plugins issues
    [plugin install --activate <plugin>] for the plugins in order, up to
    and including the first one for which wp-cli returns an error, and
    returns that error; a non-zero status without error only prints a
    warning. *)
Lemma installEach_until_first_error (installedPlugins plugins : list string) :
  ∀ w : provision.World,
    let r := provision.installEach ExecResult host cli installedPlugins plugins w in
    ∃ k,
      let issued := map installCommand (take k plugins) in
      let results := cliResults cli issued (provision.engine w) in
      cliCalls (provision.log r.2) = cliCalls (provision.log w) ++ issued
      ∧ warnings (provision.log r.2)
        = warnings (provision.log w) ++ installWarnings host (take k plugins) results
      ∧ match r.1 with
        | None => take k plugins = plugins ∧ Forall (λ res, res.2 = None) results
        | Some e =>
            ∃ earlier res,
              results = earlier ++ [res]
              ∧ Forall (λ res, res.2 = None) earlier
              ∧ res.2 = Some e
        end.
Proof.
  induction plugins as [|plugin rest IH]; intros w; cbv zeta.
  - exists 0%nat. cbn. rewrite !app_nil_r. done.
  - remember (provision.installEach ExecResult host cli installedPlugins (plugin :: rest) w)
      as r eqn:Hr.
    revert Hr. cbn [provision.installEach]. rewrite matchInstalled_same.
    unfold provision.consoleOutput_Println, provision.consoleOutput_Warn, provision.emit.
    unfold mbind, StateM_bind, mret, StateM_ret. cbv beta iota zeta.
    rewrite Cli_WPCli_run. cbn [provision.log provision.engine fst snd].
    destruct (provision.WPCli ExecResult cli ["plugin"; "install"; "--activate"; plugin]
                false (provision.engine w))
      as [[[code output] err] engine'] eqn:Hcall.
    cbn [fst snd]. destruct err as [e|].
    + intros ->. exists 1%nat.
      cbn [take map]. rewrite cliResults_installCommand, Hcall. cbn [fst snd cliResults].
      rewrite installWarnings_cons. cbn [fst snd provision.log].
      rewrite !cliCalls_app, !warnings_app. cbn. rewrite !app_nil_r.
      split; [done|]. split; [done|].
      exists [], (code, output, Some e). done.
    + destruct (Z.eqb_spec code 0) as [Hcode|Hcode]; cbn [negb]; cbv beta iota zeta;
        cbn [provision.log provision.engine fst snd];
        match goal with
        | |- context [provision.installEach ExecResult host cli installedPlugins rest ?w1] =>
            destruct (IH w1) as (k & Hcalls & Hwarn & Hend)
        end;
        cbn [provision.log provision.engine] in Hcalls, Hwarn, Hend;
        intros ->; exists (S k);
        cbn [take map]; rewrite cliResults_installCommand, Hcall; cbn [fst snd];
        rewrite installWarnings_cons, bool_decide_eq_true_2 by done;
        (split; [rewrite Hcalls, !cliCalls_app; cbn; by rewrite ?app_nil_r, <- ?app_assoc|]);
        (split; [rewrite Hwarn, !warnings_app;
                 destruct (Z.eqb_spec code 0); [|]; try done;
                 cbn; by rewrite ?app_nil_r, <- ?app_assoc|]);
        (destruct (provision.installEach _ _ _ _ _ _).1 as [e|];
         [ destruct Hend as (earlier & res & Hres & Hall & Hfail);
           exists ((code, output, None) :: earlier), res;
           split; [by rewrite Hres|]; split; [by apply Forall_cons_2 | exact Hfail]
         | destruct Hend as [Htake Hall]; split; [by rewrite Htake | by apply Forall_cons_2] ]).
Qed.

(** The listing of the installed plugins adds one wp-cli command to the
    log and nothing else. *)
Lemma getInstalledWordPressPlugins_log (s : provision.Site) (w : provision.World) :
  provision.log (provision.getInstalledWordPressPlugins ExecResult host cli s w).2
  = provision.log w ++ [provision.WPCliCall ["plugin"; "list"; "--format=json"] false].
Proof.
  unfold provision.getInstalledWordPressPlugins.
  unfold mbind, StateM_bind, mret, StateM_ret. cbv beta iota zeta.
  rewrite Cli_WPCli_run.
  destruct (provision.WPCli ExecResult cli _ false (provision.engine w))
    as [[[code commandOutput] [e|]] engine']; cbn [fst snd provision.log]; [done|].
  destruct (provision.Unmarshal ExecResult host commandOutput) as [rawPlugins [e|]]; [done|].
  by destruct (provision.scanPlugins s rawPlugins [] false).
Qed.

(** X20. [installDefaultPlugins] lists the installed plugins and then
    installs the configured ones again, whether the listing reported them
    or not. If the listing fails it returns that error and installs
    nothing. Otherwise it issues [plugin install --activate <plugin>] for
    the configured plugins in order, up to and including the first one
    for which wp-cli returns an error, and returns that error. A non-zero
    exit status is not an error: it only prints a warning, and the next
    plugin is installed. If nil is returned, every configured plugin was
    asked for and no command returned an error. *)
Theorem installed_plugins_are_installed_again (s : provision.Site) (w : provision.World) :
  let plugins := provision.Plugins (provision.Settings s) in
  let listing := provision.getInstalledWordPressPlugins ExecResult host cli s w in
  let r := provision.installDefaultPlugins ExecResult host cli s w in
  (listing.1.2 ≠ None → r = (listing.1.2, listing.2))
  ∧ (listing.1.2 = None →
     r = provision.installEach ExecResult host cli [] plugins listing.2
     ∧ ∃ k,
         let issued := map installCommand (take k plugins) in
         let results := cliResults cli issued (provision.engine listing.2) in
         cliCalls (provision.log r.2)
         = cliCalls (provision.log w)
             ++ (["plugin"; "list"; "--format=json"], false) :: issued
         ∧ warnings (provision.log r.2)
           = warnings (provision.log w) ++ installWarnings host (take k plugins) results
         ∧ match r.1 with
           | None => take k plugins = plugins ∧ Forall (λ res, res.2 = None) results
           | Some e =>
               ∃ earlier res,
                 results = earlier ++ [res]
                 ∧ Forall (λ res, res.2 = None) earlier
                 ∧ res.2 = Some e
           end).
Proof.
  cbv zeta.
  remember (provision.installDefaultPlugins ExecResult host cli s w) as r eqn:Hr.
  revert Hr. unfold provision.installDefaultPlugins.
  unfold mbind, StateM_bind, mret, StateM_ret.
  pose proof (getInstalledWordPressPlugins_log s w) as Hlist.
  destruct (provision.getInstalledWordPressPlugins ExecResult host cli s w)
    as [[[installedPlugins hasDefaultPlugins] [e|]] w1]; cbn [fst snd] in Hlist |- *.
  - intros ->. split; [done|]. done.
  - intros ->. split; [done|]. intros _.
    split; [apply installEach_ignores_installed|].
    destruct (installEach_until_first_error installedPlugins
                (provision.Plugins (provision.Settings s)) w1)
      as (k & Hcalls & Hwarn & Hend).
    exists k. rewrite Hcalls, Hwarn, Hlist, cliCalls_app, warnings_app. cbn.
    rewrite app_nil_r, <- app_assoc. done.
Qed.

(** X21. [installWordPress] panics exactly when the site answers under
    another URL than the configured one and one of the two updates of the
    URL, [siteurl] first and then [home], exits with a non-zero status
    without an error: the code then formats the message of a nil
    error. *)
Theorem installWordPress_panics_iff (s : provision.Site) (w : provision.World) :
  let check :=
    provision.WPCli ExecResult cli ["option"; "get"; "siteurl"] false (provision.engine w) in
  let siteurl :=
    provision.WPCli ExecResult cli
      ["option"; "update"; "siteurl"; provision.URL (provision.Settings s)] false check.2 in
  let home :=
    provision.WPCli ExecResult cli
      ["option"; "update"; "home"; provision.URL (provision.Settings s)] false siteurl.2 in
  (provision.installWordPress ExecResult host cli s w).1 = provision.Panics
  ↔ check.1.2 = None ∧ check.1.1.1 = 0
    ∧ provision.TrimSpace ExecResult host check.1.1.2 ≠ provision.URL (provision.Settings s)
    ∧ siteurl.1.2 = None
    ∧ (siteurl.1.1.1 ≠ 0 ∨ (home.1.2 = None ∧ home.1.1.1 ≠ 0)).
Proof.
  cbv zeta. unfold provision.installWordPress.
  unfold mbind at 1, StateM_bind at 1. rewrite Cli_WPCli_run.
  destruct (provision.WPCli ExecResult cli ["option"; "get"; "siteurl"] false
              (provision.engine w)) as [[[code checkURL] err] engine1].
  cbn [fst snd].
  destruct (bool_decide (err ≠ None) || negb (code =? 0)) eqn:Hcheck.
  { split.
    - unfold provision.consoleOutput_Println, provision.writeHtaccess,
        provision.os_WriteFile, provision.liftSite, provision.emit.
      unfold mbind, StateM_bind, mret, StateM_ret. cbv beta iota zeta.
      cbn [provision.log provision.engine].
      destruct (String.eqb _ "multisite-install").
      + destruct (site.getWordPressDirectory _ _ _) as [[dir [e1|]] e2]; [done|].
        destruct (provision.GetDefaultPermissions _ _) as [dperm fperm].
        destruct (provision.WriteFile_outcome _ _ _ _ _); [done|].
        rewrite Cli_WPCli_run.
        destruct (provision.WPCli _ _ _ _ _).1 as [[c2 o2] e3]; cbn [fst snd].
        by destruct (bool_decide (e3 ≠ None) || negb (c2 =? 0)).
      + rewrite Cli_WPCli_run.
        destruct (provision.WPCli _ _ _ _ _).1 as [[c2 o2] e3]; cbn [fst snd].
        by destruct (bool_decide (e3 ≠ None) || negb (c2 =? 0)).
    - intros (-> & -> & _). by rewrite bool_decide_eq_false_2 in Hcheck by (by intros []). }
  apply orb_false_iff in Hcheck as [Herr Hcode].
  apply bool_decide_eq_false in Herr. apply negb_false_iff, Z.eqb_eq in Hcode.
  assert (err = None) as -> by (by destruct err; [exfalso; apply Herr|]).
  subst code. clear Herr.
  destruct (String.eqb_spec (provision.TrimSpace ExecResult host checkURL)
              (provision.URL (provision.Settings s))) as [Hurl|Hurl]; cbn [negb].
  { split; [done|]. by intros (_ & _ & ? & _). }
  unfold provision.consoleOutput_Println, provision.emit.
  unfold mbind at 1, StateM_bind at 1. cbv beta iota zeta.
  cbn [provision.updateOptions].
  unfold mbind at 1, StateM_bind at 1. rewrite Cli_WPCli_run.
  cbn [provision.engine provision.log].
  destruct (provision.WPCli ExecResult cli
              ["option"; "update"; "siteurl"; provision.URL (provision.Settings s)] false engine1)
    as [[[code1 out1] err1] engine2].
  cbn [fst snd]. destruct err1 as [e1|].
  { cbn. split; [done|]. by intros (_ & _ & _ & ? & _). }
  destruct (Z.eqb_spec code1 0) as [->|Hcode1]; cbn [negb].
  2: { cbn. split; [|done]. intros _. repeat split; try done. by left. }
  unfold mbind at 1, StateM_bind at 1. rewrite Cli_WPCli_run.
  cbn [provision.engine provision.log].
  destruct (provision.WPCli ExecResult cli
              ["option"; "update"; "home"; provision.URL (provision.Settings s)] false engine2)
    as [[[code2 out2] err2] engine3].
  cbn [fst snd]. destruct err2 as [e2|].
  { cbn. split; [done|]. intros (_ & _ & _ & _ & [? | [? _]]); done. }
  destruct (Z.eqb_spec code2 0) as [->|Hcode2]; cbn [negb].
  - cbn. split; [done|]. intros (_ & _ & _ & _ & [? | [_ ?]]); done.
  - cbn. split; [|done]. intros _. repeat split; try done. by right.
Qed.

Lemma filesWritten_app (tr tr' : list provision.Event) :
  filesWritten (tr ++ tr') = filesWritten tr ++ filesWritten tr'.
Proof. apply omap_app. Qed.

(** The code's first-installation command is [coreInstallCommand]. *)
Lemma setupCommand_is_coreInstallCommand (st : provision.SiteSettings) :
  (if String.eqb (if negb (String.eqb (provision.Multisite st) "none")
                  then "multisite-install" else "install") "multisite-install"
   then
     if String.eqb (provision.Multisite st) "subdomain"
     then [ "core";
            if negb (String.eqb (provision.Multisite st) "none")
            then "multisite-install" else "install";
            "--url=" +:+ provision.URL st;
            "--title=Kana Development " +:+ settings.Type_ (provision.Core st) +:+ ": "
              +:+ settings.Name (provision.Core st);
            "--admin_user=" +:+ provision.AdminUsername st;
            "--admin_password=" +:+ provision.AdminPassword st;
            "--admin_email=" +:+ provision.AdminEmail st ] ++ ["--subdomains"]
     else [ "core";
            if negb (String.eqb (provision.Multisite st) "none")
            then "multisite-install" else "install";
            "--url=" +:+ provision.URL st;
            "--title=Kana Development " +:+ settings.Type_ (provision.Core st) +:+ ": "
              +:+ settings.Name (provision.Core st);
            "--admin_user=" +:+ provision.AdminUsername st;
            "--admin_password=" +:+ provision.AdminPassword st;
            "--admin_email=" +:+ provision.AdminEmail st ]
   else [ "core";
          if negb (String.eqb (provision.Multisite st) "none")
          then "multisite-install" else "install";
          "--url=" +:+ provision.URL st;
          "--title=Kana Development " +:+ settings.Type_ (provision.Core st) +:+ ": "
            +:+ settings.Name (provision.Core st);
          "--admin_user=" +:+ provision.AdminUsername st;
          "--admin_password=" +:+ provision.AdminPassword st;
          "--admin_email=" +:+ provision.AdminEmail st ])
  = coreInstallCommand st.
Proof.
  unfold coreInstallCommand.
  destruct (String.eqb_spec (provision.Multisite st) "none") as [Hnone|Hnone].
  - rewrite Hnone. reflexivity.
  - cbn [negb]. cbn [String.eqb Ascii.eqb Bool.eqb].
    by destruct (String.eqb (provision.Multisite st) "subdomain").
Qed.

(** X22. When the site does not answer the check of its URL (wp-cli
    fails or exits non-zero), [installWordPress] prints that it finishes
    the setup and installs WordPress with one wp-cli command:
    [core install] for a single site and [core multisite-install]
    otherwise, with [--subdomains] exactly for a subdomain multisite. It
    returns nil if that command succeeds with status 0 and an error
    carrying its output otherwise. For a single site no file is written.
    For a multisite it first writes the contents of [GetHtaccess], with
    the default file permissions, to [.htaccess] in the directory
    [getWordPressDirectory] returns, and only then issues the command; if
    the directory cannot be had or the file cannot be written, it returns
    that error and issues no command. *)
Theorem first_installation_command (s : provision.Site) (w : provision.World) :
  let st := provision.Settings s in
  let check :=
    provision.WPCli ExecResult cli ["option"; "get"; "siteurl"] false (provision.engine w) in
  let begun :=
    [provision.WPCliCall ["option"; "get"; "siteurl"] false;
     provision.Println "Finishing WordPress setup."] in
  let directory :=
    site.getWordPressDirectory (provision.siteHost ExecResult host) (provision.core s)
      check.2 in
  let path := filepath.Join [directory.1.1; ".htaccess"] in
  let contents := provision.GetHtaccess ExecResult host st in
  let perm := (provision.GetDefaultPermissions ExecResult host).2 in
  let installed (engine : site.World) (before : list provision.Event) :=
    let install := provision.WPCli ExecResult cli (coreInstallCommand st) false engine in
    (provision.Returns
       (if bool_decide (install.1.2 ≠ None) || negb (install.1.1.1 =? 0)
        then Errorf ("installation of WordPress failed: " +:+ install.1.1.2)
        else None),
     {| provision.log :=
          provision.log w ++ before ++ [provision.WPCliCall (coreInstallCommand st) false];
        provision.engine := install.2 |}) in
  check.1.2 ≠ None ∨ check.1.1.1 ≠ 0 →
  ("--subdomains" ∈ coreInstallCommand st ↔ provision.Multisite st = "subdomain")
  ∧ (coreInstallCommand st !! 1%nat = Some "install" ↔ provision.Multisite st = "none")
  ∧ provision.installWordPress ExecResult host cli s w
    = if String.eqb (provision.Multisite st) "none"
      then installed check.2 begun
      else
        match directory.1.2 with
        | Some e =>
            (provision.Returns (Some e),
             {| provision.log := provision.log w ++ begun;
                provision.engine := directory.2 |})
        | None =>
            match provision.WriteFile_outcome ExecResult host path contents perm with
            | Some e =>
                (provision.Returns (Some e),
                 {| provision.log :=
                      provision.log w ++ begun ++ [provision.WriteFile path contents perm];
                    provision.engine := directory.2 |})
            | None => installed directory.2 (begun ++ [provision.WriteFile path contents perm])
            end
        end.
Proof.
  cbv zeta. intros Hcheck.
  split.
  { unfold coreInstallCommand.
    destruct (String.eqb_spec (provision.Multisite (provision.Settings s)) "subdomain")
      as [Hs|Hs].
    + split; [done|]. intros _. apply elem_of_app. right. by left.
    + split; [|done]. rewrite app_nil_r, !elem_of_cons, elem_of_nil, !append_cons.
      destruct (String.eqb _ "none"); intuition discriminate. }
  split.
  { unfold coreInstallCommand.
    destruct (String.eqb_spec (provision.Multisite (provision.Settings s)) "none")
      as [Hn|Hn]; cbn; split; done. }
  revert Hcheck. unfold provision.installWordPress.
  unfold mbind at 1, StateM_bind at 1. rewrite Cli_WPCli_run.
  destruct (provision.WPCli ExecResult cli ["option"; "get"; "siteurl"] false
              (provision.engine w)) as [[[code checkURL] err] engine1].
  cbn [fst snd]. intros Hcheck.
  assert (bool_decide (err ≠ None) || negb (code =? 0) = true) as ->.
  { destruct Hcheck as [Herr | Hcode].
    - by rewrite bool_decide_eq_true_2.
    - apply orb_true_iff. right. by apply negb_true_iff, Z.eqb_neq. }
  pose proof (setupCommand_is_coreInstallCommand (provision.Settings s)) as Hcmd.
  unfold provision.consoleOutput_Println, provision.writeHtaccess,
    provision.os_WriteFile, provision.liftSite, provision.emit.
  unfold mbind, StateM_bind, mret, StateM_ret. cbv beta iota zeta.
  cbn [provision.log provision.engine].
  destruct (String.eqb_spec (provision.Multisite (provision.Settings s)) "none") as [Hn|Hn].
  - rewrite Hn in Hcmd. cbn [negb String.eqb Ascii.eqb Bool.eqb] in Hcmd |- *.
    rewrite Cli_WPCli_run. cbn [provision.log provision.engine].
    rewrite Hcmd.
    destruct (provision.WPCli _ _ _ _ _) as [[[c2 o2] e3] engine2]; cbn [fst snd].
    destruct (bool_decide (e3 ≠ None) || negb (c2 =? 0));
      cbn [app provision.log provision.engine]; by rewrite <- !app_assoc.
  - cbn [negb] in Hcmd |- *. cbn [String.eqb Ascii.eqb Bool.eqb] in Hcmd |- *.
    destruct (site.getWordPressDirectory _ _ _) as [[dir [e1|]] engine2]; cbn [fst snd].
    { cbn [app provision.log provision.engine]. by rewrite <- !app_assoc. }
    destruct (provision.GetDefaultPermissions _ _) as [dperm fperm]; cbn [fst snd].
    destruct (provision.WriteFile_outcome _ _ _ _ _) as [e4|].
    { cbn [app provision.log provision.engine]. by rewrite <- !app_assoc. }
    rewrite Cli_WPCli_run. cbn [provision.log provision.engine].
    rewrite Hcmd.
    destruct (provision.WPCli _ _ _ _ _) as [[[c2 o2] e3] engine3]; cbn [fst snd].
    destruct (bool_decide (e3 ≠ None) || negb (c2 =? 0));
      cbn [app provision.log provision.engine]; by rewrite <- !app_assoc.
Qed.

(** X23. [activateProject] and [activateTheme] issue at most one wp-cli
    command and return exactly the error of that command: a non-zero exit
    status only prints a warning. [activateProject] does nothing at all
    for a site, or when activation is switched off; [activateTheme] does
    nothing for a theme project or when no default theme is set. *)
Theorem activation_warns_but_does_not_fail (s : provision.Site) (w : provision.World) :
  let st := provision.Settings s in
  let project := provision.activateProject ExecResult host cli s w in
  let theme := provision.activateTheme ExecResult host cli s w in
  (if provision.Activate st && negb (String.eqb (settings.Type_ (provision.Core st)) "site")
   then
     let call :=
       provision.WPCli ExecResult cli
         [settings.Type_ (provision.Core st); "activate"; settings.Name (provision.Core st)]
         false (provision.engine w) in
     project.1 = call.1.2
     ∧ cliCalls (provision.log project.2)
       = cliCalls (provision.log w)
           ++ [([settings.Type_ (provision.Core st); "activate";
                 settings.Name (provision.Core st)], false)]
     ∧ (warnings (provision.log project.2) ≠ warnings (provision.log w)
        ↔ call.1.2 = None ∧ call.1.1.1 ≠ 0)
   else project = (None, w))
  ∧ (if String.eqb (settings.Type_ (provision.Core st)) "theme"
        || String.eqb (provision.Theme st) ""
     then theme = (None, w)
     else
       let call :=
         provision.WPCli ExecResult cli
           ["theme"; "install"; "--activate"; provision.Theme st] false (provision.engine w) in
       theme.1 = call.1.2
       ∧ cliCalls (provision.log theme.2)
         = cliCalls (provision.log w)
             ++ [(["theme"; "install"; "--activate"; provision.Theme st], false)]
       ∧ (warnings (provision.log theme.2) ≠ warnings (provision.log w)
          ↔ call.1.2 = None ∧ call.1.1.1 ≠ 0)).
Proof.
  cbv zeta. split.
  - remember (provision.activateProject ExecResult host cli s w) as r eqn:Hr.
    revert Hr. unfold provision.activateProject.
    destruct (provision.Activate _ && negb _); [|by intros ->].
    unfold provision.consoleOutput_Println, provision.consoleOutput_Warn, provision.emit.
    unfold mbind, StateM_bind, mret, StateM_ret. cbv beta iota zeta.
    rewrite Cli_WPCli_run. cbn [provision.log provision.engine].
    destruct (provision.WPCli _ _ _ _ _) as [[[code out] [e|]] engine1]; cbn [fst snd].
    { intros ->. cbn [fst snd provision.log].
      rewrite !cliCalls_app, !warnings_app. cbn. rewrite !app_nil_r.
      split; [done|]. split; [done|]. split; [done | by intros [? _]]. }
    destruct (Z.eqb_spec code 0) as [->|Hcode]; cbn [negb]; intros ->;
      cbn [fst snd provision.log];
      rewrite !cliCalls_app, !warnings_app; cbn; rewrite ?app_nil_r.
    + split; [done|]. split; [done|]. split; [done | by intros [_ ?]].
    + split; [done|]. split; [done|]. split; [done|]. intros _ Heq.
      apply (f_equal length) in Heq. rewrite length_app in Heq. cbn in Heq. lia.
  - remember (provision.activateTheme ExecResult host cli s w) as r eqn:Hr.
    revert Hr. unfold provision.activateTheme.
    destruct (String.eqb _ "theme" || String.eqb _ ""); [by intros ->|].
    unfold provision.consoleOutput_Println, provision.consoleOutput_Warn, provision.emit.
    unfold mbind, StateM_bind, mret, StateM_ret. cbv beta iota zeta.
    rewrite Cli_WPCli_run. cbn [provision.log provision.engine].
    destruct (provision.WPCli _ _ _ _ _) as [[[code out] [e|]] engine1]; cbn [fst snd].
    { intros ->. cbn [fst snd provision.log].
      rewrite !cliCalls_app, !warnings_app. cbn. rewrite !app_nil_r.
      split; [done|]. split; [done|]. split; [done | by intros [? _]]. }
    destruct (Z.eqb_spec code 0) as [->|Hcode]; cbn [negb]; intros ->;
      cbn [fst snd provision.log];
      rewrite !cliCalls_app, !warnings_app; cbn; rewrite ?app_nil_r.
    + split; [done|]. split; [done|]. split; [done | by intros [_ ?]].
    + split; [done|]. split; [done|]. split; [done|]. intros _ Heq.
      apply (f_equal length) in Heq. rewrite length_app in Heq. cbn in Heq. lia.
Qed.

(** X24. When the check of the site URL succeeds with status 0,
    [installWordPress] installs nothing and writes no file. If the
    trimmed URL is the configured one it does nothing more and returns
    nil. Otherwise it updates [siteurl] and then, only if that update
    succeeded with status 0, [home], both to the configured URL; it
    returns nil exactly when both updates succeeded with status 0. *)
Theorem url_update_commands (s : provision.Site) (w : provision.World) :
  let url := provision.URL (provision.Settings s) in
  let check :=
    provision.WPCli ExecResult cli ["option"; "get"; "siteurl"] false (provision.engine w) in
  let siteurl :=
    provision.WPCli ExecResult cli ["option"; "update"; "siteurl"; url] false check.2 in
  let home :=
    provision.WPCli ExecResult cli ["option"; "update"; "home"; url] false siteurl.2 in
  let r := provision.installWordPress ExecResult host cli s w in
  check.1.2 = None →
  check.1.1.1 = 0 →
  filesWritten (provision.log r.2) = filesWritten (provision.log w)
  ∧ if String.eqb (provision.TrimSpace ExecResult host check.1.1.2) url
    then
      r = (provision.Returns None,
           {| provision.log :=
                provision.log w ++ [provision.WPCliCall ["option"; "get"; "siteurl"] false];
              provision.engine := check.2 |})
    else
      ∃ issued,
        cliCalls (provision.log r.2)
        = cliCalls (provision.log w) ++ (["option"; "get"; "siteurl"], false) :: issued
        ∧ (if bool_decide (siteurl.1.2 = None) && (siteurl.1.1.1 =? 0)
           then issued = [(["option"; "update"; "siteurl"; url], false);
                          (["option"; "update"; "home"; url], false)]
           else issued = [(["option"; "update"; "siteurl"; url], false)])
        ∧ (r.1 = provision.Returns None
           ↔ siteurl.1.2 = None ∧ siteurl.1.1.1 = 0 ∧ home.1.2 = None ∧ home.1.1.1 = 0).
Proof.
  cbv zeta.
  remember (provision.installWordPress ExecResult host cli s w) as r eqn:Hr.
  revert Hr. unfold provision.installWordPress.
  unfold mbind at 1, StateM_bind at 1. rewrite Cli_WPCli_run.
  destruct (provision.WPCli ExecResult cli ["option"; "get"; "siteurl"] false
              (provision.engine w)) as [[[code checkURL] err] engine1].
  cbn [fst snd]. intros Hr -> ->. revert Hr.
  rewrite bool_decide_eq_false_2 by (by intros []). cbn [orb negb Z.eqb].
  destruct (String.eqb_spec (provision.TrimSpace ExecResult host checkURL)
              (provision.URL (provision.Settings s))) as [Hurl|Hurl]; cbn [negb].
  { intros ->. unfold mret, StateM_ret. cbn [fst snd provision.log].
    rewrite filesWritten_app. cbn. by rewrite app_nil_r. }
  unfold provision.consoleOutput_Println, provision.emit.
  unfold mbind at 1, StateM_bind at 1. cbv beta iota zeta.
  cbn [provision.updateOptions].
  unfold mbind at 1, StateM_bind at 1. rewrite Cli_WPCli_run.
  cbn [provision.engine provision.log].
  destruct (provision.WPCli ExecResult cli
              ["option"; "update"; "siteurl"; provision.URL (provision.Settings s)] false engine1)
    as [[[code1 out1] err1] engine2].
  cbn [fst snd]. destruct err1 as [e1|].
  { unfold mret, StateM_ret. intros ->. cbn [fst snd provision.log].
    rewrite !filesWritten_app, !cliCalls_app. cbn. rewrite !app_nil_r.
    split; [done|]. eexists. rewrite <- app_assoc. split; [done|].
    split; [done|]. split; [done | by intros (? & _)]. }
  rewrite bool_decide_eq_true_2 by done. cbn [andb].
  destruct (Z.eqb_spec code1 0) as [->|Hcode1]; cbn [negb].
  2: { unfold mret, StateM_ret. intros ->. cbn [fst snd provision.log].
       rewrite !filesWritten_app, !cliCalls_app. cbn. rewrite !app_nil_r.
       split; [done|]. eexists. rewrite <- app_assoc. split; [done|].
       split; [done|]. split; [done | by intros (_ & ? & _)]. }
  unfold mbind at 1, StateM_bind at 1. rewrite Cli_WPCli_run.
  cbn [provision.engine provision.log].
  destruct (provision.WPCli ExecResult cli
              ["option"; "update"; "home"; provision.URL (provision.Settings s)] false engine2)
    as [[[code2 out2] err2] engine3].
  cbn [fst snd]. destruct err2 as [e2|].
  { unfold mret, StateM_ret. intros ->. cbn [fst snd provision.log].
    rewrite !filesWritten_app, !cliCalls_app. cbn. rewrite !app_nil_r.
    split; [done|]. eexists. rewrite <- !app_assoc. split; [done|].
    split; [done|]. split; [done | by intros (_ & _ & ? & _)]. }
  destruct (Z.eqb_spec code2 0) as [->|Hcode2]; cbn [negb provision.updateOptions];
    unfold mret, StateM_ret; intros ->; cbn [fst snd provision.log];
    rewrite !filesWritten_app, !cliCalls_app; cbn; rewrite !app_nil_r;
    (split; [done|]); eexists; rewrite <- !app_assoc; (split; [done|]);
    (split; [done|]); (split; [done|]).
  - done.
  - by intros (_ & _ & _ & ?).
Qed.

End ProvisionFacts.

Lemma installed_plugins_are_filtered_witness :
  ∃ code commandOutput rawPlugins,
    (provision.WPCli unit (provisionSamples.fixedCli (0, "[]", None))
       ["plugin"; "list"; "--format=json"] false
       (provision.engine provisionSamples.freshWorld)).1 = (code, commandOutput, None)
    ∧ provision.Unmarshal unit (provisionSamples.quietHost (provisionSamples.listed, None))
        commandOutput = (rawPlugins, None)
    ∧ ["query-monitor"]
      = map provision.Name (List.filter (keepListed provisionSamples.acme) rawPlugins)
    ∧ true = existsb isDefaultPlugin rawPlugins
    ∧ ("hello" ∉ ["query-monitor"])
    ∧ ("akismet" ∉ ["query-monitor"])
    ∧ (settings.Name (provision.Core (provision.Settings provisionSamples.acme))
       ∉ ["query-monitor"]).
Proof.
  apply (installed_plugins_are_filtered unit
           (provisionSamples.quietHost (provisionSamples.listed, None))
           (provisionSamples.fixedCli (0, "[]", None))
           provisionSamples.acme provisionSamples.freshWorld ["query-monitor"] true).
  reflexivity.
Defined.

Lemma installed_plugins_on_error_witness :
  ([] : list string) = [] ∧ true = true
  ∧ ((provision.WPCli unit (provisionSamples.fixedCli (0, "Warning: PHP Notice", None))
        ["plugin"; "list"; "--format=json"] false
        (provision.engine provisionSamples.freshWorld)).1.2 = Some "invalid character 'W'"
     ∨ ∃ code commandOutput,
         (provision.WPCli unit (provisionSamples.fixedCli (0, "Warning: PHP Notice", None))
            ["plugin"; "list"; "--format=json"] false
            (provision.engine provisionSamples.freshWorld)).1 = (code, commandOutput, None)
         ∧ (provision.Unmarshal unit
              (provisionSamples.quietHost ([], Some "invalid character 'W'"))
              commandOutput).2 = Some "invalid character 'W'").
Proof.
  apply (installed_plugins_on_error unit
           (provisionSamples.quietHost ([], Some "invalid character 'W'"))
           (provisionSamples.fixedCli (0, "Warning: PHP Notice", None))
           provisionSamples.acme provisionSamples.freshWorld [] true "invalid character 'W'").
  reflexivity.
Defined.

Lemma installWordPress_panics_iff_witness :
  (provision.installWordPress unit (provisionSamples.quietHost ([], None))
     provisionSamples.staleCli provisionSamples.acme provisionSamples.freshWorld).1
  = provision.Panics.
Proof.
  apply (installWordPress_panics_iff unit (provisionSamples.quietHost ([], None))
           provisionSamples.staleCli provisionSamples.acme provisionSamples.freshWorld).
  vm_compute. repeat split; [discriminate | left; discriminate].
Defined.

Lemma first_installation_command_witness :
  provision.installWordPress unit (provisionSamples.quietHost ([], None))
    provisionSamples.blankCli provisionSamples.acme provisionSamples.freshWorld
  = (provision.Returns None,
     {| provision.log :=
          [ provision.WPCliCall ["option"; "get"; "siteurl"] false;
            provision.Println "Finishing WordPress setup.";
            provision.WriteFile "/home/dev/acme/.htaccess" "RewriteEngine On" 420;
            provision.WPCliCall
              [ "core"; "multisite-install"; "--url=https://acme.sites.kana.sh";
                "--title=Kana Development site: acme"; "--admin_user=admin";
                "--admin_password=password"; "--admin_email=admin@sites.kana.sh";
                "--subdomains" ] false ];
        provision.engine :=
          {| site.trace := [site.MkdirAll "/home/dev/acme" site.defaultDirPermissions];
             site.containers := ∅ |} |}).
Proof.
  destruct (first_installation_command unit (provisionSamples.quietHost ([], None))
              provisionSamples.blankCli provisionSamples.acme provisionSamples.freshWorld)
    as (_ & _ & Hr); [right; vm_compute; discriminate|].
  rewrite Hr. reflexivity.
Defined.

Lemma url_update_commands_witness :
  let cli := provisionSamples.fixedCli (0, "https://acme.sites.kana.sh", None) in
  let r :=
    provision.installWordPress unit (provisionSamples.quietHost ([], None)) cli
      provisionSamples.acme provisionSamples.freshWorld in
  filesWritten (provision.log r.2) = filesWritten (provision.log provisionSamples.freshWorld)
  ∧ r = (provision.Returns None,
         {| provision.log := [provision.WPCliCall ["option"; "get"; "siteurl"] false];
            provision.engine := samples.freshWorld |}).
Proof.
  apply (url_update_commands unit (provisionSamples.quietHost ([], None))
           (provisionSamples.fixedCli (0, "https://acme.sites.kana.sh", None))
           provisionSamples.acme provisionSamples.freshWorld); reflexivity.
Defined.

Lemma installed_plugins_are_installed_again_witness :
  let host := provisionSamples.quietHost (provisionSamples.listed, None) in
  let cli := provisionSamples.fixedCli (1, "Warning: already installed.", None) in
  let r :=
    provision.installDefaultPlugins unit host cli provisionSamples.acme
      provisionSamples.freshWorld in
  r = provision.installEach unit host cli [] ["query-monitor"; "akismet"]
        {| provision.log := [provision.WPCliCall ["plugin"; "list"; "--format=json"] false];
           provision.engine := samples.freshWorld |}
  ∧ r.1 = None
  ∧ cliCalls (provision.log r.2)
    = [ (["plugin"; "list"; "--format=json"], false);
        (["plugin"; "install"; "--activate"; "query-monitor"], false);
        (["plugin"; "install"; "--activate"; "akismet"], false) ]
  ∧ warnings (provision.log r.2)
    = [ "Unable to install plugin: query-monitor.";
        "Unable to install plugin: akismet." ].
Proof.
  cbv zeta.
  destruct (installed_plugins_are_installed_again unit
              (provisionSamples.quietHost (provisionSamples.listed, None))
              (provisionSamples.fixedCli (1, "Warning: already installed.", None))
              provisionSamples.acme provisionSamples.freshWorld) as [_ Hinstalled].
  destruct Hinstalled as [Hr _]; [reflexivity|].
  split; [exact Hr|]. rewrite Hr. repeat split; reflexivity.
Defined.
